(** * Patent Explorer: a shallow embedding of the chat endpoint, the tool set
      and the environment validation, with the properties of the design
      document settled against them.

    Source files embedded here:
    - [src/lib/tools.ts]              (modules [Tools], [SearchTools],
                                       [Charts]),
    - [src/lib/env-validation.ts]     (module [EnvValidation]),
    - [src/app/layout.tsx]            (module [Layout]),
    - [src/app/api/chat/route.ts]     (modules [ChatRoute], [ChatFinish]),
    - [src/components/missing-keys-dialog.tsx] (module [MissingKeys]).

    JavaScript control flow is modelled with completion records (normal,
    return, throw); a function body maps the persistent store to the new
    store, the list of calls it made to the outside world, and its
    completion. Every answer of the outside world (database, sandbox
    service, search index, telemetry, clock, UUID generator) is an explicit
    input (an "oracle") of the embedded function. A string is held as its
    UTF-8 encoding; its [length] counts UTF-16 code units, as in JavaScript.

    Layout: the embedding ([JS], [Flow], [Tools], [EnvValidation],
    [ChatRoute], [SearchTools], [Charts], [Layout], [ChatFinish],
    [MissingKeys]); the vocabulary of the properties ([CsvSpec], [EnvSpec],
    [ChatSpec], [ToolsSpec], [ChatGuards]) and concrete inputs ([Examples],
    [ToolExamples], [FinishExamples], [ChatExamples]); then the proofs:
    the properties of the design document ([JSFacts], [FlowFacts],
    [CsvFacts], [ToolsFacts], [EnvFacts], [ChatFacts]), followed by further
    properties of the same code ([FlowPrefix], [ToolsRobustness],
    [SearchFacts], [ChartFacts], [EnvReport], [ChatGuardFacts],
    [FinishFacts], [DialogFacts]). *)

From Stdlib Require Import Ascii String ZArith QArith Lia DecimalString.
From stdpp Require Import base gmap strings list.

Open Scope string_scope.
Open Scope list_scope.

(* ===================================================================== *)
(** ** JavaScript strings and arrays *)
(* ===================================================================== *)

Module JS.

(** A string is held as its UTF-8 encoding, one [ascii] per byte. *)

Definition comma : ascii := "044"%char.
Definition dquote : ascii := "034"%char.
Definition newline : ascii := "010"%char.

Definition str (c : ascii) : string := String c EmptyString.

(** [String.prototype.includes] *)
Fixpoint includes (s needle : string) : bool :=
  String.prefix needle s ||
  match s with
  | EmptyString => false
  | String _ s' => includes s' needle
  end.

(** [s.replace(/c/g, by)] for a one-character pattern. *)
Fixpoint replaceAll (c : ascii) (by_ : string) (s : string) : string :=
  match s with
  | EmptyString => EmptyString
  | String a s' =>
      if Ascii.eqb a c then by_ +:+ replaceAll c by_ s'
      else String a (replaceAll c by_ s')
  end.

(** [Array.prototype.join] *)
Fixpoint join (sep : string) (l : list string) : string :=
  match l with
  | [] => EmptyString
  | x :: rest =>
      match rest with
      | [] => x
      | _ :: _ => x +:+ sep +:+ join sep rest
      end
  end.

Definition lower (c : ascii) : ascii :=
  let n := nat_of_ascii c in
  if (65 <=? n)%nat && (n <=? 90)%nat then ascii_of_nat (n + 32) else c.

(** The bytes of the dotted capital I (U+0130) and of the Kelvin sign
    (U+212A), and the lower-case form of the first: i followed by the
    combining dot above (U+0307). *)
Definition is_dotted_I (c1 c2 : ascii) : bool :=
  Ascii.eqb c1 "196" && Ascii.eqb c2 "176".

Definition is_kelvin (c1 c2 c3 : ascii) : bool :=
  Ascii.eqb c1 "226" && Ascii.eqb c2 "132" && Ascii.eqb c3 "170".

Definition i_dot (rest : string) : string :=
  String "i" (String "204" (String "135" rest)).

(** [String.prototype.toLowerCase]. The capitals of ASCII become small
    letters, the Kelvin sign becomes [k] and the dotted capital I becomes
    [i] with a combining dot: these are the characters whose lower-case
    form holds an ASCII character. Any other character outside ASCII is
    kept as it is; its lower-case form holds no ASCII character, so a test
    [s.toLowerCase().includes(p)] against an ASCII text [p], the only use
    that the handler makes of it, is decided as in JavaScript. *)
Fixpoint toLowerCase (s : string) : string :=
  match s with
  | EmptyString => EmptyString
  | String c1 s1 =>
      match s1 with
      | EmptyString => String (lower c1) EmptyString
      | String c2 s2 =>
          if is_dotted_I c1 c2 then i_dot (toLowerCase s2)
          else
            match s2 with
            | EmptyString => String (lower c1) (toLowerCase s1)
            | String c3 s3 =>
                if is_kelvin c1 c2 c3 then String "k" (toLowerCase s3)
                else String (lower c1) (toLowerCase s1)
            end
      end
  end.

(** The number of UTF-16 code units that a byte of the encoding stands
    for: a character of one, two or three bytes is one code unit, a
    character of four bytes is a surrogate pair; a continuation byte
    counts for nothing. *)
Definition code_units (c : ascii) : nat :=
  let n := nat_of_ascii c in
  if (n <? 128)%nat then 1%nat
  else if (n <? 192)%nat then 0%nat
  else if (n <? 240)%nat then 1%nat
  else 2%nat.

(** [s.length] *)
Fixpoint length (s : string) : nat :=
  match s with
  | EmptyString => 0%nat
  | String c s' => (code_units c + length s')%nat
  end.

(** [String.prototype.startsWith] *)
Definition startsWith (s p : string) : bool := String.prefix p s.

(** [Number.prototype.toString] on the naturals and on the integers. *)
Definition of_nat (n : nat) : string := NilEmpty.string_of_uint (Nat.to_uint n).
Definition of_Z (z : Z) : string := NilEmpty.string_of_int (Z.to_int z).

(** Truthiness of a possibly missing string: [undefined], [null] and the
    empty string are falsy. *)
Definition truthy (o : option string) : bool :=
  match o with
  | Some s => negb (String.eqb s EmptyString)
  | None => false
  end.

(** [o || d] on strings. *)
Definition or_else (o : option string) (d : string) : string :=
  if truthy o then default d o else d.

(** [o || null], [o || undefined] on strings. *)
Definition or_none (o : option string) : option string :=
  if truthy o then o else None.

(** Values that a [throw] or a rejection can carry: an [Error] object (a
    [TypeError] is one), a bare string, [undefined], [null], or any other
    value. Of another value only its [message] property is ever read, and
    only in [error.message || d] inside a template: [message] tells what
    becomes of that read, the text that a truthy property prints as, [None]
    for a property that is missing or falsy, or what is thrown when the
    property cannot be read or printed (a getter that throws, a symbol). *)
#[warnings="-register-all"] Inductive exn :=
| Error (message : string)
| Thrown_string (s : string)
| Thrown_undefined
| Thrown_null
| Thrown_other (message : exn + option string).

(** [error.message] on a caught value of type [any]. Reading a property of
    [undefined] or of [null] throws a [TypeError] (with the text of V8); a
    string has no such property. *)
Definition message (e : exn) : exn + option string :=
  match e with
  | Error m => inr (Some m)
  | Thrown_string _ => inr None
  | Thrown_undefined =>
      inl (Error "Cannot read properties of undefined (reading 'message')")
  | Thrown_null =>
      inl (Error "Cannot read properties of null (reading 'message')")
  | Thrown_other m => m
  end.

(** JSON values, as far as the tools build them. *)
#[warnings="-register-all"] Inductive json :=
| JNull
| JBool (b : bool)
| JNum (n : Z)
| JStr (s : string)
| JArr (items : list json)
| JObj (fields : list (string * json)).

(** Property lookup on a JSON object. *)
Definition field (k : string) (j : json) : option json :=
  match j with
  | JObj fs => snd <$> List.find (fun kv => String.eqb (fst kv) k) fs
  | _ => None
  end.

End JS.

(* ===================================================================== *)
(** ** Completion records: the control flow of an [async] function body *)
(* ===================================================================== *)

Module Flow.

Inductive completion (R A : Type) :=
| Normal (a : A)
| Return (r : R)
| Throw (e : JS.exn).
Arguments Normal {R A} a.
Arguments Return {R A} r.
Arguments Throw {R A} e.

Section Monad.
Context {S E : Type}.

(** A computation inside a function whose [return] statements carry an [R]:
    from the store [S] it yields the new store, the calls it made to the
    outside world (events [E], in the order they were issued) and its
    completion. *)
Definition M (R A : Type) : Type := S -> S * list E * completion R A.

Definition pure {R A} (a : A) : M R A := fun s => (s, [], Normal a).
Definition ret {R A} (r : R) : M R A := fun s => (s, [], Return r).
Definition throw {R A} (e : JS.exn) : M R A := fun s => (s, [], Throw e).

Definition bind {R A B} (m : M R A) (k : A -> M R B) : M R B :=
  fun s =>
    match m s with
    | (s', t, Normal a) => let '(s'', t', c) := k a s' in (s'', t ++ t', c)
    | (s', t, Return r) => (s', t, Return r)
    | (s', t, Throw e) => (s', t, Throw e)
    end.

(** [try { m } catch (e) { h e }] *)
Definition try_catch {R A} (m : M R A) (h : JS.exn -> M R A) : M R A :=
  fun s =>
    match m s with
    | (s', t, Throw e) => let '(s'', t', c) := h e s' in (s'', t ++ t', c)
    | r => r
    end.

(** [try { m } finally { f }]: [f] always runs; an abrupt completion of
    [f] replaces the completion of [m]. *)
Definition try_finally {R A} (m : M R A) (f : M R unit) : M R A :=
  fun s =>
    let '(s', t, c) := m s in
    match f s' with
    | (s'', t', Normal _) => (s'', t ++ t', c)
    | (s'', t', Return r) => (s'', t ++ t', Return r)
    | (s'', t', Throw e) => (s'', t ++ t', Throw e)
    end.

(** An expression that yields a value or throws. *)
Definition eval {R A} (x : JS.exn + A) : M R A :=
  match x with
  | inl e => throw e
  | inr a => pure a
  end.

Definition modify {R} (f : S -> S) : M R unit := fun s => (f s, [], Normal tt).
Definition get {R} : M R S := fun s => (s, [], Normal s).

(** A call to the outside world, recorded. *)
Definition log {R} (e : E) : M R unit := fun s => (s, [e], Normal tt).

(** [when b m]: [if (b) { m }] *)
Definition when {R} (b : bool) (m : M R unit) : M R unit :=
  if b then m else pure tt.

(** What an awaited call to the outside world can do: resolve or reject. *)
Inductive answer (A : Type) :=
| Resolves (a : A)
| Rejects (e : JS.exn).

(** What a call to the persistence layer [@/lib/db] can do: succeed, report
    an [{ error }] without throwing, or throw. *)
Inductive db_answer :=
| Db_ok
| Db_error
| Db_throws (e : JS.exn).

(** [l.forEach(f)] *)
Fixpoint forEach {R A} (l : list A) (f : A -> M R unit) : M R unit :=
  match l with
  | [] => pure tt
  | x :: rest => bind (f x) (fun _ => forEach rest f)
  end.

(** [l.map(f)] for a callback that can throw. *)
Fixpoint mapM {R A B} (f : A -> M R B) (l : list A) : M R (list B) :=
  match l with
  | [] => pure []
  | x :: rest =>
      bind (f x) (fun y => bind (mapM f rest) (fun ys => pure (y :: ys)))
  end.

(** The three components of a run: the store it leaves, the calls it made,
    and how it completed. *)
Definition final {R A} (m : M R A) (s : S) : S := fst (fst (m s)).
Definition trace {R A} (m : M R A) (s : S) : list E := snd (fst (m s)).
Definition outcome {R A} (m : M R A) (s : S) : completion R A := snd (m s).

(** Judgements on a computation, for every store it is run from: every
    call it makes satisfies [Q]; it contains no [return]; it leaves the store
    as it was. *)
Definition emits (Q : E -> Prop) {R A} (m : M R A) : Prop :=
  forall s, Forall Q (trace m s).

Definition falls_through {R A} (m : M R A) : Prop :=
  forall s r, outcome m s <> Return r.

Definition reads_only {R A} (m : M R A) : Prop :=
  forall s, final m s = s.

(** Whatever the computation returns satisfies [P]; it never ends without
    a [return] or a [throw]; it never throws. *)
Definition returns {R A} (P : R -> Prop) (m : M R A) : Prop :=
  forall s r, outcome m s = Return r -> P r.

Definition never_normal {R A} (m : M R A) : Prop :=
  forall s a, outcome m s <> Normal a.

Definition never_throws {R A} (m : M R A) : Prop :=
  forall s err, outcome m s <> Throw err.

(** [wp m post s]: the run of [m] from [s] ends in a store, with calls and
    with a completion that satisfy [post]. *)
Definition wp {R A} (m : M R A)
    (post : S -> list E -> completion R A -> Prop) (s : S) : Prop :=
  post (final m s) (trace m s) (outcome m s).

(** The result of calling a function with body [m]: the new store, the
    calls made, and what the function returns or throws. *)
Definition call {R} (m : M R R) (s : S) : S * list E * (JS.exn + R) :=
  match m s with
  | (s', t, Normal r) => (s', t, inr r)
  | (s', t, Return r) => (s', t, inr r)
  | (s', t, Throw e) => (s', t, inl e)
  end.
End Monad.

Arguments Resolves {A} a.
Arguments Rejects {A} e.

(** An awaited call: recorded, then resolved or rejected as the outside
    world decides. *)
Definition await {S E R A} (e : E) (a : answer A) : @M S E R A :=
  bind (log e)
       (fun _ => match a with
                 | Resolves v => pure v
                 | Rejects err => throw err
                 end).

(** A mutable local variable of type [V], declared with initial value
    [init] and visible in [m]: the store is extended for the extent of [m]. *)
Definition with_var {S E V R A} (init : V) (m : @M (S * V) E R A) : @M S E R A :=
  fun s => let '((s', _), t, c) := m (s, init) in (s', t, c).

(** A computation that does not touch the local variable. *)
Definition lift {S E V R A} (m : @M S E R A) : @M (S * V) E R A :=
  fun sv => let '(s', t, c) := m (fst sv) in ((s', snd sv), t, c).

Definition set_var {S E V R} (v : V) : @M (S * V) E R unit :=
  fun sv => ((fst sv, v), [], Normal tt).

Definition get_var {S E V R} : @M (S * V) E R V :=
  fun sv => (sv, [], Normal (snd sv)).

Declare Scope flow_scope.
Delimit Scope flow_scope with flow.
Notation "'let*' x ':=' m 'in' k" := (bind m (fun x => k))
  (at level 10, x name, m at level 100, k at level 200) : flow_scope.
Notation "m ';;' k" := (bind m (fun _ => k))
  (at level 100, k at level 200, right associativity) : flow_scope.

End Flow.

(* ===================================================================== *)
(** ** The tool set ([src/lib/tools.ts]) *)
(* ===================================================================== *)

Module Tools.
Import Flow.
Open Scope flow_scope.

(** [options.experimental_context] *)
Record context := {
  ctx_userId : option string;
  ctx_sessionId : option string;
  ctx_userTier : option string;
}.

(** The row handed to [db.createCSV] ([insertData]). *)
Record csv_row := {
  csv_id : string;
  csv_session_id : option string;
  csv_title : string;
  csv_description : option string;
  csv_headers : list string;
  csv_rows : list (list string);
  csv_user_id : option string;
  csv_anonymous_id : option string;
}.

(** [execution] as returned by [sandbox.process.codeRun]. *)
Record execution := {
  exitCode : Z;
  result : option string;
}.

(** The response of [valyu.search]. *)
Record search_response := {
  results : option (list JS.json);
  total_deduction_dollars : option Q;
}.

(** Calls made to the outside world, in the order they are issued. *)
Inductive event :=
| Db_createCSV (row : csv_row)
| Track (name : string) (props : list (string * JS.json))
| Console_error (tag : string)
| Daytona_new (apiKey : string)
| Daytona_create
| Sandbox_codeRun (sandbox : string) (code : string)
| Sandbox_delete (sandbox : string)
| Polar_new
| Polar_trackDaytonaUsage (userId sessionId : string) (executionTime : Z)
| Valyu_new (apiKey : string)
| Valyu_search (query : string) (maxNumResults : Z) (relevanceThreshold : Q)
| Polar_trackValyuAPIUsage (userId sessionId tool : string) (cost : Q)
    (resultCount : nat).

Definition is_create (e : event) : bool :=
  match e with
  | Daytona_create => true
  | _ => false
  end.

Definition is_delete (e : event) : bool :=
  match e with
  | Sandbox_delete _ => true
  | _ => false
  end.

(** The store a tool runs against: the persisted CSV artifacts, keyed by
    identifier. *)
Abbreviation store := (gmap string csv_row).

(** Tool bodies. *)
Abbreviation T := (@M store event).

(** Modelled from the spec: [db.createCSV] of [@/lib/db], whose body is not
    among the sources. The design document describes the persistence layer
    as a store of CSV artifacts that are created by a tool call, identified
    by their id, and immutable once created; a persistence failure leaves
    the store as it was. *)
Definition db_createCSV {R} (a : db_answer) (row : csv_row) : T R unit :=
  log (Db_createCSV row) ;;
  match a with
  | Db_ok =>
      let* csvs := get in
      match csvs !! csv_id row with
      | Some _ => throw (JS.Error "duplicate key value violates unique constraint")
      | None => modify (fun csvs => <[csv_id row := row]> csvs)
      end
  | Db_error => pure tt
  | Db_throws e => throw e
  end.

(** Modelled from the spec: reading a persisted CSV back by its identifier
    (the [/api/csvs/<id>] route and [db.getCSV] are not among the sources). *)
Definition db_getCSV (csvs : store) (id : string) : option csv_row :=
  csvs !! id.

(** *** createCSV *)

Record csv_validation_error := {
  ve_message : string;
  ve_title : string;
  ve_headers : list string;
  ve_expectedColumns : nat;
  ve_invalidRowCount : nat;
}.

Record csv_created := {
  cc_title : string;
  cc_description : option string;
  cc_headers : list string;
  cc_rows : list (list string);
  cc_csvContent : string;
  cc_rowCount : nat;
  cc_columnCount : nat;
  cc_csvId : option string;
  cc_csvUrl : option string;
  cc_instructions : option string;
}.

(** The three objects [createCSV] can return; the first and the last carry
    [error: true]. *)
Inductive csv_result :=
| Csv_validation_error (e : csv_validation_error)
| Csv_created (r : csv_created)
| Csv_creation_error (message title : string).

Record csv_oracle := {
  csv_uuid : string;            (* randomUUID() *)
  csv_db : db_answer;           (* db.createCSV(insertData) *)
  csv_track : answer unit;      (* track('CSV Created', ...) *)
}.

(** The callback of [row.map] in [createCSV]. *)
Definition escapeCell (cell : string) : string :=
  if JS.includes cell (JS.str JS.comma)
     || JS.includes cell (JS.str JS.dquote)
     || JS.includes cell (JS.str JS.newline)
  then JS.str JS.dquote
       +:+ JS.replaceAll JS.dquote (String JS.dquote (JS.str JS.dquote)) cell
       +:+ JS.str JS.dquote
  else cell.

(** One data line of the content: [row.map(escape).join(',')]. *)
Definition csvLine (row : list string) : string :=
  JS.join (JS.str JS.comma) (escapeCell <$> row).

Definition csvContent (headers : list string) (rows : list (list string)) : string :=
  JS.join (JS.str JS.newline)
          (JS.join (JS.str JS.comma) headers :: (csvLine <$> rows)).

Definition createCSV (o : csv_oracle) (title : string)
    (description : option string) (headers : list string)
    (rows : list (list string)) (options : context)
  : T csv_result csv_result :=
  let userId := ctx_userId options in
  let sessionId := ctx_sessionId options in
  try_catch
    (let headerCount := length headers in
     let invalidRows := filter (fun row => length row ≠ headerCount) rows in
     if (0 <? length invalidRows)%nat then
       ret (Csv_validation_error {|
         ve_message :=
           "❌ **CSV Validation Error**: All rows must have "
           +:+ JS.of_nat headerCount
           +:+ " columns to match headers. Found "
           +:+ JS.of_nat (length invalidRows)
           +:+ " invalid row(s). Please regenerate the CSV with matching column counts.";
         ve_title := title;
         ve_headers := headers;
         ve_expectedColumns := headerCount;
         ve_invalidRowCount := length invalidRows |})
     else
       let csvContent := csvContent headers rows in
       let* csvId :=
         try_catch
           (let csvId := csv_uuid o in
            let insertData := {|
              csv_id := csvId;
              csv_session_id := JS.or_none sessionId;
              csv_title := title;
              csv_description := JS.or_none description;
              csv_headers := headers;
              csv_rows := rows;
              csv_user_id := if JS.truthy userId then userId else None;
              csv_anonymous_id :=
                if JS.truthy userId then None else Some "anonymous" |} in
            db_createCSV (csv_db o) insertData ;;
            pure (Some csvId))
           (fun error =>
              log (Console_error "[createCSV] Error saving CSV:") ;;
              pure None) in
       await (Track "CSV Created"
                [("title", JS.JStr title);
                 ("rowCount", JS.JNum (Z.of_nat (length rows)));
                 ("columnCount", JS.JNum (Z.of_nat (length headers)));
                 ("hasDescription", JS.JBool (JS.truthy description));
                 ("savedToDb", JS.JBool (JS.truthy csvId))])
             (csv_track o) ;;
       ret (Csv_created {|
         cc_title := title;
         cc_description := description;
         cc_headers := headers;
         cc_rows := rows;
         cc_csvContent := csvContent;
         cc_rowCount := length rows;
         cc_columnCount := length headers;
         cc_csvId := JS.or_none csvId;
         cc_csvUrl :=
           if JS.truthy csvId then Some ("/api/csvs/" +:+ default "" csvId)
           else None;
         cc_instructions :=
           if JS.truthy csvId then
             Some ("IMPORTANT: Include this EXACT line in your markdown response to display the table:"
                   +:+ JS.str JS.newline +:+ JS.str JS.newline
                   +:+ "![csv](csv:" +:+ default "" csvId +:+ ")"
                   +:+ JS.str JS.newline +:+ JS.str JS.newline
                   +:+ "Do not write [View Table] or any other text - use the image syntax above.")
           else None |}))
    (fun error =>
       let* message := eval (JS.message error) in
       ret (Csv_creation_error
              ("❌ **CSV Creation Error**: "
               +:+ JS.or_else message "Unknown error occurred")
              title)).

(** *** codeExecution *)

Record exec_oracle := {
  ex_now_start : Z;                       (* Date.now() on entry *)
  ex_daytona_new : answer unit;           (* new Daytona({...}) *)
  ex_create : answer string;              (* daytona.create(...): the sandbox *)
  ex_codeRun : answer execution;          (* sandbox.process.codeRun(code) *)
  ex_now_end : Z;                         (* Date.now() after the run *)
  ex_track : answer unit;                 (* track('Python Code Executed') *)
  ex_polar_new : answer unit;             (* new PolarEventTracker() *)
  ex_polar_track : answer unit;           (* polarTracker.trackDaytonaUsage *)
  ex_delete : answer unit;                (* sandbox.delete() *)
}.

Definition nl : string := JS.str JS.newline.

Definition codeExecution (env : gmap string string) (o : exec_oracle)
    (code : string) (description : option string) (options : context)
  : T string string :=
  let userId := ctx_userId options in
  let sessionId := ctx_sessionId options in
  let userTier := ctx_userTier options in
  let isDevelopment :=
    bool_decide (env !! "NEXT_PUBLIC_APP_MODE" = Some "development") in
  let startTime := ex_now_start o in
  try_catch
    (if (10000 <? Z.of_nat (JS.length code))%Z then
       ret "🚫 **Error**: Code too long. Please limit your code to 10,000 characters."
     else
     let daytonaApiKey := env !! "DAYTONA_API_KEY" in
     if negb (JS.truthy daytonaApiKey) then
       ret "❌ **Configuration Error**: Daytona API key is not configured."
     else
     await (Daytona_new (default "" daytonaApiKey)) (ex_daytona_new o) ;;
     (* let sandbox: any | null = null; *)
     with_var (None : option string)
       (try_finally
          (let* created := lift (await Daytona_create (ex_create o)) in
           set_var (Some created) ;;
           let* sandbox := get_var in
           let* execution :=
             lift (await (Sandbox_codeRun (default "" sandbox) code)
                         (ex_codeRun o)) in
           let executionTime := (ex_now_end o - startTime)%Z in
           lift (await (Track "Python Code Executed"
                          [("success", JS.JBool (exitCode execution =? 0)%Z);
                           ("codeLength", JS.JNum (Z.of_nat (JS.length code)));
                           ("executionTime", JS.JNum executionTime);
                           ("hasDescription", JS.JBool (JS.truthy description))])
                       (ex_track o)) ;;
           lift (when (JS.truthy userId && JS.truthy sessionId
                       && bool_decide (userTier = Some "pay_per_use")
                       && (exitCode execution =? 0)%Z && negb isDevelopment)
                   (try_catch
                      (await Polar_new (ex_polar_new o) ;;
                       await (Polar_trackDaytonaUsage (default "" userId)
                                (default "" sessionId) executionTime)
                             (ex_polar_track o))
                      (fun error =>
                         log (Console_error
                                "[CodeExecution] Failed to track usage:")))) ;;
           if negb (exitCode execution =? 0)%Z then
             ret ("❌ **Execution Error**: "
                  +:+ JS.or_else (result execution) "Unknown error")
           else
             ret ("🐍 **Python Code Execution**" +:+ nl
                  +:+ (if JS.truthy description
                       then "**Description**: " +:+ default "" description +:+ nl
                       else "")
                  +:+ nl +:+ nl
                  +:+ "```python" +:+ nl
                  +:+ code +:+ nl
                  +:+ "```" +:+ nl +:+ nl
                  +:+ "**Output:**" +:+ nl
                  +:+ "```" +:+ nl
                  +:+ JS.or_else (result execution) "(No output produced)" +:+ nl
                  +:+ "```" +:+ nl +:+ nl
                  +:+ "⏱️ **Execution Time**: " +:+ JS.of_Z executionTime +:+ "ms"))
          (try_catch
             (let* sandbox := get_var in
              match sandbox with
              | Some sb => lift (await (Sandbox_delete sb) (ex_delete o))
              | None => pure tt
              end)
             (fun cleanupError =>
                lift (log (Console_error "[CodeExecution] Cleanup error:"))))))
    (fun error =>
       let* message := eval (JS.message error) in
       ret ("❌ **Error**: " +:+ JS.or_else message "Unknown error occurred")).

(** *** patentAnalysis *)

(** What a search tool returns: a plain message, or [JSON.stringify(j, null, 2)]
    of the payload [j]. *)
Inductive tool_text :=
| Plain (s : string)
| Stringified (j : JS.json).

Record search_oracle := {
  se_valyu_new : answer unit;                      (* new Valyu(apiKey, url) *)
  se_search : answer (option search_response);     (* valyu.search(...) *)
  se_track : answer unit;                          (* track("Valyu API Call") *)
  se_polar_new : answer unit;                      (* new PolarEventTracker() *)
  se_polar_track : answer unit;                    (* trackValyuAPIUsage *)
}.

(** [response?.results?.length || 0] *)
Definition resultCount (response : option search_response) : nat :=
  match response with
  | Some r => match results r with Some l => length l | None => 0%nat end
  | None => 0%nat
  end.

(** [response?.results || []] *)
Definition results_or_empty (response : option search_response) : list JS.json :=
  match response with
  | Some r => default [] (results r)
  | None => []
  end.

(** [response?.total_deduction_dollars || 0] *)
Definition deduction (response : option search_response) : Q :=
  match response with
  | Some r =>
      match total_deduction_dollars r with
      | Some q => q
      | None => 0%Q
      end
  | None => 0%Q
  end.

Definition patentAnalysis (env : gmap string string) (o : search_oracle)
    (query : string) (maxResults : Z) (options : context)
  : T tool_text tool_text :=
  let userId := ctx_userId options in
  let sessionId := ctx_sessionId options in
  let userTier := ctx_userTier options in
  let isDevelopment :=
    bool_decide (env !! "NEXT_PUBLIC_APP_MODE" = Some "development") in
  try_catch
    (let apiKey := env !! "VALYU_API_KEY" in
     if negb (JS.truthy apiKey) then
       ret (Plain "❌ Valyu API key not configured.")
     else
     await (Valyu_new (default "" apiKey)) (se_valyu_new o) ;;
     let* response :=
       await (Valyu_search query (if (maxResults =? 0)%Z then 5%Z else maxResults)
                (5 # 10)%Q)
             (se_search o) in
     await (Track "Valyu API Call"
              [("toolType", JS.JStr "patentAnalysis");
               ("query", JS.JStr query);
               ("resultCount", JS.JNum (Z.of_nat (resultCount response)))])
           (se_track o) ;;
     when (JS.truthy userId && JS.truthy sessionId
           && bool_decide (userTier = Some "pay_per_use") && negb isDevelopment)
       (try_catch
          (await Polar_new (se_polar_new o) ;;
           let valyuCostDollars := deduction response in
           await (Polar_trackValyuAPIUsage (default "" userId)
                    (default "" sessionId) "patentAnalysis" valyuCostDollars
                    (resultCount response))
                 (se_polar_track o))
          (fun error =>
             log (Console_error "[PatentAnalysis] Failed to track usage:"))) ;;
     ret (Stringified (JS.JObj
            [("type", JS.JStr "patent_analysis");
             ("query", JS.JStr query);
             ("resultCount", JS.JNum (Z.of_nat (resultCount response)));
             ("results", JS.JArr (results_or_empty response));
             ("favicon", JS.JStr "https://www.uspto.gov/favicon.ico");
             ("displaySource", JS.JStr "USPTO (via Valyu)")])))
    (fun error =>
       ret (Plain ("❌ Error analyzing patents: "
                   +:+ match error with
                       | JS.Error m => m
                       | _ => "Unknown error"
                       end))).

End Tools.

(* ===================================================================== *)
(** ** Environment validation ([src/lib/env-validation.ts]) *)
(* ===================================================================== *)

Module EnvValidation.
Import Flow.
Open Scope flow_scope.

Record EnvValidationResult := {
  valid : bool;
  errors : list string;
  warnings : list string;
}.

(** [!process.env[k]] *)
Definition unset (env : gmap string string) (k : string) : bool :=
  negb (JS.truthy (env !! k)).

(** The two arrays [errors] and [warnings] that the validation fills. *)
Definition push_error {R} (msg : string)
  : @M (list string * list string) Empty_set R unit :=
  modify (fun ew => ((fst ew ++ [msg])%list, snd ew)).

Definition push_warning {R} (msg : string)
  : @M (list string * list string) Empty_set R unit :=
  modify (fun ew => (fst ew, (snd ew ++ [msg])%list)).

Definition validatePaymentEnvironment_body (env : gmap string string)
  : @M (list string * list string) Empty_set
       EnvValidationResult EnvValidationResult :=
  let isDevelopment :=
    bool_decide (env !! "NEXT_PUBLIC_APP_MODE" = Some "development") in
  let isProduction := negb isDevelopment in
  (* Core Supabase requirements (only required in production mode) *)
  when (negb isDevelopment)
    (when (unset env "NEXT_PUBLIC_SUPABASE_URL")
       (push_error "NEXT_PUBLIC_SUPABASE_URL is required") ;;
     when (unset env "NEXT_PUBLIC_SUPABASE_ANON_KEY")
       (push_error "NEXT_PUBLIC_SUPABASE_ANON_KEY is required") ;;
     when (unset env "SUPABASE_SERVICE_ROLE_KEY")
       (push_error "SUPABASE_SERVICE_ROLE_KEY is required")) ;;
  (* Production-only requirements *)
  when isProduction
    (when (unset env "POLAR_ACCESS_TOKEN")
       (push_error "POLAR_ACCESS_TOKEN is required in production") ;;
     when (unset env "POLAR_WEBHOOK_SECRET")
       (push_error "POLAR_WEBHOOK_SECRET is required in production") ;;
     when (unset env "POLAR_UNLIMITED_PRODUCT_ID")
       (push_error "POLAR_UNLIMITED_PRODUCT_ID is required in production") ;;
     when (unset env "POLAR_PAY_PER_USE_PRODUCT_ID")
       (push_error "POLAR_PAY_PER_USE_PRODUCT_ID is required in production") ;;
     when (unset env "VALYU_API_KEY")
       (push_warning "VALYU_API_KEY missing - patent search will fail") ;;
     when (unset env "DAYTONA_API_KEY")
       (push_warning "DAYTONA_API_KEY missing - code execution will fail") ;;
     when (unset env "AI_GATEWAY_API_KEY")
       (push_error "AI_GATEWAY_API_KEY is required - get your key at https://vercel.com/dashboard > AI Gateway > API Keys")) ;;
  (* Development mode - AI Gateway still recommended but not strictly required *)
  when (isDevelopment && unset env "AI_GATEWAY_API_KEY")
    (push_warning "AI_GATEWAY_API_KEY missing - recommended for Vercel AI SDK integration") ;;
  (* Validate URL formats *)
  when (JS.truthy (env !! "NEXT_PUBLIC_SUPABASE_URL")
        && negb (JS.startsWith (default "" (env !! "NEXT_PUBLIC_SUPABASE_URL"))
                               "https://"))
    (push_error "NEXT_PUBLIC_SUPABASE_URL must be a valid HTTPS URL") ;;
  let* ew := get in
  ret {| valid := (length (fst ew) =? 0)%nat;
         errors := fst ew;
         warnings := snd ew |}.

(** [validatePaymentEnvironment()]: the arrays start empty; the body cannot
    throw, so the result is always the returned record. *)
Definition validatePaymentEnvironment (env : gmap string string)
  : EnvValidationResult :=
  match call (validatePaymentEnvironment_body env) ([], []) with
  | (_, _, inr r) => r
  | (ew, _, inl _) => {| valid := false; errors := fst ew; warnings := snd ew |}
  end.

(** Lines written to the console. *)
Inductive console :=
| console_log (line : string)
| console_warn (line : string)
| console_error (line : string).

(** Code that only writes to the console. *)
Abbreviation C := (@M unit console).

Definition logEnvironmentStatus (env : gmap string string) : C unit unit :=
  let appMode := env !! "NEXT_PUBLIC_APP_MODE" in
  let isDevelopment := bool_decide (appMode = Some "development") in
  (* Skip validation in development mode *)
  if isDevelopment then
    log (console_log "[Env] Development mode detected - skipping Supabase/Polar validation") ;;
    ret tt
  else
  let validation := validatePaymentEnvironment env in
  (if valid validation then pure tt
   else forEach (errors validation)
          (fun error => log (console_error ("  - " +:+ error)))) ;;
  when (0 <? length (warnings validation))%nat
    (forEach (warnings validation)
       (fun warning => log (console_warn ("  - " +:+ warning)))).

(** The statements at the top level of the module, run once when the module
    is first imported ("Auto-validate on import"). *)
Definition on_import (env : gmap string string) : C unit unit :=
  when (negb (bool_decide (env !! "NEXT_PUBLIC_APP_MODE" = Some "development")))
    (let validation := validatePaymentEnvironment env in
     when (negb (valid validation))
       (forEach (errors validation)
          (fun error => log (console_error ("  - " +:+ error))))
       (* Don't throw in production to avoid complete app failure,
          but log critically *)).

(** The credentials whose absence is an error in production mode, with the
    message that [validatePaymentEnvironment] records for each. *)
Definition required_in_production : list (string * string) :=
  [("NEXT_PUBLIC_SUPABASE_URL", "NEXT_PUBLIC_SUPABASE_URL is required");
   ("NEXT_PUBLIC_SUPABASE_ANON_KEY", "NEXT_PUBLIC_SUPABASE_ANON_KEY is required");
   ("SUPABASE_SERVICE_ROLE_KEY", "SUPABASE_SERVICE_ROLE_KEY is required");
   ("POLAR_ACCESS_TOKEN", "POLAR_ACCESS_TOKEN is required in production");
   ("POLAR_WEBHOOK_SECRET", "POLAR_WEBHOOK_SECRET is required in production");
   ("POLAR_UNLIMITED_PRODUCT_ID", "POLAR_UNLIMITED_PRODUCT_ID is required in production");
   ("POLAR_PAY_PER_USE_PRODUCT_ID", "POLAR_PAY_PER_USE_PRODUCT_ID is required in production");
   ("AI_GATEWAY_API_KEY", "AI_GATEWAY_API_KEY is required - get your key at https://vercel.com/dashboard > AI Gateway > API Keys")].

End EnvValidation.

(* ===================================================================== *)
(** ** The chat endpoint ([src/app/api/chat/route.ts]) *)
(* ===================================================================== *)

Module ChatRoute.
Import Flow.
Open Scope flow_scope.

(** [BiomedUIMessage], as far as the handler reads it. *)
Record message := {
  msg_id : string;
  role : string;
  parts : option (list JS.json);
}.

(** The content column of a persisted message: JSON text, or the parts. *)
Inductive content :=
| Content_text (text : string)
| Content_parts (items : list JS.json).

(** A message as handed to, and kept by, the persistence layer. *)
Record stored_message := {
  sm_id : string;
  sm_role : string;
  sm_content : content;
}.

Record user := { user_id : string }.

Record profile := {
  subscription_tier : option string;
  subscriptionTier : option string;
  subscription_status : option string;
  subscriptionStatus : option string;
}.

(** The result of [validateAccess]. *)
Record access := {
  hasAccess : bool;
  requiresPaymentSetup : bool;
  access_tier : option string;
}.

(** The result of [checkAnonymousRateLimit] and of [checkUserRateLimit];
    [resetTime] stands for [resetTime.toISOString()]. *)
Record rate_status := {
  allowed : bool;
  remaining : Z;
  resetTime : string;
  limit : Z;
  rate_tier : option string;
}.

(** The body of a probe response: [data.data] holds the model ids of
    LM Studio, [data.models] the model names of Ollama. *)
Record probe_body := {
  pb_data : option (list string);
  pb_models : option (list string);
}.

(** What [fetch] resolves to. *)
Record probe_response := {
  pr_ok : bool;
  pr_status : Z;
  pr_json : answer probe_body;
}.

(** [selectedModel] *)
Inductive model :=
| Gateway_model (id : string)                     (* "openai/gpt-5" *)
| OpenAI_direct (id : string)                     (* openai("gpt-5") *)
| Local_chat (baseURL apiKey name : string)       (* createOpenAI({..}).chat(name) *)
| Polar_tracked (userId id : string).             (* getPolarTrackedModel(..) *)

(** [providerOptions.openai] *)
Inductive provider_options :=
| Think (enabled : bool)
| OpenAI_reasoning.   (* store, reasoningEffort, reasoningSummary, include *)

(** What the handler answers with. *)
Inductive response :=
| Json_response (status : Z) (body : JS.json) (headers : list (string * string))
| Stream_response (headers : list (string * string)).

(** Calls made to the outside world, in the order they are issued. *)
Inductive event :=
| Req_json
| Db_getUser
| Supabase_createClient
| ValidateAccess (userId : string)
| CheckAnonymousRateLimit
| CheckUserRateLimit (userId : string)
| Fetch (url : string)
| Response_json
| Db_getUserProfile (userId : string)
| GetPolarTrackedModel (userId id : string)
| Db_getChatMessages (sessionId : string)
| SaveChatMessages (sessionId : string) (messages : list stored_message)
| Db_updateChatSession (sessionId userId : string)
| ConvertToModelMessages
| StreamText (selected : model) (messages : list message)
    (userId : option string) (userTier : string) (sessionId : option string)
    (providerOptions : provider_options)
| ToUIMessageStreamResponse
| IncrementRateLimit (userId : string)
| Console_error (tag : string).

(** The store of the handler: the persisted messages of every session. *)
Abbreviation store := (gmap string (list stored_message)).

(** Handler code. *)
Abbreviation H := (@M store event).

(** The deployment: the operating mode and the process environment.
    [isDevelopmentMode()] is imported from [@/lib/local-db/local-auth], which
    is not among the sources; its value is taken as given. *)
Record config := {
  isDevelopment : bool;
  env : gmap string string;
}.

(** The answers of the outside world to one request. *)
Record oracle := {
  o_body : answer (list message * option string);   (* req.json() *)
  o_headers : gmap string string;                   (* req.headers *)
  o_getUser : answer (option user);                 (* db.getUser() *)
  o_createClient : answer unit;                     (* createClient(..) twice *)
  o_validateAccess : answer access;
  o_checkAnonymous : answer rate_status;
  o_checkUser : answer rate_status;
  o_fetch : answer probe_response;                  (* fetch(probe url) *)
  o_profile_model : answer (option profile);        (* getUserProfile, l.282 *)
  o_polar_model : answer unit;                      (* getPolarTrackedModel *)
  o_profile_tier : answer (option profile);         (* getUserProfile, l.318 *)
  o_uuid : string;                                  (* randomUUID() *)
  o_getChatMessages : db_answer;
  o_json_parse : string -> answer (list JS.json);   (* JSON.parse *)
  o_saveChatMessages : db_answer;
  o_updateChatSession : db_answer;
  o_convert : answer unit;                          (* convertToModelMessages *)
  o_streamText : answer unit;
  o_toResponse : answer unit;                       (* toUIMessageStreamResponse *)
  o_increment : answer unit;                        (* incrementRateLimit *)
  o_stack : JS.exn -> option string;                (* error.stack *)
}.

(** Modelled from the spec: [db.getChatMessages] of [@/lib/db], whose body
    is not among the sources. The messages of a session are an ordered log
    kept under the session's id; a failed read yields [{ data: null }]. *)
Definition db_getChatMessages {R} (a : db_answer) (sessionId : string)
  : H R (option (list stored_message)) :=
  log (Db_getChatMessages sessionId) ;;
  match a with
  | Db_ok => let* sessions := get in pure (sessions !! sessionId)
  | Db_error => pure None
  | Db_throws e => throw e
  end.

(** Modelled from the spec: [saveChatMessages] of [@/lib/db], whose body is
    not among the sources. Messages are persisted wholesale, with
    replace-all-by-session semantics; the result tells whether an [error]
    is reported, and a failed save leaves the store as it was. *)
Definition saveChatMessages {R} (a : db_answer) (sessionId : string)
    (messages : list stored_message) : H R bool :=
  log (SaveChatMessages sessionId messages) ;;
  match a with
  | Db_ok =>
      modify (fun sessions => <[sessionId := messages]> sessions) ;;
      pure false
  | Db_error => pure true
  | Db_throws e => throw e
  end.

(** Modelled from the spec: [db.updateChatSession] of [@/lib/db]; only the
    session's last-activity timestamp is touched, which the model of the
    store does not keep. *)
Definition db_updateChatSession {R} (a : db_answer) (sessionId userId : string)
  : H R bool :=
  log (Db_updateChatSession sessionId userId) ;;
  match a with
  | Db_ok => pure false
  | Db_error => pure true
  | Db_throws e => throw e
  end.

(** Modelled from the spec: reading the messages of a session back. *)
Definition session_messages (sessions : store) (sessionId : string)
  : list stored_message :=
  default [] (sessions !! sessionId).

(** [messages[messages.length - 1]] *)
Definition lastMessage (messages : list message) : option message :=
  last messages.

(** [messages.filter(m => m.role === 'user').length] *)
Definition userMessageCount (messages : list message) : nat :=
  length (filter (fun m => role m = "user") messages).

(** Lines 32-37: is this request the one counted by the rate limiter? *)
Definition isUserInitiated (messages : list message) : bool :=
  let isUserMessage :=
    bool_decide (role <$> lastMessage messages = Some "user") in
  isUserMessage && (userMessageCount messages =? 1)%nat.

Definition json_headers : list (string * string) :=
  [("Content-Type", "application/json")].

(** A field that [JSON.stringify] leaves out when it is [undefined]. *)
Definition opt_field (k : string) (v : option string) : list (string * JS.json) :=
  match v with
  | Some s => [(k, JS.JStr s)]
  | None => []
  end.

(** Lines 77-97: access validation for authenticated users. *)
Definition access_gate (cfg : config) (o : oracle) (user : option user)
  : H response unit :=
  match user with
  | Some u =>
      if negb (isDevelopment cfg) then
        let* accessValidation :=
          await (ValidateAccess (user_id u)) (o_validateAccess o) in
        when (negb (hasAccess accessValidation)
              && requiresPaymentSetup accessValidation)
          (ret (Json_response 402
                  (JS.JObj ([("error", JS.JStr "PAYMENT_REQUIRED");
                             ("message", JS.JStr "Payment method setup required")]
                            ++ opt_field "tier" (access_tier accessValidation)
                            ++ [("action", JS.JStr "setup_payment")]))
                  json_headers))
      else pure tt
  | None => pure tt
  end.

(** Lines 99-145: the rate-limit check. *)
Definition rate_limit_gate (cfg : config) (o : oracle) (user : option user)
    (isUserInitiated : bool) : H response unit :=
  if isUserInitiated && negb (isDevelopment cfg) then
    match user with
    | None =>
        let* rateLimitStatus :=
          await CheckAnonymousRateLimit (o_checkAnonymous o) in
        when (negb (allowed rateLimitStatus))
          (ret (Json_response 429
                  (JS.JObj [("error", JS.JStr "RATE_LIMIT_EXCEEDED");
                            ("message", JS.JStr "You have exceeded your daily limit of 5 queries. Sign up to continue.");
                            ("resetTime", JS.JStr (resetTime rateLimitStatus));
                            ("remaining", JS.JNum (remaining rateLimitStatus))])
                  [("Content-Type", "application/json");
                   ("X-RateLimit-Limit", JS.of_Z (limit rateLimitStatus));
                   ("X-RateLimit-Remaining", JS.of_Z (remaining rateLimitStatus));
                   ("X-RateLimit-Reset", resetTime rateLimitStatus)]))
    | Some u =>
        let* rateLimitResult :=
          await (CheckUserRateLimit (user_id u)) (o_checkUser o) in
        when (negb (allowed rateLimitResult))
          (ret (Json_response 429
                  (JS.JObj ([("error", JS.JStr "RATE_LIMIT_EXCEEDED");
                             ("message", JS.JStr "Daily query limit reached. Upgrade to continue.");
                             ("resetTime", JS.JStr (resetTime rateLimitResult))]
                            ++ opt_field "tier" (rate_tier rateLimitResult)))
                  json_headers))
    end
  else pure tt.

(** Lines 168-173 and 223-226. *)
Definition thinkingModels : list string :=
  ["deepseek-r1"; "deepseek-v3"; "deepseek-v3.1"; "qwen3"; "qwq";
   "phi4-reasoning"; "phi-4-reasoning"; "cogito"].

Definition preferredModels : list string :=
  ["deepseek-r1"; "qwen3"; "phi4-reasoning"; "cogito";
   "llama3.1"; "gemma3:4b"; "gemma3"; "llama3.2"; "llama3"; "qwen2.5";
   "codestral"].

(** Lines 194-198: filter out embedding models, keep chat/LLM models. *)
Definition is_chat_model (name : string) : bool :=
  negb (JS.includes name "embed")
  && negb (JS.includes name "embedding")
  && negb (JS.includes name "nomic").

(** Line 164: [req.headers.get('x-local-provider') || 'ollama'] *)
Definition localProvider (o : oracle) : string :=
  JS.or_else (o_headers o !! "x-local-provider") "ollama".

(** Lines 182-219: ask the selected local provider for its models; yields
    [models], [providerName] and [baseURL]. *)
Definition probe_local (cfg : config) (o : oracle) (localProvider : string)
  : H response (list string * string * string) :=
  let ollamaBaseUrl :=
    JS.or_else (env cfg !! "OLLAMA_BASE_URL") "http://localhost:11434" in
  let lmstudioBaseUrl :=
    JS.or_else (env cfg !! "LMSTUDIO_BASE_URL") "http://localhost:1234" in
  if String.eqb localProvider "lmstudio" then
    let* lmstudioResponse :=
      await (Fetch (lmstudioBaseUrl +:+ "/v1/models")) (o_fetch o) in
    if pr_ok lmstudioResponse then
      let* data := await Response_json (pr_json lmstudioResponse) in
      match pb_data data with
      | None =>
          (* data.data.map on undefined *)
          throw (JS.Error "Cannot read properties of undefined (reading 'map')")
      | Some allModels =>
          let models := List.filter is_chat_model allModels in
          pure (models, "LM Studio", lmstudioBaseUrl +:+ "/v1")
      end
    else
      throw (JS.Error ("LM Studio API responded with status "
                       +:+ JS.of_Z (pr_status lmstudioResponse)))
  else
    let* ollamaResponse :=
      await (Fetch (ollamaBaseUrl +:+ "/api/tags")) (o_fetch o) in
    if pr_ok ollamaResponse then
      let* data := await Response_json (pr_json ollamaResponse) in
      let models := default [] (pb_models data) in
      pure (models, "Ollama", ollamaBaseUrl +:+ "/v1")
    else
      throw (JS.Error ("Ollama API responded with status "
                       +:+ JS.of_Z (pr_status ollamaResponse))).

(** Lines 233-238: the first preferred name that some model contains decides;
    the first model containing it is taken. *)
Fixpoint find_preferred (preferred : list string) (models : list string)
  : option string :=
  match preferred with
  | [] => None
  | p :: rest =>
      if existsb (fun name => JS.includes name p) models
      then List.find (fun name => JS.includes name p) models
      else find_preferred rest models
  end.

(** Lines 227-239. *)
Definition pick_model (userPreferredModel : option string)
    (first : string) (models : list string) : string :=
  if JS.truthy userPreferredModel
     && existsb (fun name => String.eqb name (default "" userPreferredModel)) models
  then default "" userPreferredModel
  else default first (find_preferred preferredModels models).

(** Lines 266-276: the hosted path taken when the local provider fails. *)
Definition development_fallback (hasGatewayKey hasOpenAIKey : bool)
  : model * string :=
  if hasGatewayKey then
    (Gateway_model "openai/gpt-5",
     "Vercel AI Gateway (gpt-5) - Development Mode Fallback")
  else if hasOpenAIKey then
    (OpenAI_direct "gpt-5", "OpenAI (gpt-5) - Development Mode Fallback")
  else
    (Gateway_model "openai/gpt-5",
     "Vercel AI Gateway (gpt-5) - Development Mode (API Key Required)").

(** [userData?.subscription_tier || userData?.subscriptionTier || 'free'] *)
Definition tier_of (userData : option profile) : string :=
  match userData with
  | Some d =>
      if JS.truthy (subscription_tier d) then default "free" (subscription_tier d)
      else JS.or_else (subscriptionTier d) "free"
  | None => "free"
  end.

(** [(userData?.subscription_status || userData?.subscriptionStatus) === 'active'] *)
Definition is_active (userData : option profile) : bool :=
  match userData with
  | Some d =>
      if JS.truthy (subscription_status d)
      then bool_decide (subscription_status d = Some "active")
      else bool_decide (subscriptionStatus d = Some "active")
  | None => false
  end.

(** Lines 158-309: the provider/mode selector; yields [selectedModel],
    [modelInfo] and [supportsThinking]. *)
Definition select_model (cfg : config) (o : oracle) (user : option user)
  : H response (model * string * bool) :=
  let hasGatewayKey := JS.truthy (env cfg !! "AI_GATEWAY_API_KEY") in
  let hasOpenAIKey := JS.truthy (env cfg !! "OPENAI_API_KEY") in
  let localEnabled :=
    negb (bool_decide (o_headers o !! "x-ollama-enabled" = Some "false")) in
  let localProvider := localProvider o in
  let userPreferredModel := o_headers o !! "x-ollama-model" in
  if isDevelopment cfg && localEnabled then
    try_catch
      (let* probed := probe_local cfg o localProvider in
       let '(models, providerName, baseURL) := probed in
       match models with
       | first :: _ =>
           let selectedModelName := pick_model userPreferredModel first models in
           let supportsThinking :=
             existsb (fun thinkModel =>
                        JS.includes (JS.toLowerCase selectedModelName)
                                    (JS.toLowerCase thinkModel))
                     thinkingModels in
           let apiKey :=
             if String.eqb localProvider "lmstudio" then "lm-studio" else "ollama" in
           pure (Local_chat baseURL apiKey selectedModelName,
                 providerName +:+ " (" +:+ selectedModelName +:+ ")"
                 +:+ (if supportsThinking then " [Reasoning]" else "")
                 +:+ " - Development Mode",
                 supportsThinking)
       | [] =>
           throw (JS.Error ("No models available in " +:+ localProvider))
       end)
      (fun error =>
         log (Console_error "[Chat API] Local provider error") ;;
         let '(selectedModel, modelInfo) :=
           development_fallback hasGatewayKey hasOpenAIKey in
         pure (selectedModel, modelInfo, false))
  else
    match user with
    | Some u =>
        let* userData :=
          await (Db_getUserProfile (user_id u)) (o_profile_model o) in
        let userTier := tier_of userData in
        let isActive := is_active userData in
        if isActive && String.eqb userTier "pay_per_use" then
          await (GetPolarTrackedModel (user_id u) "gpt-5") (o_polar_model o) ;;
          pure (Polar_tracked (user_id u) "gpt-5",
                "OpenAI (gpt-5) - Production Mode (Polar Tracked - Pay-per-use)",
                false)
        else
          pure (if hasGatewayKey then Gateway_model "openai/gpt-5"
                else if hasOpenAIKey then OpenAI_direct "gpt-5"
                else Gateway_model "openai/gpt-5",
                if hasGatewayKey then
                  "Vercel AI Gateway (gpt-5) - Production Mode ("
                  +:+ userTier +:+ " tier)"
                else if hasOpenAIKey then
                  "OpenAI (gpt-5) - Production Mode ("
                  +:+ userTier +:+ " tier - Fallback)"
                else
                  "Vercel AI Gateway (gpt-5) - Production Mode ("
                  +:+ userTier +:+ " tier - API Key Required)",
                false)
    | None =>
        pure (if hasGatewayKey then Gateway_model "openai/gpt-5"
              else if hasOpenAIKey then OpenAI_direct "gpt-5"
              else Gateway_model "openai/gpt-5",
              if hasGatewayKey then
                "Vercel AI Gateway (gpt-5) - Production Mode (Anonymous)"
              else if hasOpenAIKey then
                "OpenAI (gpt-5) - Production Mode (Anonymous - Fallback)"
              else
                "Vercel AI Gateway (gpt-5) - Production Mode (Anonymous - API Key Required)",
              false)
    end.

(** The message that lines 369-373 build from the last message. *)
Definition userMessageToSave (o : oracle) (last : message) : stored_message :=
  {| sm_id := o_uuid o;
     sm_role := "user";
     sm_content := Content_parts (default [] (parts last)) |}.

(** Lines 379-383, the callback of [allMessages.map]: content kept as JSON
    text is parsed, content kept as parts is passed on. *)
Definition parse_content (o : oracle) (msg : stored_message)
  : H response stored_message :=
  let* parsed :=
    match sm_content msg with
    | Content_text text =>
        match o_json_parse o text with
        | Resolves v => pure (Content_parts v)
        | Rejects err => throw err
        end
    | Content_parts items => pure (Content_parts items)
    end in
  pure {| sm_id := sm_id msg; sm_role := sm_role msg; sm_content := parsed |}.

(** Lines 363-391: save the user message immediately, before streaming. *)
Definition save_user_message (o : oracle) (user : option user)
    (sessionId : option string) (messages : list message) : H response unit :=
  match user with
  | Some u =>
      if JS.truthy sessionId && (0 <? length messages)%nat then
        let sid := default "" sessionId in
        match lastMessage messages with
        | Some last =>
            if String.eqb (role last) "user" then
              let toSave := userMessageToSave o last in
              let* existingMessages :=
                db_getChatMessages (o_getChatMessages o) sid in
              let allMessages := default [] existingMessages ++ [toSave] in
              let* mapped := mapM (parse_content o) allMessages in
              saveChatMessages (o_saveChatMessages o) sid mapped ;;
              db_updateChatSession (o_updateChatSession o) sid (user_id u) ;;
              pure tt
            else pure tt
        | None => pure tt
        end
      else pure tt
  | None => pure tt
  end.

(** Lines 915-931: count the request, after the stream has been set up. *)
Definition increment_rate_limit (cfg : config) (o : oracle)
    (user : option user) (isUserInitiated : bool) : H response unit :=
  when (isUserInitiated && negb (isDevelopment cfg))
    (try_catch
       (match user with
        | Some u =>
            await (IncrementRateLimit (user_id u)) (o_increment o)
        | None =>
            (* anonymous users increment client-side *)
            pure tt
        end)
       (fun error =>
          log (Console_error "[Chat API] Failed to increment rate limit:"))).

(** Lines 946-996: the [catch] block of the handler. *)
Definition error_response (o : oracle) (error : JS.exn) : response :=
  let errorMessage :=
    match error with
    | JS.Error m => m
    | JS.Thrown_string s => s
    | _ => "An unexpected error occurred"
    end in
  let isToolError :=
    JS.includes (JS.toLowerCase errorMessage) "tool"
    || JS.includes (JS.toLowerCase errorMessage) "function" in
  let isThinkingError :=
    JS.includes (JS.toLowerCase errorMessage) "thinking" in
  if isToolError || isThinkingError then
    Json_response 400
      (JS.JObj [("error", JS.JStr "MODEL_COMPATIBILITY_ERROR");
                ("message", JS.JStr errorMessage);
                ("compatibilityIssue",
                 JS.JStr (if isToolError then "tools" else "thinking"))])
      json_headers
  else
    Json_response 500
      (JS.JObj ([("error", JS.JStr "CHAT_ERROR");
                 ("message", JS.JStr errorMessage)]
                ++ opt_field "details"
                     (match error with
                      | JS.Error _ => o_stack o error
                      | _ => None
                      end)))
      json_headers.

(** [POST(req)] *)
Definition POST (cfg : config) (o : oracle) : H response response :=
  try_catch
    (let* body := await Req_json (o_body o) in
     let '(messages, sessionId) := body in
     let isUserInitiated := isUserInitiated messages in
     let isDevelopment := isDevelopment cfg in
     let* user := await Db_getUser (o_getUser o) in
     when (negb isDevelopment)
       (await Supabase_createClient (o_createClient o) ;;
        await Supabase_createClient (o_createClient o)) ;;
     access_gate cfg o user ;;
     rate_limit_gate cfg o user isUserInitiated ;;
     let hasGatewayKey := JS.truthy (env cfg !! "AI_GATEWAY_API_KEY") in
     when (negb hasGatewayKey && negb isDevelopment)
       (throw (JS.Error "AI_GATEWAY_API_KEY is required. Get your key at https://vercel.com/dashboard > AI Gateway > API Keys")) ;;
     let localEnabled :=
       negb (bool_decide (o_headers o !! "x-ollama-enabled" = Some "false")) in
     let* selected := select_model cfg o user in
     let '(selectedModel, modelInfo, supportsThinking) := selected in
     let* userTier :=
       match user with
       | Some u =>
           let* userData :=
             await (Db_getUserProfile (user_id u)) (o_profile_tier o) in
           pure (tier_of userData)
       | None => pure "free"
       end in
     let isUsingLocalProvider :=
       isDevelopment && localEnabled
       && (JS.includes modelInfo "Ollama" || JS.includes modelInfo "LM Studio") in
     let providerOptions :=
       if isUsingLocalProvider then Think supportsThinking
       else OpenAI_reasoning in
     save_user_message o user sessionId messages ;;
     await ConvertToModelMessages (o_convert o) ;;
     await (StreamText selectedModel messages (user_id <$> user) userTier
              sessionId providerOptions)
           (o_streamText o) ;;
     await ToUIMessageStreamResponse (o_toResponse o) ;;
     increment_rate_limit cfg o user isUserInitiated ;;
     let devHeaders :=
       if isDevelopment then
         [("X-Development-Mode", "true");
          ("X-RateLimit-Limit", "unlimited");
          ("X-RateLimit-Remaining", "unlimited")]
       else [] in
     ret (Stream_response
            (devHeaders ++ [("Connection", "keep-alive");
                            ("X-Accel-Buffering", "no");
                            ("Cache-Control", "no-cache, no-transform")])))
    (fun error =>
       log (Console_error "[Chat API] Error:") ;;
       log (Console_error "[Chat API] Error details:") ;;
       ret (error_response o error)).

(** The counts the rate limiter sees in a log of calls. *)
Definition is_check (e : event) : bool :=
  match e with
  | CheckAnonymousRateLimit | CheckUserRateLimit _ => true
  | _ => false
  end.

Definition is_increment (e : event) : bool :=
  match e with
  | IncrementRateLimit _ => true
  | _ => false
  end.

Definition is_streamText (e : event) : bool :=
  match e with
  | StreamText _ _ _ _ _ _ => true
  | _ => false
  end.

Definition is_save (e : event) : bool :=
  match e with
  | SaveChatMessages _ _ => true
  | _ => false
  end.

(** The calls issued by one run of the handler. *)
Definition issued (cfg : config) (o : oracle) (s : store) : list event :=
  snd (fst (call (POST cfg o) s)).

End ChatRoute.

(* ===================================================================== *)
(** ** The rest of the tool set ([src/lib/tools.ts]) *)
(* ===================================================================== *)

(** *** patentSearch and webSearch *)

Module SearchTools.
Import Flow.
Open Scope flow_scope.

(** The options object handed to [valyu.search]. *)
Record search_options := {
  maxNumResults : Z;
  searchType : string;
  includedSources : option (list string);
  relevanceThreshold : option Q;
  isToolCall : bool;
}.

(** Calls made to the outside world, in the order they are issued. *)
Inductive event :=
| Valyu_new (apiKey : option string) (baseUrl : string)
| Valyu_search (query : string) (opts : search_options)
| Track (name : string) (props : list (string * JS.json))
| Polar_new
| Polar_trackValyuAPIUsage (userId sessionId tool : string) (cost : Q)
    (query : string) (resultCount : nat)
| Console_error (tag : string).

Definition is_search (e : event) : bool :=
  match e with
  | Valyu_search _ _ => true
  | _ => false
  end.

Definition is_usage (e : event) : bool :=
  match e with
  | Polar_trackValyuAPIUsage _ _ _ _ _ _ => true
  | _ => false
  end.

(** Tool bodies. *)
Abbreviation T := (@M Tools.store event).

Definition patentSearch (env : gmap string string) (o : Tools.search_oracle)
    (query : string) (maxResults : Z) (options : Tools.context)
  : T Tools.tool_text Tools.tool_text :=
  let userId := Tools.ctx_userId options in
  let sessionId := Tools.ctx_sessionId options in
  let userTier := Tools.ctx_userTier options in
  let isDevelopment :=
    bool_decide (env !! "NEXT_PUBLIC_APP_MODE" = Some "development") in
  try_catch
    (let apiKey := env !! "VALYU_API_KEY" in
     if negb (JS.truthy apiKey) then
       ret (Tools.Plain "❌ Valyu API key not configured.")
     else
     await (Valyu_new apiKey "https://api.valyu.network/v1")
           (Tools.se_valyu_new o) ;;
     let* response :=
       await (Valyu_search query
                {| maxNumResults := if (maxResults =? 0)%Z then 10%Z else maxResults;
                   searchType := "proprietary";
                   includedSources := Some ["valyu/valyu-uspto"];
                   relevanceThreshold := Some (4 # 10)%Q;
                   isToolCall := true |})
             (Tools.se_search o) in
     await (Track "Valyu API Call"
              [("toolType", JS.JStr "patentSearch");
               ("query", JS.JStr query);
               ("resultCount", JS.JNum (Z.of_nat (Tools.resultCount response)))])
           (Tools.se_track o) ;;
     when (JS.truthy userId && JS.truthy sessionId
           && bool_decide (userTier = Some "pay_per_use") && negb isDevelopment)
       (try_catch
          (await Polar_new (Tools.se_polar_new o) ;;
           let valyuCostDollars := Tools.deduction response in
           await (Polar_trackValyuAPIUsage (default "" userId)
                    (default "" sessionId) "patentSearch" valyuCostDollars
                    query (Tools.resultCount response))
                 (Tools.se_polar_track o))
          (fun error =>
             log (Console_error "[PatentSearch] Failed to track usage:"))) ;;
     ret (Tools.Stringified (JS.JObj
            [("type", JS.JStr "patents");
             ("query", JS.JStr query);
             ("resultCount", JS.JNum (Z.of_nat (Tools.resultCount response)));
             ("results", JS.JArr (Tools.results_or_empty response));
             ("favicon", JS.JStr "https://www.uspto.gov/favicon.ico");
             ("displaySource", JS.JStr "USPTO (via Valyu)")])))
    (fun error =>
       ret (Tools.Plain ("❌ Error searching patents: "
                         +:+ match error with
                             | JS.Error m => m
                             | _ => "Unknown error"
                             end))).

Definition webSearch (env : gmap string string) (o : Tools.search_oracle)
    (query : string) (maxResults : Z) (options : Tools.context)
  : T Tools.tool_text Tools.tool_text :=
  let userId := Tools.ctx_userId options in
  let sessionId := Tools.ctx_sessionId options in
  let userTier := Tools.ctx_userTier options in
  let isDevelopment :=
    bool_decide (env !! "NEXT_PUBLIC_APP_MODE" = Some "development") in
  try_catch
    (await (Valyu_new (env !! "VALYU_API_KEY") "https://api.valyu.network/v1")
           (Tools.se_valyu_new o) ;;
     let* response :=
       await (Valyu_search query
                {| maxNumResults := if (maxResults =? 0)%Z then 5%Z else maxResults;
                   searchType := "all";
                   includedSources := None;
                   relevanceThreshold := None;
                   isToolCall := true |})
             (Tools.se_search o) in
     await (Track "Valyu API Call"
              [("toolType", JS.JStr "webSearch");
               ("query", JS.JStr query);
               ("resultCount", JS.JNum (Z.of_nat (Tools.resultCount response)))])
           (Tools.se_track o) ;;
     when (JS.truthy userId && JS.truthy sessionId
           && bool_decide (userTier = Some "pay_per_use") && negb isDevelopment)
       (try_catch
          (await Polar_new (Tools.se_polar_new o) ;;
           let valyuCostDollars := Tools.deduction response in
           await (Polar_trackValyuAPIUsage (default "" userId)
                    (default "" sessionId) "webSearch" valyuCostDollars
                    query (Tools.resultCount response))
                 (Tools.se_polar_track o))
          (fun error =>
             log (Console_error "[WebSearch] Failed to track usage:"))) ;;
     ret (Tools.Stringified (JS.JObj
            [("type", JS.JStr "web_search");
             ("query", JS.JStr query);
             ("resultCount", JS.JNum (Z.of_nat (Tools.resultCount response)));
             ("results", JS.JArr (Tools.results_or_empty response))])))
    (fun error =>
       ret (Tools.Plain ("❌ Error performing web search: "
                         +:+ match error with
                             | JS.Error m => m
                             | _ => "Unknown error"
                             end))).

End SearchTools.

(** *** createChart *)

Module Charts.
Import Flow.
Open Scope flow_scope.

(** [z.enum(["line", "bar", "area", "scatter", "quadrant"])] *)
Inductive chart_type := line | bar | area | scatter | quadrant.

Definition type_name (t : chart_type) : string :=
  match t with
  | line => "line"
  | bar => "bar"
  | area => "area"
  | scatter => "scatter"
  | quadrant => "quadrant"
  end.

(** The chart data, over the type [number] of JavaScript numbers. *)

(** [z.union([z.string(), z.number()])] *)
Inductive x_value (number : Type) :=
| X_string (s : string)
| X_number (n : number).
Arguments X_string {number} s.
Arguments X_number {number} n.

Record point (number : Type) := {
  x : x_value number;
  y : number;
  size : option number;
  label : option string;
}.
Arguments x {number} p.
Arguments y {number} p.
Arguments size {number} p.
Arguments label {number} p.

Record series (number : Type) := {
  name : string;
  data : list (point number);
}.
Arguments name {number} s.
Arguments data {number} s.

Record date_range (number : Type) := {
  start : x_value number;
  end_ : x_value number;
}.
Arguments Build_date_range {number} start end_.
Arguments start {number} d.
Arguments end_ {number} d.

Record metadata (number : Type) := {
  totalSeries : nat;
  totalDataPoints : nat;
  dateRange : option (date_range number);
}.
Arguments Build_metadata {number} totalSeries totalDataPoints dateRange.
Arguments totalSeries {number} m.
Arguments totalDataPoints {number} m.
Arguments dateRange {number} m.

(** [chartData] *)
Record chart_data (number : Type) := {
  chartType : chart_type;
  title : string;
  xAxisLabel : string;
  yAxisLabel : string;
  dataSeries : list (series number);
  description : option string;
  meta : metadata number;
}.
Arguments Build_chart_data {number} chartType title xAxisLabel yAxisLabel
  dataSeries description meta.
Arguments chartType {number} c.
Arguments title {number} c.
Arguments xAxisLabel {number} c.
Arguments yAxisLabel {number} c.
Arguments dataSeries {number} c.
Arguments description {number} c.
Arguments meta {number} c.

(** The row handed to [db.createChart] ([insertData]). *)
Record chart_row (number : Type) := {
  chart_id : string;
  chart_session_id : option string;
  chart_chart_data : chart_data number;
  chart_user_id : option string;
  chart_anonymous_id : option string;
}.
Arguments Build_chart_row {number} chart_id chart_session_id chart_chart_data
  chart_user_id chart_anonymous_id.
Arguments chart_id {number} c.
Arguments chart_session_id {number} c.
Arguments chart_chart_data {number} c.
Arguments chart_user_id {number} c.
Arguments chart_anonymous_id {number} c.

(** What [createChart] returns: the chart data, with [chartId] and
    [imageUrl]. *)
Record chart_result (number : Type) := {
  cr_chart : chart_data number;
  cr_chartId : option string;
  cr_imageUrl : option string;
}.
Arguments Build_chart_result {number} cr_chart cr_chartId cr_imageUrl.
Arguments cr_chart {number} c.
Arguments cr_chartId {number} c.
Arguments cr_imageUrl {number} c.

Inductive event (number : Type) :=
| Track (name : string) (props : list (string * JS.json))
| Db_createChart (row : chart_row number)
| Console_error (tag : string).
Arguments Track {number} name props.
Arguments Db_createChart {number} row.
Arguments Console_error {number} tag.

Record chart_oracle := {
  ch_track : answer unit;       (* track('Chart Created', ...) *)
  ch_uuid : string;             (* randomUUID() *)
  ch_db : db_answer;            (* db.createChart(insertData) *)
}.

(** The store a chart is saved to: the persisted charts, keyed by
    identifier. *)
Abbreviation store number := (gmap string (chart_row number)).

(** Tool bodies. *)
Abbreviation T number := (@M (store number) (event number)).

Section Numbers.
(** JavaScript numbers are IEEE doubles; the tool uses them only through
    the built-ins below, which are taken as given. *)
Context {number : Type}.
Variable Number_of_string : string -> number.        (* Number(s) *)
Variable Math_min Math_max : list number -> number.  (* Math.min(...l) *)
Variable toFixed1 : number -> string.                (* n.toFixed(1) *)
Variable truthy_number : number -> bool.             (* !!n *)

(** Modelled from the spec: [db.createChart] of [@/lib/db], whose body is not
    among the sources. The design document describes charts, like CSVs, as
    artifacts created by a tool call, identified by their id and immutable
    once created; a persistence failure leaves the store as it was. *)
Definition db_createChart {R} (a : db_answer) (row : chart_row number)
  : T number R unit :=
  log (Db_createChart row) ;;
  match a with
  | Db_ok =>
      let* charts := get in
      match charts !! chart_id row with
      | Some _ => throw (JS.Error "duplicate key value violates unique constraint")
      | None => modify (fun charts => <[chart_id row := row]> charts)
      end
  | Db_error => pure tt
  | Db_throws e => throw e
  end.

(** [Number(d.x)] *)
Definition Number_ (v : x_value number) : number :=
  match v with
  | X_string s => Number_of_string s
  | X_number n => n
  end.

(** [dataSeries.reduce((sum, series) => sum + series.data.length, 0)] *)
Definition countDataPoints (dataSeries : list (series number)) : nat :=
  foldl (fun sum series => (sum + length (data series))%nat) 0%nat dataSeries.

(** [d.size || d.label], as a condition *)
Definition has_size_or_label (d : point number) : bool :=
  match size d with
  | Some n => truthy_number n || JS.truthy (label d)
  | None => JS.truthy (label d)
  end.

(** Lines 149-168: the ranges shown with the chart. *)
Definition computeDateRange (type : chart_type)
    (dataSeries : list (series number)) : option (date_range number) :=
  match type with
  | scatter | quadrant =>
      let allXValues :=
        flat_map (fun s => List.map (fun d => Number_ (x d)) (data s)) dataSeries in
      let allYValues :=
        flat_map (fun s => List.map (fun d => y d) (data s)) dataSeries in
      if (0 <? length allXValues)%nat && (0 <? length allYValues)%nat then
        Some {| start := X_string ("X: " +:+ toFixed1 (Math_min allXValues)
                                   +:+ "-" +:+ toFixed1 (Math_max allXValues));
                end_ := X_string ("Y: " +:+ toFixed1 (Math_min allYValues)
                                  +:+ "-" +:+ toFixed1 (Math_max allYValues)) |}
      else None
  | _ =>
      match dataSeries with
      | first :: _ =>
          match data first, last (data first) with
          | d0 :: _, Some dn => Some {| start := x d0; end_ := x dn |}
          | _, _ => None
          end
      | [] => None
      end
  end.

Definition createChart (o : chart_oracle) (title : string) (type : chart_type)
    (xAxisLabel yAxisLabel : string) (dataSeries : list (series number))
    (description : option string) (options : Tools.context)
  : T number (chart_result number) (chart_result number) :=
  let userId := Tools.ctx_userId options in
  let sessionId := Tools.ctx_sessionId options in
  let dateRange := computeDateRange type dataSeries in
  await (Track "Chart Created"
           [("chartType", JS.JStr (type_name type));
            ("title", JS.JStr title);
            ("seriesCount", JS.JNum (Z.of_nat (length dataSeries)));
            ("totalDataPoints", JS.JNum (Z.of_nat (countDataPoints dataSeries)));
            ("hasDescription", JS.JBool (JS.truthy description));
            ("hasScatterData",
             JS.JBool (existsb (fun s => existsb has_size_or_label (data s))
                         dataSeries))])
        (ch_track o) ;;
  let chartData := {|
    chartType := type;
    title := title;
    xAxisLabel := xAxisLabel;
    yAxisLabel := yAxisLabel;
    dataSeries := dataSeries;
    description := description;
    meta := {| totalSeries := length dataSeries;
               totalDataPoints := countDataPoints dataSeries;
               dateRange := dateRange |} |} in
  (* Save chart to database *)
  let* chartId :=
    try_catch
      (let chartId := ch_uuid o in
       let insertData := {|
         chart_id := chartId;
         chart_session_id := JS.or_none sessionId;
         chart_chart_data := chartData;
         chart_user_id := if JS.truthy userId then userId else None;
         chart_anonymous_id :=
           if JS.truthy userId then None else Some "anonymous" |} in
       db_createChart (ch_db o) insertData ;;
       pure (Some chartId))
      (fun error =>
         log (Console_error "[createChart] Error saving chart:") ;;
         pure None) in
  ret {| cr_chart := chartData;
         cr_chartId := JS.or_none chartId;
         cr_imageUrl :=
           if JS.truthy chartId
           then Some ("/api/charts/" +:+ default "" chartId +:+ "/image")
           else None |}.

End Numbers.

End Charts.

(* ===================================================================== *)
(** ** The status report of the root layout ([src/app/layout.tsx]) *)
(* ===================================================================== *)

Module Layout.
Import Flow EnvValidation.
Open Scope flow_scope.

(** A call of a function with body [m] from inside another function: what
    the callee returns is the value of the call, what it throws propagates. *)
Definition invoke {S E R R'} (m : @M S E R R) : @M S E R' R :=
  fun s =>
    match m s with
    | (s', t, Normal r) => (s', t, Normal r)
    | (s', t, Return r) => (s', t, Normal r)
    | (s', t, Throw e) => (s', t, Throw e)
    end.

(** The statements of [RootLayout] before the markup is returned; [server]
    is [typeof window === 'undefined']. *)
Definition RootLayout (server : bool) (env : gmap string string) : C unit unit :=
  when (server
        && negb (bool_decide (env !! "NEXT_PUBLIC_APP_MODE" = Some "development")))
    (invoke (logEnvironmentStatus env)).

End Layout.

(* ===================================================================== *)
(** ** Saving the conversation when the stream ends
       ([src/app/api/chat/route.ts], [onFinish]) *)
(* ===================================================================== *)

Module ChatFinish.
Import Flow.
Open Scope flow_scope.

(** [message.content] of the older message format. *)
Inductive legacy_content :=
| Legacy_text (text : string)
| Legacy_parts (items : list JS.json)
| Legacy_other.

(** A message of the finished conversation, as far as [onFinish] reads it. *)
Record ui_message := {
  um_id : option string;
  um_role : string;
  um_parts : option (list JS.json);
  um_content : option legacy_content;
}.

(** An element of [messagesToSave]. *)
Record saved_message := {
  sv_id : string;
  sv_role : string;
  sv_content : list JS.json;
  sv_processing_time_ms : option Z;
}.

Inductive event :=
| SaveChatMessages (sessionId : string) (messages : list saved_message)
| Db_updateChatSession (sessionId userId : string)
| Console_error (tag : string).

Definition is_save (e : event) : bool :=
  match e with
  | SaveChatMessages _ _ => true
  | _ => false
  end.

Definition is_update (e : event) : bool :=
  match e with
  | Db_updateChatSession _ _ => true
  | _ => false
  end.

(** The persisted messages of every session. *)
Abbreviation store := (gmap string (list saved_message)).

Abbreviation F := (@M store event).

Record finish_oracle := {
  fo_now : Z;                       (* Date.now() when the stream ends *)
  fo_uuid : nat -> string;          (* randomUUID() for the message at an index *)
  fo_save : db_answer;              (* saveChatMessages(..) *)
  fo_update : db_answer;            (* db.updateChatSession(..) *)
}.

(** Modelled from the spec: [saveChatMessages] of [@/lib/db], whose body is
    not among the sources. Messages are persisted wholesale, with
    replace-all-by-session semantics; the result tells whether an [error]
    is reported, and a failed save leaves the store as it was. *)
Definition saveChatMessages {R} (a : db_answer) (sessionId : string)
    (messages : list saved_message) : F R bool :=
  log (SaveChatMessages sessionId messages) ;;
  match a with
  | Db_ok =>
      modify (fun sessions => <[sessionId := messages]> sessions) ;;
      pure false
  | Db_error => pure true
  | Db_throws e => throw e
  end.

(** Modelled from the spec: [db.updateChatSession] of [@/lib/db]; only the
    session's last-activity timestamp is touched, which the model of the
    store does not keep. *)
Definition db_updateChatSession {R} (a : db_answer) (sessionId userId : string)
  : F R bool :=
  log (Db_updateChatSession sessionId userId) ;;
  match a with
  | Db_ok => pure false
  | Db_error => pure true
  | Db_throws e => throw e
  end.

(** [[0-9a-f]] under the [i] flag *)
Definition is_hex (c : ascii) : bool :=
  let n := nat_of_ascii c in
  ((48 <=? n) && (n <=? 57) || (97 <=? n) && (n <=? 102)
   || (65 <=? n) && (n <=? 70))%nat.

(** [[0-9a-f]{n}] at the head of [s]: what follows the [n] digits. *)
Fixpoint hex_run (n : nat) (s : string) : option string :=
  match n with
  | O => Some s
  | S n' =>
      match s with
      | String c s' => if is_hex c then hex_run n' s' else None
      | EmptyString => None
      end
  end.

(** A hyphen at the head of [s]: what follows it. *)
Definition hyphen (s : string) : option string :=
  match s with
  | String c s' => if Ascii.eqb c "-"%char then Some s' else None
  | EmptyString => None
  end.

(** Groups of hexadecimal digits of the given lengths, separated by
    hyphens, at the head of [s]: what follows them. *)
Fixpoint hex_groups (groups : list nat) (s : string) : option string :=
  match groups with
  | [] => Some s
  | n :: rest =>
      match hex_run n s with
      | Some s' =>
          match rest with
          | [] => Some s'
          | _ :: _ =>
              match hyphen s' with
              | Some s'' => hex_groups rest s''
              | None => None
              end
          end
      | None => None
      end
  end.

(** [/^[0-9a-f]{8}-[0-9a-f]{4}-[0-9a-f]{4}-[0-9a-f]{4}-[0-9a-f]{12}$/i] *)
Definition is_uuid (s : string) : bool :=
  match hex_groups [8; 4; 4; 4; 12]%nat s with
  | Some EmptyString => true
  | _ => false
  end.

(** Lines 862-873: [contentToSave] *)
Definition contentToSave (message : ui_message) : list JS.json :=
  match um_parts message with
  | Some parts => parts
  | None =>
      match um_content message with
      | Some (Legacy_text text) =>
          if String.eqb text "" then []
          else [JS.JObj [("type", JS.JStr "text"); ("text", JS.JStr text)]]
      | Some (Legacy_parts items) => items
      | _ => []
      end
  end.

(** Lines 860-888: the callback of [allMessages.map]. *)
Definition toSave (o : finish_oracle) (processingTimeMs : Z) (total : nat)
    (index : nat) (message : ui_message) : saved_message :=
  {| sv_id :=
       if JS.truthy (um_id message) && is_uuid (default "" (um_id message))
       then default "" (um_id message)
       else fo_uuid o index;
     sv_role := um_role message;
     sv_content := contentToSave message;
     sv_processing_time_ms :=
       if String.eqb (um_role message) "assistant" && (S index =? total)%nat
       then Some processingTimeMs
       else None |}.

Definition messagesToSave (o : finish_oracle) (processingTimeMs : Z)
    (allMessages : list ui_message) : list saved_message :=
  imap (toSave o processingTimeMs (length allMessages)) allMessages.

(** [onFinish({ messages: allMessages })], in the scope of a request of
    [user] for [sessionId] whose processing started at [processingStartTime]. *)
Definition onFinish (o : finish_oracle) (processingStartTime : Z)
    (user : option ChatRoute.user) (sessionId : option string)
    (allMessages : list ui_message) : F unit unit :=
  let processingEndTime := fo_now o in
  let processingTimeMs := (processingEndTime - processingStartTime)%Z in
  match user with
  | Some u =>
      if JS.truthy sessionId then
        let sid := default "" sessionId in
        let messagesToSave := messagesToSave o processingTimeMs allMessages in
        let* saveError := saveChatMessages (fo_save o) sid messagesToSave in
        if saveError then
          log (Console_error "[Chat API] Error saving messages:")
        else
          (* Update session's last_message_at timestamp *)
          let* updateError :=
            db_updateChatSession (fo_update o) sid (ChatRoute.user_id u) in
          when updateError
            (log (Console_error "[Chat API] Error updating session timestamp:"))
      else pure tt
  | None => pure tt
  end.

End ChatFinish.

(* ===================================================================== *)
(** ** The missing-keys dialog ([src/components/missing-keys-dialog.tsx]) *)
(* ===================================================================== *)

Module MissingKeys.
Import Flow.

(** The body of [/api/env-status]. *)
Record env_status := {
  valyuKeyPresent : bool;
  daytonaKeyPresent : bool;
  openaiKeyPresent : bool;
  aiGatewayKeyPresent : bool;
  aiGatewayRequired : option bool;
  isDevelopment : option bool;
}.

(** The two [useState] cells of the component. *)
Record state := {
  open : bool;
  status : option env_status;
}.

Definition initial : state := {| open := false; status := None |}.

(** What [fetch("/api/env-status")] resolves to. *)
Record env_response := {
  er_ok : bool;
  er_json : answer env_status;
}.

(** The asynchronous function started by the effect; [cancelled] is the flag
    that the cleanup of the effect sets. Every failure is ignored. *)
Definition effect (fetch : answer env_response) (cancelled : bool)
    (st : state) : state :=
  match fetch with
  | Resolves envRes =>
      if negb (er_ok envRes) then st
      else
        match er_json envRes with
        | Resolves envData =>
            if negb cancelled then
              let missingGateway := negb (aiGatewayKeyPresent envData) in
              let missing :=
                negb (valyuKeyPresent envData)
                || negb (daytonaKeyPresent envData)
                || missingGateway in
              {| open := if missing then true else open st;
                 status := Some envData |}
            else st
        | Rejects _ => st
        end
  | Rejects _ => st
  end.

(** The [onClick] of the Dismiss button and [onOpenChange]. *)
Definition setOpen (b : bool) (st : state) : state :=
  {| open := b; status := status st |}.

(** The blocks of the dialog body. *)
Inductive notice :=
| Missing_valyu
| Missing_daytona
| Missing_gateway (qualifier : string).

(** What the component renders: nothing, or the dialog with its [open]
    property and its notices. *)
Record dialog := {
  dlg_open : bool;
  dlg_notices : list notice;
}.

Definition render (st : state) : option dialog :=
  match status st with
  | None => None
  | Some status =>
      let missingValyu := negb (valyuKeyPresent status) in
      let missingDaytona := negb (daytonaKeyPresent status) in
      let missingGateway := negb (aiGatewayKeyPresent status) in
      if negb missingValyu && negb missingDaytona && negb missingGateway
      then None
      else
        Some {| dlg_open := open st;
                dlg_notices :=
                  (if missingValyu then [Missing_valyu] else [])
                  ++ (if missingDaytona then [Missing_daytona] else [])
                  ++ (if missingGateway
                      then [Missing_gateway
                              (if default false (aiGatewayRequired status)
                               then "(Required)" else "(Recommended)")]
                      else []) |}
  end.

End MissingKeys.

(* ===================================================================== *)
(** ** The properties, in the words of the design document *)
(* ===================================================================== *)

(** *** The CSV format *)

Module CsvSpec.

(** Does the character occur in the cell? *)
Fixpoint has_char (c : ascii) (s : string) : bool :=
  match s with
  | EmptyString => false
  | String a s' => Ascii.eqb a c || has_char c s'
  end.





(** A cell that holds no comma, double quote or newline. *)
Definition plain (cell : string) : bool :=
  negb (has_char JS.comma cell || has_char JS.dquote cell
        || has_char JS.newline cell).





End CsvSpec.

(** *** Credentials by mode *)

Module EnvSpec.
Import Flow EnvValidation.

(** [[msg]] when the condition holds, nothing otherwise. *)
Definition cond_msg (b : bool) (msg : string) : list string :=
  if b then [msg] else [].

(** The errors for the required credentials that are unset. *)
Definition production_errors (env : gmap string string) : list string :=
  concat ((fun kv => cond_msg (unset env (fst kv)) (snd kv))
            <$> required_in_production).

Definition production_warnings (env : gmap string string) : list string :=
  cond_msg (unset env "VALYU_API_KEY")
           "VALYU_API_KEY missing - patent search will fail"
  ++ cond_msg (unset env "DAYTONA_API_KEY")
              "DAYTONA_API_KEY missing - code execution will fail".

(** [NEXT_PUBLIC_SUPABASE_URL] is set and does not start with [https://]. *)
Definition bad_url (env : gmap string string) : list string :=
  cond_msg
    (JS.truthy (env !! "NEXT_PUBLIC_SUPABASE_URL")
     && negb (JS.startsWith (default "" (env !! "NEXT_PUBLIC_SUPABASE_URL"))
                            "https://"))
    "NEXT_PUBLIC_SUPABASE_URL must be a valid HTTPS URL".

(** The claim as worded: loading the module fails. *)
Definition startup_hard_error (env : gmap string string) : Prop :=
  exists out e, call (on_import env) tt = (tt, out, inl e).

End EnvSpec.

(** *** The chat endpoint *)

Module ChatSpec.
Import Flow ChatRoute.

(** The calls the provider selector can make. *)
Definition selector_call (e : event) : Prop :=
  match e with
  | Fetch _ | Response_json | Db_getUserProfile _ | GetPolarTrackedModel _ _
  | Console_error _ => True
  | _ => False
  end.

(** The calls the early save of the user message can make. *)
Definition save_call (e : event) : Prop :=
  match e with
  | Db_getChatMessages _ | SaveChatMessages _ _ | Db_updateChatSession _ _ => True
  | _ => False
  end.

(** The error codes of the endpoint and the HTTP status of each. *)
Definition code_has_status (body : JS.json) (status : Z) : Prop :=
  (JS.field "error" body = Some (JS.JStr "PAYMENT_REQUIRED") /\ status = 402%Z)
  \/ (JS.field "error" body = Some (JS.JStr "RATE_LIMIT_EXCEEDED") /\ status = 429%Z)
  \/ (JS.field "error" body = Some (JS.JStr "MODEL_COMPATIBILITY_ERROR") /\ status = 400%Z)
  \/ (JS.field "error" body = Some (JS.JStr "CHAT_ERROR") /\ status = 500%Z).

(** A response is either the stream, or a JSON error body whose code matches
    its status. *)
Definition well_formed (resp : response) : Prop :=
  match resp with
  | Json_response status body headers =>
      code_has_status body status
      /\ ("Content-Type", "application/json") ∈ headers
  | Stream_response _ => True
  end.

(** The body of a probe response lists no usable model. *)
Inductive lists_no_model : string -> probe_body -> Prop :=
| lmstudio_without_list body :
    pb_data body = None -> lists_no_model "lmstudio" body
| lmstudio_without_chat_model body ids :
    pb_data body = Some ids -> List.filter is_chat_model ids = [] ->
    lists_no_model "lmstudio" body
| ollama_without_models provider body :
    provider <> "lmstudio" -> default [] (pb_models body) = [] ->
    lists_no_model provider body.

(** No local model server is reachable: the probe request fails or times
    out, is answered with an error status or an unreadable body, or lists no
    model. *)
Inductive unreachable (provider : string) : answer probe_response -> Prop :=
| probe_fails err : unreachable provider (Rejects err)
| probe_refused r : pr_ok r = false -> unreachable provider (Resolves r)
| probe_unreadable r err :
    pr_ok r = true -> pr_json r = Rejects err -> unreachable provider (Resolves r)
| probe_empty r body :
    pr_ok r = true -> pr_json r = Resolves body ->
    lists_no_model provider body -> unreachable provider (Resolves r).

(** The rate-limit check a request is subject to. *)
Definition check_of (user : option user) : event :=
  match user with
  | None => CheckAnonymousRateLimit
  | Some u => CheckUserRateLimit (user_id u)
  end.

(** The calls to the rate limiter. *)
Definition is_rate_limit_call (e : event) : bool := is_check e || is_increment e.

(** The request opens a conversation: its last message is a user message,
    and it is the only user message of the request. *)
Definition first_user_turn (messages : list message) : Prop :=
  role <$> last messages = Some "user"
  /\ length (filter (fun m => role m = "user") messages) = 1%nat.

(** The request is a user turn: its last message is a user message. *)
Definition user_turn (messages : list message) : Prop :=
  role <$> last messages = Some "user".

(** The message [new] is the message [old] of the session as the early
    save hands it back: the same id and role, and as content the parts of
    [old], parsed from their JSON text when [old] keeps them as text. *)
Definition parsed_from (o : oracle) (old new : stored_message) : Prop :=
  sm_id new = sm_id old
  /\ sm_role new = sm_role old
  /\ match sm_content old with
     | Content_text text =>
         exists items,
           o_json_parse o text = Resolves items
           /\ sm_content new = Content_parts items
     | Content_parts items => sm_content new = Content_parts items
     end.

(** The messages that the early save finds in the session [sid] of the
    store [s]: those kept there, or none when the read reports an error. *)
Definition read_back (o : oracle) (s : store) (sid : string)
  : list stored_message :=
  match o_getChatMessages o with
  | Db_ok => session_messages s sid
  | _ => []
  end.

(** Among the calls [t] of a run from the store [s], the session is saved
    before generation is started, as the messages found in it followed by
    the user message [msg]; [s'] is the store that the calls leave, and
    holds what was saved when the save succeeded. *)
Definition saved_before_stream (o : oracle) (sid : string)
    (msg : stored_message) (s s' : store) (t : list event) : Prop :=
  exists pre history post,
    t = pre ++ SaveChatMessages sid (history ++ [msg]) :: post
    /\ List.filter is_streamText pre = []
    /\ Forall2 (parsed_from o) (read_back o s sid) history
    /\ (o_saveChatMessages o = Db_ok ->
        session_messages s' sid = history ++ [msg]).

End ChatSpec.

(* ===================================================================== *)
(** ** Concrete deployments, requests and answers of the outside world *)
(* ===================================================================== *)

Module Examples.
Import Flow.

Definition no_context : Tools.context :=
  {| Tools.ctx_userId := None; Tools.ctx_sessionId := None;
     Tools.ctx_userTier := None |}.

Definition paying_context : Tools.context :=
  {| Tools.ctx_userId := Some "user-1"; Tools.ctx_sessionId := Some "session-1";
     Tools.ctx_userTier := Some "pay_per_use" |}.

Definition csv_ok : Tools.csv_oracle :=
  {| Tools.csv_uuid := "0b9e7c0e-5a55-4c3a-9d3c-2f1d6a7e8b90";
     Tools.csv_db := Db_ok;
     Tools.csv_track := Resolves tt |}.


(** A tool environment with the sandbox and search keys configured. *)
Definition tool_env : gmap string string :=
  {[ "DAYTONA_API_KEY" := "daytona-key"; "VALYU_API_KEY" := "valyu-key" ]}.

(** A sandbox is provisioned, the code run throws, the deletion succeeds. *)
Definition run_throws : Tools.exec_oracle :=
  {| Tools.ex_now_start := 1000;
     Tools.ex_daytona_new := Resolves tt;
     Tools.ex_create := Resolves "sandbox-1";
     Tools.ex_codeRun := Rejects (JS.Error "sandbox timed out");
     Tools.ex_now_end := 1250;
     Tools.ex_track := Resolves tt;
     Tools.ex_polar_new := Resolves tt;
     Tools.ex_polar_track := Resolves tt;
     Tools.ex_delete := Resolves tt |}.

(** The search index answers with one patent record. *)
Definition one_patent : JS.json :=
  JS.JObj [("title", JS.JStr "Solid-state battery with ceramic electrolyte");
           ("patent_number", JS.JStr "US11234567")].

Definition search_ok : Tools.search_oracle :=
  {| Tools.se_valyu_new := Resolves tt;
     Tools.se_search :=
       Resolves (Some {| Tools.results := Some [one_patent];
                         Tools.total_deduction_dollars := None |});
     Tools.se_track := Resolves tt;
     Tools.se_polar_new := Resolves tt;
     Tools.se_polar_track := Resolves tt |}.

(** A production environment with nothing configured, and a development
    environment. *)
Definition bare_production : gmap string string := ∅.

Definition bare_development : gmap string string :=
  {[ "NEXT_PUBLIC_APP_MODE" := "development" ]}.

(** Deployments of the chat endpoint. *)
Definition production : ChatRoute.config :=
  {| ChatRoute.isDevelopment := false;
     ChatRoute.env := {[ "AI_GATEWAY_API_KEY" := "gateway-key" ]} |}.

Definition development : ChatRoute.config :=
  {| ChatRoute.isDevelopment := true;
     ChatRoute.env := {[ "OPENAI_API_KEY" := "openai-key" ]} |}.

Definition user_message (text : string) : ChatRoute.message :=
  {| ChatRoute.msg_id := "msg-u"; ChatRoute.role := "user";
     ChatRoute.parts := Some [JS.JStr text] |}.

Definition assistant_message (text : string) : ChatRoute.message :=
  {| ChatRoute.msg_id := "msg-a"; ChatRoute.role := "assistant";
     ChatRoute.parts := Some [JS.JStr text] |}.

Definition alice : ChatRoute.user := {| ChatRoute.user_id := "user-1" |}.

Definition within_limit : ChatRoute.rate_status :=
  {| ChatRoute.allowed := true; ChatRoute.remaining := 3;
     ChatRoute.resetTime := "2026-01-01T00:00:00.000Z"; ChatRoute.limit := 5;
     ChatRoute.rate_tier := Some "free" |}.

Definition access_granted : ChatRoute.access :=
  {| ChatRoute.hasAccess := true; ChatRoute.requiresPaymentSetup := false;
     ChatRoute.access_tier := Some "free" |}.

Definition payment_missing : ChatRoute.access :=
  {| ChatRoute.hasAccess := false; ChatRoute.requiresPaymentSetup := true;
     ChatRoute.access_tier := Some "pay_per_use" |}.

Definition over_limit : ChatRoute.rate_status :=
  {| ChatRoute.allowed := false; ChatRoute.remaining := 0;
     ChatRoute.resetTime := "2026-01-01T00:00:00.000Z"; ChatRoute.limit := 5;
     ChatRoute.rate_tier := Some "free" |}.

(** The answers to one request: every service answers, no local model
    server is running; the access validation, the rate limiter, the start
    of the generation and the early save answer as given. *)
Definition answers (access : ChatRoute.access) (rate : ChatRoute.rate_status)
    (stream : answer unit) (save : db_answer)
    (messages : list ChatRoute.message) (sessionId : option string)
    (user : option ChatRoute.user)
  : ChatRoute.oracle :=
  {| ChatRoute.o_body := Resolves (messages, sessionId);
     ChatRoute.o_headers := ∅;
     ChatRoute.o_getUser := Resolves user;
     ChatRoute.o_createClient := Resolves tt;
     ChatRoute.o_validateAccess := Resolves access;
     ChatRoute.o_checkAnonymous := Resolves rate;
     ChatRoute.o_checkUser := Resolves rate;
     ChatRoute.o_fetch := Rejects (JS.Error "fetch failed");
     ChatRoute.o_profile_model := Resolves None;
     ChatRoute.o_polar_model := Resolves tt;
     ChatRoute.o_profile_tier := Resolves None;
     ChatRoute.o_uuid := "7f3c2b1a-9d8e-4f6a-8b7c-1a2b3c4d5e6f";
     ChatRoute.o_getChatMessages := Db_ok;
     ChatRoute.o_json_parse := fun _ => Resolves [];
     ChatRoute.o_saveChatMessages := save;
     ChatRoute.o_updateChatSession := Db_ok;
     ChatRoute.o_convert := Resolves tt;
     ChatRoute.o_streamText := stream;
     ChatRoute.o_toResponse := Resolves tt;
     ChatRoute.o_increment := Resolves tt;
     ChatRoute.o_stack := fun _ => None |}.

(** Everything lets the request through. *)
Definition smooth := answers access_granted within_limit (Resolves tt) Db_ok.

(** The same, except that the early save reports a failure. *)
Definition save_fails :=
  answers access_granted within_limit (Resolves tt) Db_error.

(** A request that opens a conversation, and the second turn of one. *)
Definition opening : list ChatRoute.message :=
  [user_message "Show me key patents on solid-state batteries"].

Definition follow_up : list ChatRoute.message :=
  [user_message "Show me key patents on solid-state batteries";
   assistant_message "Here are the findings.";
   user_message "Who are the top assignees?"].

(** The session as the first turn of that conversation left it. *)
Definition stored_opening : list ChatRoute.stored_message :=
  [{| ChatRoute.sm_id := "3d6f0a52-1c4b-4e8a-9f27-5b0c8d1e2a34";
      ChatRoute.sm_role := "user";
      ChatRoute.sm_content :=
        ChatRoute.Content_parts
          [JS.JStr "Show me key patents on solid-state batteries"] |};
   {| ChatRoute.sm_id := "a81b4c9e-7d25-4f03-b6e1-0c9d8e7f6a5b";
      ChatRoute.sm_role := "assistant";
      ChatRoute.sm_content :=
        ChatRoute.Content_parts [JS.JStr "Here are the findings."] |}].

End Examples.

(* ===================================================================== *)
(** ** Vocabulary of the robustness properties *)
(* ===================================================================== *)

Module ToolsSpec.
Import Flow Tools.

(** Every row has as many cells as there are headers. *)
Definition well_shaped (headers : list string) (rows : list (list string)) : Prop :=
  Forall (fun row => length row = length headers) rows.

(** The usage reports sent for billing. *)
Definition is_daytona_usage (e : event) : bool :=
  match e with
  | Polar_trackDaytonaUsage _ _ _ => true
  | _ => false
  end.

(** Two sets of answers to one [codeExecution] call that differ at most in
    what the usage tracking and the deletion of the sandbox answer. *)
Definition same_run (o1 o2 : exec_oracle) : Prop :=
  ex_now_start o1 = ex_now_start o2
  /\ ex_daytona_new o1 = ex_daytona_new o2
  /\ ex_create o1 = ex_create o2
  /\ ex_codeRun o1 = ex_codeRun o2
  /\ ex_now_end o1 = ex_now_end o2
  /\ ex_track o1 = ex_track o2.

(** What [codeExecution] answers with, read off the answers of the
    services that decide it: a text, or the [TypeError] of its last [catch]
    when what it caught is [undefined] or [null]. *)
Definition failure_answer (error : JS.exn) : JS.exn + string :=
  match JS.message error with
  | inl type_error => inl type_error
  | inr message =>
      inr ("❌ **Error**: " +:+ JS.or_else message "Unknown error occurred")
  end.

Definition run_text (o : exec_oracle) (code : string)
    (description : option string) (execution : execution) : string :=
  if negb (exitCode execution =? 0)%Z then
    "❌ **Execution Error**: " +:+ JS.or_else (result execution) "Unknown error"
  else
    "🐍 **Python Code Execution**" +:+ nl
    +:+ (if JS.truthy description
         then "**Description**: " +:+ default "" description +:+ nl
         else "")
    +:+ nl +:+ nl
    +:+ "```python" +:+ nl
    +:+ code +:+ nl
    +:+ "```" +:+ nl +:+ nl
    +:+ "**Output:**" +:+ nl
    +:+ "```" +:+ nl
    +:+ JS.or_else (result execution) "(No output produced)" +:+ nl
    +:+ "```" +:+ nl +:+ nl
    +:+ "⏱️ **Execution Time**: "
    +:+ JS.of_Z (ex_now_end o - ex_now_start o) +:+ "ms".

Definition codeExecution_answer (env : gmap string string) (o : exec_oracle)
    (code : string) (description : option string) : JS.exn + string :=
  if (10000 <? Z.of_nat (JS.length code))%Z then
    inr "🚫 **Error**: Code too long. Please limit your code to 10,000 characters."
  else if negb (JS.truthy (env !! "DAYTONA_API_KEY")) then
    inr "❌ **Configuration Error**: Daytona API key is not configured."
  else
    match ex_daytona_new o, ex_create o, ex_codeRun o, ex_track o with
    | Rejects error, _, _, _ => failure_answer error
    | Resolves _, Rejects error, _, _ => failure_answer error
    | Resolves _, Resolves _, Rejects error, _ => failure_answer error
    | Resolves _, Resolves _, Resolves _, Rejects error => failure_answer error
    | Resolves _, Resolves _, Resolves execution, Resolves _ =>
        inr (run_text o code description execution)
    end.

(** The values on which reading a property throws. *)
Definition nullish (e : JS.exn) : Prop :=
  e = JS.Thrown_undefined \/ e = JS.Thrown_null.

(** What reaches the last [catch] of [codeExecution] once the guards are
    passed: the first rejection among the answers of the sandbox service
    and of telemetry, in the order of the calls. *)
Definition first_rejection (o : exec_oracle) : option JS.exn :=
  match ex_daytona_new o, ex_create o, ex_codeRun o, ex_track o with
  | Rejects e, _, _, _ => Some e
  | Resolves _, Rejects e, _, _ => Some e
  | Resolves _, Resolves _, Rejects e, _ => Some e
  | Resolves _, Resolves _, Resolves _, Rejects e => Some e
  | Resolves _, Resolves _, Resolves _, Resolves _ => None
  end.

(** A source text of more than 10,000 characters. *)
Definition oversized_code : string :=
  String.concat "" (replicate (Z.to_nat 10001) "x").

(** Two sets of answers to one search that differ at most in what the usage
    tracking answers. *)
Definition same_search (o1 o2 : search_oracle) : Prop :=
  se_valyu_new o1 = se_valyu_new o2
  /\ se_search o1 = se_search o2
  /\ se_track o1 = se_track o2.

(** What a search tool answers with, read off the answers of the services
    that decide it: the payload built from the search response, or the
    failure message of the tool followed by the message of the error. *)
Definition error_text (error : JS.exn) : string :=
  match error with
  | JS.Error m => m
  | _ => "Unknown error"
  end.

Definition search_text (o : search_oracle)
    (payload : option search_response -> JS.json) (failure : string)
  : tool_text :=
  match se_valyu_new o, se_search o, se_track o with
  | Rejects error, _, _ => Plain (failure +:+ error_text error)
  | Resolves _, Rejects error, _ => Plain (failure +:+ error_text error)
  | Resolves _, Resolves _, Rejects error => Plain (failure +:+ error_text error)
  | Resolves _, Resolves response, Resolves _ => Stringified (payload response)
  end.

Definition patentSearch_payload (query : string)
    (response : option search_response) : JS.json :=
  JS.JObj
    [("type", JS.JStr "patents");
     ("query", JS.JStr query);
     ("resultCount", JS.JNum (Z.of_nat (resultCount response)));
     ("results", JS.JArr (results_or_empty response));
     ("favicon", JS.JStr "https://www.uspto.gov/favicon.ico");
     ("displaySource", JS.JStr "USPTO (via Valyu)")].

Definition patentAnalysis_payload (query : string)
    (response : option search_response) : JS.json :=
  JS.JObj
    [("type", JS.JStr "patent_analysis");
     ("query", JS.JStr query);
     ("resultCount", JS.JNum (Z.of_nat (resultCount response)));
     ("results", JS.JArr (results_or_empty response));
     ("favicon", JS.JStr "https://www.uspto.gov/favicon.ico");
     ("displaySource", JS.JStr "USPTO (via Valyu)")].

Definition webSearch_payload (query : string)
    (response : option search_response) : JS.json :=
  JS.JObj
    [("type", JS.JStr "web_search");
     ("query", JS.JStr query);
     ("resultCount", JS.JNum (Z.of_nat (resultCount response)));
     ("results", JS.JArr (results_or_empty response))].

(** Among the calls [evs] of a search tool, usage is reported for billing
    at most once, and only for a search that was answered, made for a user
    and a session on the pay-per-use tier, outside development mode; what is
    reported is the cost and the result count of that answer. *)
Definition billed_at_most_once (env : gmap string string) (o : search_oracle)
    (query : string) (options : context) (tool : string)
    (evs : list SearchTools.event) : Prop :=
  List.filter SearchTools.is_usage evs = []
  \/ exists userId sessionId response,
       List.filter SearchTools.is_usage evs
       = [SearchTools.Polar_trackValyuAPIUsage userId sessionId tool
            (deduction response) query (resultCount response)]
       /\ ctx_userId options = Some userId
       /\ ctx_sessionId options = Some sessionId
       /\ ctx_userTier options = Some "pay_per_use"
       /\ env !! "NEXT_PUBLIC_APP_MODE" <> Some "development"
       /\ se_search o = Resolves response.

End ToolsSpec.

(** Concrete inputs of the further tools. *)

Module ToolExamples.
Import Flow.

(** The numbers of the examples: the integers (as far as a double holds
    them exactly), the two infinities and [NaN]. *)
Inductive num :=
| Int (z : Z)
| Infinity (negative : bool)
| NaN.

Definition digit (c : ascii) : option Z :=
  let n := Z.of_nat (nat_of_ascii c) in
  if (48 <=? n)%Z && (n <=? 57)%Z then Some (n - 48)%Z else None.

Fixpoint digits (acc : Z) (s : string) : option Z :=
  match s with
  | EmptyString => Some acc
  | String c s' =>
      match digit c with
      | Some d => digits (10 * acc + d) s'
      | None => None
      end
  end.

(** A run of one or more decimal digits. *)
Definition unsigned (s : string) : option Z :=
  match s with
  | EmptyString => None
  | _ => digits 0 s
  end.

(** [Number(s)] on the strings of the examples: a decimal integer literal
    of at most fifteen digits, with or without a sign, is that integer; the
    empty string is zero; [Infinity] is itself; text that spells no number
    is [NaN]. Longer literals, literals with a fraction, an exponent or a
    radix prefix, and white space around a literal, do not occur in the
    examples. *)
Definition Number_of_string (s : string) : num :=
  if String.eqb s "" then Int 0
  else if String.eqb s "Infinity" || String.eqb s "+Infinity" then Infinity false
  else if String.eqb s "-Infinity" then Infinity true
  else
    match s with
    | String "-" s' =>
        match unsigned s' with Some n => Int (- n) | None => NaN end
    | String "+" s' =>
        match unsigned s' with Some n => Int n | None => NaN end
    | _ => match unsigned s with Some n => Int n | None => NaN end
    end.

Definition min2 (a b : num) : num :=
  match a, b with
  | NaN, _ | _, NaN => NaN
  | Infinity true, _ | _, Infinity true => Infinity true
  | Infinity false, n | n, Infinity false => n
  | Int x, Int y => Int (Z.min x y)
  end.

Definition max2 (a b : num) : num :=
  match a, b with
  | NaN, _ | _, NaN => NaN
  | Infinity false, _ | _, Infinity false => Infinity false
  | Infinity true, n | n, Infinity true => n
  | Int x, Int y => Int (Z.max x y)
  end.

(** [Math.min(...l)] and [Math.max(...l)] *)
Definition Math_min (l : list num) : num := foldr min2 (Infinity false) l.
Definition Math_max (l : list num) : num := foldr max2 (Infinity true) l.

(** [n.toFixed(1)] *)
Definition toFixed1 (n : num) : string :=
  match n with
  | Int z => JS.of_Z z +:+ ".0"
  | Infinity false => "Infinity"
  | Infinity true => "-Infinity"
  | NaN => "NaN"
  end.

(** [!!n] *)
Definition truthy_number (n : num) : bool :=
  match n with
  | Int z => negb (z =? 0)%Z
  | Infinity _ => true
  | NaN => false
  end.

Definition createChart :=
  Charts.createChart Number_of_string Math_min Math_max toFixed1 truthy_number.

Definition filings : list (Charts.series num) :=
  [{| Charts.name := "USPTO Filings";
      Charts.data :=
        [{| Charts.x := Charts.X_string "2015"; Charts.y := Int 45;
            Charts.size := None; Charts.label := None |};
         {| Charts.x := Charts.X_string "2024"; Charts.y := Int 450;
            Charts.size := None; Charts.label := None |}] |}].


Definition csv_track_down : Tools.csv_oracle :=
  {| Tools.csv_uuid := "0b9e7c0e-5a55-4c3a-9d3c-2f1d6a7e8b90";
     Tools.csv_db := Db_ok;
     Tools.csv_track := Rejects (JS.Error "analytics unavailable") |}.

(** Telemetry rejects with [undefined]. *)
Definition csv_track_undefined : Tools.csv_oracle :=
  {| Tools.csv_uuid := "0b9e7c0e-5a55-4c3a-9d3c-2f1d6a7e8b90";
     Tools.csv_db := Db_ok;
     Tools.csv_track := Rejects JS.Thrown_undefined |}.

(** A run that prints 42 and exits with code zero; and the same run when
    the usage tracking and the deletion of the sandbox fail. *)
Definition run_ok : Tools.exec_oracle :=
  {| Tools.ex_now_start := 1000;
     Tools.ex_daytona_new := Resolves tt;
     Tools.ex_create := Resolves "sandbox-1";
     Tools.ex_codeRun :=
       Resolves {| Tools.exitCode := 0; Tools.result := Some "42" |};
     Tools.ex_now_end := 1250;
     Tools.ex_track := Resolves tt;
     Tools.ex_polar_new := Resolves tt;
     Tools.ex_polar_track := Resolves tt;
     Tools.ex_delete := Resolves tt |}.

(** The same run when telemetry rejects with [null]. *)
Definition run_track_null : Tools.exec_oracle :=
  {| Tools.ex_now_start := 1000;
     Tools.ex_daytona_new := Resolves tt;
     Tools.ex_create := Resolves "sandbox-1";
     Tools.ex_codeRun :=
       Resolves {| Tools.exitCode := 0; Tools.result := Some "42" |};
     Tools.ex_now_end := 1250;
     Tools.ex_track := Rejects JS.Thrown_null;
     Tools.ex_polar_new := Resolves tt;
     Tools.ex_polar_track := Resolves tt;
     Tools.ex_delete := Resolves tt |}.

Definition run_ok_cleanup_fails : Tools.exec_oracle :=
  {| Tools.ex_now_start := 1000;
     Tools.ex_daytona_new := Resolves tt;
     Tools.ex_create := Resolves "sandbox-1";
     Tools.ex_codeRun :=
       Resolves {| Tools.exitCode := 0; Tools.result := Some "42" |};
     Tools.ex_now_end := 1250;
     Tools.ex_track := Resolves tt;
     Tools.ex_polar_new := Rejects (JS.Error "polar is down");
     Tools.ex_polar_track := Rejects (JS.Error "polar is down");
     Tools.ex_delete := Rejects (JS.Error "sandbox is gone") |}.

Definition chart_ok : Charts.chart_oracle :=
  {| Charts.ch_track := Resolves tt;
     Charts.ch_uuid := "3d5f2c1e-8a47-4b6d-9c0e-5f1a2b3c4d5e";
     Charts.ch_db := Db_ok |}.

Definition chart_db_down : Charts.chart_oracle :=
  {| Charts.ch_track := Resolves tt;
     Charts.ch_uuid := "3d5f2c1e-8a47-4b6d-9c0e-5f1a2b3c4d5e";
     Charts.ch_db := Db_throws (JS.Error "connection refused") |}.

Definition chart_track_down : Charts.chart_oracle :=
  {| Charts.ch_track := Rejects (JS.Error "analytics unavailable");
     Charts.ch_uuid := "3d5f2c1e-8a47-4b6d-9c0e-5f1a2b3c4d5e";
     Charts.ch_db := Db_ok |}.

End ToolExamples.

(* ===================================================================== *)
(** ** Vocabulary of the properties of the chat endpoint *)
(* ===================================================================== *)

Module ChatGuards.
Import Flow ChatRoute.

(** The calls that only a production deployment makes: the Supabase
    clients, the access validation and the rate limiter. *)
Definition is_production_call (e : event) : bool :=
  match e with
  | Supabase_createClient | ValidateAccess _
  | CheckAnonymousRateLimit | CheckUserRateLimit _ | IncrementRateLimit _ => true
  | _ => false
  end.

(** The calls made on behalf of a request that has passed the guards: the
    provider selection, the persistence of messages, the generation and the
    counting of the request. *)
Definition is_work (e : event) : bool :=
  match e with
  | Fetch _ | Response_json | Db_getUserProfile _ | GetPolarTrackedModel _ _
  | Db_getChatMessages _ | SaveChatMessages _ _ | Db_updateChatSession _ _
  | ConvertToModelMessages | StreamText _ _ _ _ _ _ | ToUIMessageStreamResponse
  | IncrementRateLimit _ => true
  | _ => false
  end.

(** The headers of a stream response. *)
Definition stream_headers (cfg : config) : list (string * string) :=
  (if isDevelopment cfg
   then [("X-Development-Mode", "true");
         ("X-RateLimit-Limit", "unlimited");
         ("X-RateLimit-Remaining", "unlimited")]
   else [])
  ++ [("Connection", "keep-alive");
      ("X-Accel-Buffering", "no");
      ("Cache-Control", "no-cache, no-transform")].

(** Does the name of a model contain the name of a reasoning model? *)
Definition names_thinking_model (name : string) : bool :=
  existsb (fun thinkModel =>
             JS.includes (JS.toLowerCase name) (JS.toLowerCase thinkModel))
          thinkingModels.

(** The provider options of a generation fit its model: a local model is
    told whether to think, according to its name; a hosted model gets the
    OpenAI reasoning options. *)
Definition options_fit (e : event) : Prop :=
  match e with
  | StreamText (Local_chat _ _ name) _ _ _ _ (Think enabled) =>
      enabled = names_thinking_model name
  | StreamText (Local_chat _ _ _) _ _ _ _ OpenAI_reasoning => False
  | StreamText _ _ _ _ _ (Think _) => False
  | _ => True
  end.

(** Line 334: [isUsingLocalProvider], from the model information that
    the selector produced. *)
Definition isUsingLocalProvider (cfg : config) (o : oracle) (modelInfo : string)
  : bool :=
  isDevelopment cfg
  && negb (bool_decide (o_headers o !! "x-ollama-enabled" = Some "false"))
  && (JS.includes modelInfo "Ollama" || JS.includes modelInfo "LM Studio").

(** What the selector produced is coherent: the model information makes
    the handler take the model for a local one exactly when it is one, and a
    local model is marked as reasoning model according to its name. *)
Definition coherent (cfg : config) (o : oracle)
    (selected : model * string * bool) : Prop :=
  match selected with
  | (Local_chat _ _ name, modelInfo, supportsThinking) =>
      isUsingLocalProvider cfg o modelInfo = true
      /\ supportsThinking = names_thinking_model name
  | (_, modelInfo, _) => isUsingLocalProvider cfg o modelInfo = false
  end.

(** The models that a probe response lists for a provider. *)
Definition listed (provider : string) (body : probe_body) : list string :=
  if String.eqb provider "lmstudio"
  then List.filter is_chat_model (default [] (pb_data body))
  else default [] (pb_models body).

End ChatGuards.

(** Concrete conversations and status reports. *)

Module FinishExamples.
Import Flow ChatFinish.

Definition question : ui_message :=
  {| um_id := Some "msg-1";
     um_role := "user";
     um_parts := Some [JS.JStr "Show me key patents on solid-state batteries"];
     um_content := None |}.

Definition reply : ui_message :=
  {| um_id := Some "0b9e7c0e-5A55-4c3a-9d3c-2f1d6a7e8b90";
     um_role := "assistant";
     um_parts := None;
     um_content := Some (Legacy_text "Here are the findings.") |}.

Definition conversation : list ui_message := [question; reply].

Definition finish_ok : finish_oracle :=
  {| fo_now := 5250;
     fo_uuid := fun _ => "7f3c2b1a-9d8e-4f6a-8b7c-1a2b3c4d5e6f";
     fo_save := Db_ok;
     fo_update := Db_ok |}.

Definition finish_save_fails : finish_oracle :=
  {| fo_now := 5250;
     fo_uuid := fun _ => "7f3c2b1a-9d8e-4f6a-8b7c-1a2b3c4d5e6f";
     fo_save := Db_error;
     fo_update := Db_ok |}.

(** A status report with the Daytona key missing. *)
Definition daytona_missing : MissingKeys.env_status :=
  {| MissingKeys.valyuKeyPresent := true;
     MissingKeys.daytonaKeyPresent := false;
     MissingKeys.openaiKeyPresent := false;
     MissingKeys.aiGatewayKeyPresent := true;
     MissingKeys.aiGatewayRequired := Some true;
     MissingKeys.isDevelopment := Some false |}.

End FinishExamples.

(** Concrete requests in development mode. *)

Module ChatExamples.
Import Flow ChatRoute.

(** The answers to a request made while a local Ollama server is running
    and lists [models]; [headers] are the headers of the request, and
    [profile] is the profile of the user. *)
Definition local_answers (models : list string) (headers : gmap string string)
    (profile : option profile) (messages : list message)
    (sessionId : option string) (user : option user) : oracle :=
  {| o_body := Resolves (messages, sessionId);
     o_headers := headers;
     o_getUser := Resolves user;
     o_createClient := Resolves tt;
     o_validateAccess := Resolves Examples.access_granted;
     o_checkAnonymous := Resolves Examples.within_limit;
     o_checkUser := Resolves Examples.within_limit;
     o_fetch :=
       Resolves {| pr_ok := true;
                   pr_status := 200;
                   pr_json := Resolves {| pb_data := None;
                                          pb_models := Some models |} |};
     o_profile_model := Resolves profile;
     o_polar_model := Resolves tt;
     o_profile_tier := Resolves profile;
     o_uuid := "7f3c2b1a-9d8e-4f6a-8b7c-1a2b3c4d5e6f";
     o_getChatMessages := Db_ok;
     o_json_parse := fun _ => Resolves [];
     o_saveChatMessages := Db_ok;
     o_updateChatSession := Db_ok;
     o_convert := Resolves tt;
     o_streamText := Resolves tt;
     o_toResponse := Resolves tt;
     o_increment := Resolves tt;
     o_stack := fun _ => None |}.

Definition installed : list string :=
  ["nomic-embed-text:latest"; "llama3.1:8b"; "deepseek-r1:14b"].

Definition pay_per_use : profile :=
  {| subscription_tier := Some "pay_per_use";
     subscriptionTier := None;
     subscription_status := Some "active";
     subscriptionStatus := None |}.

(** The early save of the user message throws. *)
Definition save_throws (messages : list message) (sessionId : option string)
    (user : option user) : oracle :=
  Examples.answers Examples.access_granted Examples.within_limit (Resolves tt)
    (Db_throws (JS.Error "connection refused")) messages sessionId user.

End ChatExamples.

(* ===================================================================== *)
(** * Proofs *)
(* ===================================================================== *)

(* ===================================================================== *)
(** ** Equations of the control-flow combinators *)
(* ===================================================================== *)

Module JSFacts.

(** Lower-casing turns the Kelvin sign into [k] and the dotted capital I
    into [i] followed by a combining dot; other characters outside ASCII
    are kept. *)
Example toLowerCase_kelvin_sign : JS.toLowerCase "DeepSeeK-R1" = "deepseek-r1".
Proof. reflexivity. Qed.

Example toLowerCase_dotted_capital_I : JS.toLowerCase "İQ" = "i̇q".
Proof. reflexivity. Qed.

(** [length] counts UTF-16 code units: one for a letter with an accent,
    two for a character outside the basic plane. *)
Example length_counts_code_units :
  JS.length "abc" = 3%nat /\ JS.length "é" = 1%nat /\ JS.length "🚫" = 2%nat
  /\ String.length "é" = 2%nat /\ String.length "🚫" = 4%nat.
Proof. repeat split. Qed.

End JSFacts.

Module FlowFacts.
Import Flow.

Section Equations.
Context {S E : Type}.
Implicit Types (s : S) (e : E).

Lemma run_eta {R A} (m : @M S E R A) s : m s = (final m s, trace m s, outcome m s).
Proof. unfold final, trace, outcome. now destruct (m s) as [[? ?] ?]. Qed.

Lemma trace_bind {R A B} (m : @M S E R A) (k : A -> @M S E R B) s :
  trace (bind m k) s
  = match outcome m s with
    | Normal a => trace m s ++ trace (k a) (final m s)
    | _ => trace m s
    end.
Proof.
  unfold trace, outcome, final, bind.
  destruct (m s) as [[s' t] [a|r|err]]; [|reflexivity..].
  cbn. now destruct (k a s') as [[? ?] ?].
Qed.

Lemma outcome_bind {R A B} (m : @M S E R A) (k : A -> @M S E R B) s :
  outcome (bind m k) s
  = match outcome m s with
    | Normal a => outcome (k a) (final m s)
    | Return r => Return r
    | Throw err => Throw err
    end.
Proof.
  unfold trace, outcome, final, bind.
  destruct (m s) as [[s' t] [a|r|err]]; [|reflexivity..].
  cbn. now destruct (k a s') as [[? ?] ?].
Qed.

Lemma final_bind {R A B} (m : @M S E R A) (k : A -> @M S E R B) s :
  final (bind m k) s
  = match outcome m s with
    | Normal a => final (k a) (final m s)
    | _ => final m s
    end.
Proof.
  unfold trace, outcome, final, bind.
  destruct (m s) as [[s' t] [a|r|err]]; [|reflexivity..].
  cbn. now destruct (k a s') as [[? ?] ?].
Qed.

Lemma trace_try_catch {R A} (m : @M S E R A) (h : JS.exn -> @M S E R A) s :
  trace (try_catch m h) s
  = match outcome m s with
    | Throw err => trace m s ++ trace (h err) (final m s)
    | _ => trace m s
    end.
Proof.
  unfold trace, outcome, final, try_catch.
  destruct (m s) as [[s' t] [a|r|err]]; [reflexivity..|].
  cbn. now destruct (h err s') as [[? ?] ?].
Qed.

Lemma outcome_try_catch {R A} (m : @M S E R A) (h : JS.exn -> @M S E R A) s :
  outcome (try_catch m h) s
  = match outcome m s with
    | Throw err => outcome (h err) (final m s)
    | c => c
    end.
Proof.
  unfold trace, outcome, final, try_catch.
  destruct (m s) as [[s' t] [a|r|err]]; [reflexivity..|].
  cbn. now destruct (h err s') as [[? ?] ?].
Qed.

Lemma final_try_catch {R A} (m : @M S E R A) (h : JS.exn -> @M S E R A) s :
  final (try_catch m h) s
  = match outcome m s with
    | Throw err => final (h err) (final m s)
    | _ => final m s
    end.
Proof.
  unfold trace, outcome, final, try_catch.
  destruct (m s) as [[s' t] [a|r|err]]; [reflexivity..|].
  cbn. now destruct (h err s') as [[? ?] ?].
Qed.

Lemma trace_await {R A} e (a : answer A) s : trace (await e a : @M S E R A) s = [e].
Proof. now destruct a. Qed.

Lemma outcome_await {R A} e (a : answer A) s :
  outcome (await e a : @M S E R A) s
  = match a with Resolves v => Normal v | Rejects err => Throw err end.
Proof. now destruct a. Qed.

Lemma final_await {R A} e (a : answer A) s : final (await e a : @M S E R A) s = s.
Proof. now destruct a. Qed.

Lemma trace_when {R} (b : bool) (m : @M S E R unit) s :
  trace (when b m) s = if b then trace m s else [].
Proof. now destruct b. Qed.

Lemma outcome_when {R} (b : bool) (m : @M S E R unit) s :
  outcome (when b m) s = if b then outcome m s else Normal tt.
Proof. now destruct b. Qed.

Lemma final_when {R} (b : bool) (m : @M S E R unit) s :
  final (when b m) s = if b then final m s else s.
Proof. now destruct b. Qed.

Lemma call_eq {R} (m : @M S E R R) s :
  call m s
  = (final m s, trace m s,
     match outcome m s with
     | Normal r => inr r
     | Return r => inr r
     | Throw err => inl err
     end).
Proof.
  unfold call, final, trace, outcome. now destruct (m s) as [[? ?] [?|?|?]].
Qed.

(** *** The judgements follow the structure of the code *)

Lemma emits_pure (Q : E -> Prop) {R A} (a : A) : emits Q (pure a : @M S E R A).
Proof. intros s. constructor. Qed.

Lemma emits_ret (Q : E -> Prop) {R A} (r : R) : emits Q (ret r : @M S E R A).
Proof. intros s. constructor. Qed.

Lemma emits_throw (Q : E -> Prop) {R A} err : emits Q (throw err : @M S E R A).
Proof. intros s. constructor. Qed.

Lemma emits_eval (Q : E -> Prop) {R A} (x : JS.exn + A) :
  emits Q (eval x : @M S E R A).
Proof. intros s. destruct x; constructor. Qed.

Lemma emits_get (Q : E -> Prop) {R} : emits Q (get : @M S E R S).
Proof. intros s. constructor. Qed.

Lemma emits_modify (Q : E -> Prop) {R} (f : S -> S) : emits Q (modify f : @M S E R unit).
Proof. intros s. constructor. Qed.

Lemma emits_log (Q : E -> Prop) {R} e : Q e -> emits Q (log e : @M S E R unit).
Proof. intros He s. repeat constructor. exact He. Qed.

Lemma emits_await (Q : E -> Prop) {R A} e (a : answer A) :
  Q e -> emits Q (await e a : @M S E R A).
Proof. intros He s. rewrite trace_await. repeat constructor. exact He. Qed.

Lemma emits_bind (Q : E -> Prop) {R A B} (m : @M S E R A) (k : A -> @M S E R B) :
  emits Q m -> (forall a, emits Q (k a)) -> emits Q (bind m k).
Proof.
  intros Hm Hk s. rewrite trace_bind.
  destruct (outcome m s); [apply Forall_app; split|..]; auto; apply Hk.
Qed.

Lemma emits_try_catch (Q : E -> Prop) {R A} (m : @M S E R A) h :
  emits Q m -> (forall err, emits Q (h err)) -> emits Q (try_catch m h).
Proof.
  intros Hm Hh s. rewrite trace_try_catch.
  destruct (outcome m s); [..|apply Forall_app; split]; auto; apply Hh.
Qed.

Lemma emits_when (Q : E -> Prop) {R} (b : bool) (m : @M S E R unit) :
  emits Q m -> emits Q (when b m).
Proof. intros Hm s. rewrite trace_when. destruct b; [apply Hm | constructor]. Qed.

Lemma emits_mapM (Q : E -> Prop) {R A B} (f : A -> @M S E R B) (l : list A) :
  (forall x, emits Q (f x)) -> emits Q (mapM f l).
Proof.
  intros Hf. induction l as [|x l IH]; [apply emits_pure|].
  cbn [mapM]. apply emits_bind; [apply Hf|]. intros y.
  apply emits_bind; [exact IH|]. intros ys. apply emits_pure.
Qed.

Lemma falls_through_pure {R A} (a : A) : falls_through (pure a : @M S E R A).
Proof. intros s r. discriminate. Qed.

Lemma falls_through_throw {R A} err :
  falls_through (throw err : @M S E R A).
Proof. intros s r. discriminate. Qed.

Lemma falls_through_eval {R A} (x : JS.exn + A) :
  falls_through (eval x : @M S E R A).
Proof. intros s r. destruct x; discriminate. Qed.

Lemma falls_through_get {R} : falls_through (get : @M S E R S).
Proof. intros s r. discriminate. Qed.

Lemma falls_through_modify {R} (f : S -> S) :
  falls_through (modify f : @M S E R unit).
Proof. intros s r. discriminate. Qed.

Lemma falls_through_log {R} e : falls_through (log e : @M S E R unit).
Proof. intros s r. discriminate. Qed.

Lemma falls_through_await {R A} e (a : answer A) :
  falls_through (await e a : @M S E R A).
Proof. intros s r. rewrite outcome_await. destruct a; discriminate. Qed.

Lemma falls_through_bind {R A B} (m : @M S E R A) (k : A -> @M S E R B) :
  falls_through m -> (forall a, falls_through (k a)) -> falls_through (bind m k).
Proof.
  intros Hm Hk s r. rewrite outcome_bind.
  destruct (outcome m s) eqn:Hout; [apply Hk | now apply Hm in Hout | discriminate].
Qed.

Lemma falls_through_try_catch {R A} (m : @M S E R A) h :
  falls_through m -> (forall err, falls_through (h err)) ->
  falls_through (try_catch m h).
Proof.
  intros Hm Hh s r. rewrite outcome_try_catch.
  destruct (outcome m s) eqn:Hout; [discriminate | now apply Hm in Hout | apply Hh].
Qed.

Lemma falls_through_when {R} (b : bool) (m : @M S E R unit) :
  falls_through m -> falls_through (when b m).
Proof. intros Hm s r. rewrite outcome_when. destruct b; [apply Hm | discriminate]. Qed.

Lemma falls_through_mapM {R A B} (f : A -> @M S E R B) (l : list A) :
  (forall x, falls_through (f x)) -> falls_through (mapM f l).
Proof.
  intros Hf. induction l as [|x l IH]; [apply falls_through_pure|].
  cbn [mapM]. apply falls_through_bind; [apply Hf|]. intros y.
  apply falls_through_bind; [exact IH|]. intros ys. apply falls_through_pure.
Qed.

Lemma reads_only_pure {R A} (a : A) : reads_only (pure a : @M S E R A).
Proof. intros s. reflexivity. Qed.

Lemma reads_only_ret {R A} (r : R) : reads_only (ret r : @M S E R A).
Proof. intros s. reflexivity. Qed.

Lemma reads_only_throw {R A} err :
  reads_only (throw err : @M S E R A).
Proof. intros s. reflexivity. Qed.

Lemma reads_only_eval {R A} (x : JS.exn + A) :
  reads_only (eval x : @M S E R A).
Proof. intros s. now destruct x. Qed.

Lemma reads_only_get {R} : reads_only (get : @M S E R S).
Proof. intros s. reflexivity. Qed.

Lemma reads_only_log {R} e : reads_only (log e : @M S E R unit).
Proof. intros s. reflexivity. Qed.

Lemma reads_only_await {R A} e (a : answer A) :
  reads_only (await e a : @M S E R A).
Proof. intros s. apply final_await. Qed.

Lemma reads_only_bind {R A B} (m : @M S E R A) (k : A -> @M S E R B) :
  reads_only m -> (forall a, reads_only (k a)) -> reads_only (bind m k).
Proof.
  intros Hm Hk s. rewrite final_bind.
  destruct (outcome m s); rewrite ?Hk; apply Hm.
Qed.

Lemma reads_only_try_catch {R A} (m : @M S E R A) h :
  reads_only m -> (forall err, reads_only (h err)) -> reads_only (try_catch m h).
Proof.
  intros Hm Hh s. rewrite final_try_catch.
  destruct (outcome m s); rewrite ?Hh; apply Hm.
Qed.

Lemma reads_only_when {R} (b : bool) (m : @M S E R unit) :
  reads_only m -> reads_only (when b m).
Proof. intros Hm s. rewrite final_when. destruct b; [apply Hm | reflexivity]. Qed.

Lemma reads_only_mapM {R A B} (f : A -> @M S E R B) (l : list A) :
  (forall x, reads_only (f x)) -> reads_only (mapM f l).
Proof.
  intros Hf. induction l as [|x l IH]; [apply reads_only_pure|].
  cbn [mapM]. apply reads_only_bind; [apply Hf|]. intros y.
  apply reads_only_bind; [exact IH|]. intros ys. apply reads_only_pure.
Qed.

Lemma returns_falls_through {R A} (P : R -> Prop) (m : @M S E R A) :
  falls_through m -> returns P m.
Proof. intros Hm s r Hout. now apply Hm in Hout. Qed.

Lemma returns_ret {R A} (P : R -> Prop) (r : R) :
  P r -> returns P (ret r : @M S E R A).
Proof. intros Hr s r' Hout. now injection Hout as <-. Qed.

Lemma returns_bind {R A B} (P : R -> Prop) (m : @M S E R A) (k : A -> @M S E R B) :
  returns P m -> (forall a, returns P (k a)) -> returns P (bind m k).
Proof.
  intros Hm Hk s r. rewrite outcome_bind.
  destruct (outcome m s) eqn:Hout; [apply Hk | | discriminate].
  intros Heq. injection Heq as <-. now apply (Hm s).
Qed.

Lemma returns_try_catch {R A} (P : R -> Prop) (m : @M S E R A) h :
  returns P m -> (forall err, returns P (h err)) -> returns P (try_catch m h).
Proof.
  intros Hm Hh s r. rewrite outcome_try_catch.
  destruct (outcome m s) eqn:Hout; [discriminate | | apply Hh].
  intros Heq. injection Heq as <-. now apply (Hm s).
Qed.

Lemma returns_when {R} (P : R -> Prop) (b : bool) (m : @M S E R unit) :
  returns P m -> returns P (when b m).
Proof. intros Hm s r. rewrite outcome_when. destruct b; [apply Hm | discriminate]. Qed.

Lemma never_normal_ret {R A} (r : R) : never_normal (ret r : @M S E R A).
Proof. intros s a. discriminate. Qed.

Lemma never_normal_throw {R A} err : never_normal (throw err : @M S E R A).
Proof. intros s a. discriminate. Qed.

Lemma never_normal_bind {R A B} (m : @M S E R A) (k : A -> @M S E R B) :
  (forall a, never_normal (k a)) -> never_normal (bind m k).
Proof.
  intros Hk s b. rewrite outcome_bind.
  destruct (outcome m s); [apply Hk | discriminate..].
Qed.

Lemma never_normal_try_catch {R A} (m : @M S E R A) h :
  never_normal m -> (forall err, never_normal (h err)) ->
  never_normal (try_catch m h).
Proof.
  intros Hm Hh s a. rewrite outcome_try_catch.
  destruct (outcome m s) eqn:Hout; [now apply Hm in Hout | discriminate | apply Hh].
Qed.

Lemma never_throws_ret {R A} (r : R) : never_throws (ret r : @M S E R A).
Proof. intros s err. discriminate. Qed.

Lemma never_throws_log {R} e : never_throws (log e : @M S E R unit).
Proof. intros s err. discriminate. Qed.

Lemma never_throws_bind {R A B} (m : @M S E R A) (k : A -> @M S E R B) :
  never_throws m -> (forall a, never_throws (k a)) -> never_throws (bind m k).
Proof.
  intros Hm Hk s err. rewrite outcome_bind.
  destruct (outcome m s) eqn:Hout; [apply Hk | discriminate | now apply Hm in Hout].
Qed.

Lemma never_throws_try_catch {R A} (m : @M S E R A) h :
  (forall err, never_throws (h err)) -> never_throws (try_catch m h).
Proof.
  intros Hh s err. rewrite outcome_try_catch.
  destruct (outcome m s); [discriminate.. | apply Hh].
Qed.

(** A body that always ends in a [return] of something satisfying [P]
    makes the call answer with such a value. *)
Lemma call_returns {R} (P : R -> Prop) (m : @M S E R R) s :
  returns P m -> never_normal m -> never_throws m ->
  exists r, snd (call m s) = inr r /\ P r.
Proof.
  intros Hret Hnn Hnt. rewrite call_eq. cbn [snd].
  destruct (outcome m s) eqn:Hout.
  - now apply Hnn in Hout.
  - eexists. split; [reflexivity|]. now apply (Hret s).
  - now apply Hnt in Hout.
Qed.

(** Calls that all satisfy [Q] contain none that [P] selects, when [P]
    rejects whatever satisfies [Q]. *)
Lemma filter_emits (P : E -> bool) (Q : E -> Prop) (t : list E) :
  (forall e, Q e -> P e = false) -> Forall Q t -> List.filter P t = [].
Proof.
  intros HPQ Ht. induction Ht as [|e t He _ IH]; [reflexivity|].
  cbn. now rewrite (HPQ e He).
Qed.

(** *** Stepping through a run *)

Lemma wp_bind {R A B} (m : @M S E R A) (k : A -> @M S E R B) post s :
  wp m (fun s1 t1 c1 =>
          match c1 with
          | Normal a => wp (k a) (fun s2 t2 c => post s2 (t1 ++ t2) c) s1
          | Return r => post s1 t1 (Return r)
          | Throw err => post s1 t1 (Throw err)
          end) s ->
  wp (bind m k) post s.
Proof.
  unfold wp. rewrite final_bind, trace_bind, outcome_bind.
  now destruct (outcome m s).
Qed.

Lemma wp_try_catch {R A} (m : @M S E R A) (h : JS.exn -> @M S E R A) post s :
  wp m (fun s1 t1 c1 =>
          match c1 with
          | Throw err => wp (h err) (fun s2 t2 c => post s2 (t1 ++ t2) c) s1
          | Normal a => post s1 t1 (Normal a)
          | Return r => post s1 t1 (Return r)
          end) s ->
  wp (try_catch m h) post s.
Proof.
  unfold wp. rewrite final_try_catch, trace_try_catch, outcome_try_catch.
  now destruct (outcome m s).
Qed.

Lemma wp_pure {R A} (a : A) (post : S -> list E -> completion R A -> Prop) s :
  post s [] (Normal a) -> wp (pure a) post s.
Proof. trivial. Qed.

Lemma wp_ret {R A} (r : R) (post : S -> list E -> completion R A -> Prop) s :
  post s [] (Return r) -> wp (ret r) post s.
Proof. trivial. Qed.

Lemma wp_throw {R A} err (post : S -> list E -> completion R A -> Prop) s :
  post s [] (Throw err) -> wp (throw err) post s.
Proof. trivial. Qed.

Lemma wp_eval {R A} (x : JS.exn + A)
    (post : S -> list E -> completion R A -> Prop) s :
  (forall a, x = inr a -> post s [] (Normal a)) ->
  (forall err, x = inl err -> post s [] (Throw err)) ->
  wp (eval x) post s.
Proof. intros Ha Herr. destruct x; [now apply Herr | now apply Ha]. Qed.

Lemma wp_log {R} e (post : S -> list E -> completion R unit -> Prop) s :
  post s [e] (Normal tt) -> wp (log e) post s.
Proof. trivial. Qed.

Lemma wp_get {R} (post : S -> list E -> completion R S -> Prop) s :
  post s [] (Normal s) -> wp get post s.
Proof. trivial. Qed.

Lemma wp_modify {R} (f : S -> S) (post : S -> list E -> completion R unit -> Prop) s :
  post (f s) [] (Normal tt) -> wp (modify f) post s.
Proof. trivial. Qed.

Lemma wp_await {R A} e (a : answer A)
    (post : S -> list E -> completion R A -> Prop) s :
  (forall v, a = Resolves v -> post s [e] (Normal v)) ->
  (forall err, a = Rejects err -> post s [e] (Throw err)) ->
  wp (await e a) post s.
Proof.
  intros Hv Herr. unfold wp. rewrite final_await, trace_await, outcome_await.
  destruct a; auto.
Qed.

Lemma wp_when {R} (b : bool) (m : @M S E R unit) post s :
  (b = true -> wp m post s) -> (b = false -> post s [] (Normal tt)) ->
  wp (when b m) post s.
Proof. destruct b; intros Ht Hf; [now apply Ht | now apply Hf]. Qed.

Lemma wp_try_finally {R A} (m : @M S E R A) (f : @M S E R unit) post s :
  wp m (fun s1 t1 c1 =>
          wp f (fun s2 t2 c2 =>
                  post s2 (t1 ++ t2)
                    match c2 with
                    | Normal _ => c1
                    | Return r => Return r
                    | Throw err => Throw err
                    end) s1) s ->
  wp (try_finally m f) post s.
Proof.
  unfold wp, final, trace, outcome, try_finally.
  destruct (m s) as [[s1 t1] c1]. cbn.
  now destruct (f s1) as [[s2 t2] [[]| |]].
Qed.

(** What is known of a run can be used in place of the run. *)
Lemma wp_use {R A} (m : @M S E R A) (spec post : S -> list E -> completion R A -> Prop) s :
  wp m spec s ->
  (forall s1 t1 c1, spec s1 t1 c1 -> post s1 t1 c1) ->
  wp m post s.
Proof. unfold wp. auto. Qed.

(** What the judgements tell of a run. *)
Lemma wp_judged {R A} (Q : E -> Prop) (m : @M S E R A) s :
  emits Q m -> falls_through m -> reads_only m ->
  wp m (fun s1 t1 c1 =>
          s1 = s /\ Forall Q t1 /\ forall r, c1 <> Return r) s.
Proof. intros He Hf Hr. unfold wp. auto. Qed.

End Equations.

Section Variables.
Context {S E V : Type}.

Lemma wp_with_var {R A} (init : V) (m : @M (S * V) E R A) post (s : S) :
  wp m (fun sv t c => post (fst sv) t c) (s, init) ->
  wp (with_var init m) post s.
Proof.
  unfold wp, final, trace, outcome, with_var.
  now destruct (m (s, init)) as [[[s1 v1] t1] c1].
Qed.

Lemma wp_lift {R A} (m : @M S E R A) post (sv : S * V) :
  wp m (fun s1 t c => post (s1, snd sv) t c) (fst sv) ->
  wp (lift m) post sv.
Proof.
  unfold wp, final, trace, outcome, lift.
  now destruct (m (fst sv)) as [[s1 t1] c1].
Qed.

Lemma wp_set_var {R} (v : V)
    (post : S * V -> list E -> completion R unit -> Prop) (sv : S * V) :
  post (fst sv, v) [] (Normal tt) -> wp (set_var v) post sv.
Proof. trivial. Qed.

Lemma wp_get_var {R}
    (post : S * V -> list E -> completion R V -> Prop) (sv : S * V) :
  post sv [] (Normal (snd sv)) -> wp get_var post sv.
Proof. trivial. Qed.

End Variables.

Ltac flow_case :=
  match goal with
  | |- context [match ?x with _ => _ end] => destruct x
  end.

Ltac flow_step :=
  lazymatch goal with
  | |- emits _ _ =>
      first
        [ apply emits_bind; [|intros ?]
        | apply emits_try_catch; [|intros ?]
        | apply emits_await
        | apply emits_log
        | apply emits_pure
        | apply emits_throw
        | apply emits_eval
        | apply emits_ret
        | apply emits_get
        | apply emits_modify
        | apply emits_when
        | apply emits_mapM; intros ?
        | flow_case ]
  | |- falls_through _ =>
      first
        [ apply falls_through_bind; [|intros ?]
        | apply falls_through_try_catch; [|intros ?]
        | apply falls_through_await
        | apply falls_through_log
        | apply falls_through_pure
        | apply falls_through_throw
        | apply falls_through_eval
        | apply falls_through_get
        | apply falls_through_modify
        | apply falls_through_when
        | apply falls_through_mapM; intros ?
        | flow_case ]
  | |- reads_only _ =>
      first
        [ apply reads_only_bind; [|intros ?]
        | apply reads_only_try_catch; [|intros ?]
        | apply reads_only_await
        | apply reads_only_log
        | apply reads_only_pure
        | apply reads_only_throw
        | apply reads_only_eval
        | apply reads_only_ret
        | apply reads_only_get
        | apply reads_only_when
        | apply reads_only_mapM; intros ?
        | flow_case ]
  | |- returns _ _ =>
      first
        [ apply returns_bind; [|intros ?]
        | apply returns_try_catch; [|intros ?]
        | apply returns_when
        | apply returns_falls_through;
          first [ apply falls_through_await
                | apply falls_through_log
                | apply falls_through_pure
                | apply falls_through_throw
                | apply falls_through_get
                | apply falls_through_modify ]
        | flow_case ]
  | |- never_normal _ =>
      first
        [ apply never_normal_bind; intros ?
        | apply never_normal_try_catch; [|intros ?]
        | apply never_normal_ret
        | apply never_normal_throw
        | flow_case ]
  | |- never_throws _ =>
      first
        [ apply never_throws_try_catch; intros ?
        | apply never_throws_bind; [apply never_throws_log | intros ?]
        | apply never_throws_ret
        | flow_case ]
  | |- _ => exact I
  end.

Ltac flow := repeat flow_step.

(** One step of a run: the rule for the construct at the head, then the
    reductions that expose the next one. *)
Ltac wp_step :=
  lazymatch goal with
  | |- wp (bind _ _) _ _ => apply wp_bind
  | |- wp (try_catch _ _) _ _ => apply wp_try_catch
  | |- wp (await _ _) _ _ => apply wp_await; intros ? ?
  | |- wp (pure _) _ _ => apply wp_pure
  | |- wp (ret _) _ _ => apply wp_ret
  | |- wp (throw _) _ _ => apply wp_throw
  | |- wp (eval _) _ _ => apply wp_eval; intros ? ?
  | |- wp (log _) _ _ => apply wp_log
  | |- wp get _ _ => apply wp_get
  | |- wp (modify _) _ _ => apply wp_modify
  | |- wp (when _ _) _ _ => apply wp_when; intros ?
  | |- wp (try_finally _ _) _ _ => apply wp_try_finally
  | |- wp (with_var _ _) _ _ => apply wp_with_var
  | |- wp (lift _) _ _ => apply wp_lift
  | |- wp (set_var _) _ _ => apply wp_set_var
  | |- wp get_var _ _ => apply wp_get_var
  | |- wp (match ?x with _ => _ end) _ _ => destruct x eqn:?
  | |- wp (if ?x then _ else _) _ _ => destruct x eqn:?
  end;
  cbv beta iota; cbn [fst snd].


(** Two answers to the same call are the same answer. *)
Ltac unify_answers :=
  repeat match goal with
         | H1 : ?x = Resolves ?a, H2 : ?x = Resolves ?b |- _ =>
             first [ constr_eq a b; clear H2
                   | assert (a = b) by congruence; clear H2; simplify_eq ]
         | H1 : ?x = Resolves _, H2 : ?x = Rejects _ |- _ =>
             exfalso; congruence
         end.

End FlowFacts.

(* ===================================================================== *)
(** ** The tool set *)
(* ===================================================================== *)

Module CsvFacts.
Import CsvSpec Tools.

Lemma append_cons (x : ascii) (a b : string) :
  String x a +:+ b = String x (a +:+ b).
Proof. reflexivity. Qed.


Lemma append_assoc (a b c : string) : (a +:+ b) +:+ c = a +:+ (b +:+ c).
Proof.
  induction a as [|x a IH]; [reflexivity|].
  rewrite !append_cons, IH. reflexivity.
Qed.

























End CsvFacts.

Module ToolsFacts.
Import Flow FlowFacts Tools CsvSpec CsvFacts.

Lemma invalid_rows_found (headers : list string) (rows : list (list string)) :
  (exists row, row ∈ rows /\ length row <> length headers) ->
  (0 <? length (filter (fun row => length row <> length headers) rows))%nat = true.
Proof.
  intros (row & Hin & Hlen).
  assert (Hf : row ∈ filter (fun row => length row <> length headers) rows)
    by (apply list_elem_of_filter; auto).
  destruct (filter _ rows) as [|r l]; [now apply elem_of_nil in Hf|].
  reflexivity.
Qed.

(** C4. Whenever some row of a [createCSV] call has a length different from
    the number of headers, the call returns the structured validation error
    and persists nothing: the store of CSV artifacts is unchanged and no
    call at all (in particular no [db.createCSV]) is issued. *)
Theorem createCSV_mismatch_persists_nothing
    (o : csv_oracle) (title : string) (description : option string)
    (headers : list string) (rows : list (list string)) (options : context)
    (csvs : store) :
  (exists row, row ∈ rows /\ length row <> length headers) ->
  exists e,
    call (createCSV o title description headers rows options) csvs
    = (csvs, [], inr (Csv_validation_error e))
    /\ ve_title e = title /\ ve_headers e = headers
    /\ ve_expectedColumns e = length headers
    /\ ve_invalidRowCount e
       = length (filter (fun row => length row <> length headers) rows)
    /\ (0 < ve_invalidRowCount e)%nat.
Proof.
  intros Hbad. pose proof (invalid_rows_found headers rows Hbad) as Hpos.
  unfold createCSV, call, try_catch. cbv zeta. rewrite Hpos.
  eexists. split; [reflexivity|]. cbn.
  repeat split. now apply Nat.ltb_lt.
Qed.

Lemma createCSV_mismatch_persists_nothing_witness :
  (exists row, row ∈ [["1"]] /\ length row <> length ["A"; "B"])
  /\ exists e,
       call (createCSV Examples.csv_ok "t" None ["A"; "B"] [["1"]]
               Examples.no_context) ∅
       = (∅, [], inr (Csv_validation_error e))
       /\ ve_title e = "t" /\ ve_headers e = ["A"; "B"]
       /\ ve_expectedColumns e = length ["A"; "B"]
       /\ ve_invalidRowCount e
          = length (filter (fun row => length row <> length ["A"; "B"]) [["1"]])
       /\ (0 < ve_invalidRowCount e)%nat.
Proof.
  assert (Hbad : exists row, row ∈ [["1"]] /\ length row <> length ["A"; "B"]).
  { exists ["1"]. split; [apply list_elem_of_here | simpl; lia]. }
  split; [exact Hbad|].
  apply (createCSV_mismatch_persists_nothing Examples.csv_ok "t" None
           ["A"; "B"] [["1"]] Examples.no_context ∅ Hbad).
Defined.

(** A cell with a comma is wrapped; a cell with a double quote is wrapped
    and the quote doubled; a plain cell is left alone. *)
Example csvLine_escapes :
  csvLine ["Doe, John"; "5" +:+ JS.str JS.dquote +:+ " bolt"; "plain"]
  = JS.str JS.dquote +:+ "Doe, John" +:+ JS.str JS.dquote
    +:+ "," +:+ JS.str JS.dquote +:+ "5" +:+ JS.str JS.dquote
    +:+ JS.str JS.dquote +:+ " bolt" +:+ JS.str JS.dquote
    +:+ ",plain".
Proof. vm_compute. reflexivity. Qed.








(** C5. Whenever a [codeExecution] call provisions a sandbox (it reaches
    [daytona.create] and the creation resolves), [sandbox.delete()] is called
    exactly once, for that sandbox, and no other deletion is requested,
    whatever the code run does (exit code zero, nonzero, or a throw) and
    whatever telemetry, usage tracking and the deletion itself answer: the
    [finally] block always runs. *)
Theorem codeExecution_deletes_sandbox_once
    (env : gmap string string) (o : exec_oracle) (code : string)
    (description : option string) (options : context) (csvs : store)
    (sandbox : string) :
  let evs := snd (fst (call (codeExecution env o code description options) csvs)) in
  existsb is_create evs = true ->
  ex_create o = Resolves sandbox ->
  List.filter is_delete evs = [Sandbox_delete sandbox].
Proof.
  intros evs Hprov Hcreate. subst evs. revert Hprov.
  rewrite call_eq. cbn [fst snd].
  change (wp (codeExecution env o code description options)
            (fun _ t _ =>
               existsb is_create t = true ->
               List.filter is_delete t = [Sandbox_delete sandbox]) csvs).
  unfold codeExecution.
  repeat (wp_step; simplify_eq; unify_answers).
  all: try discriminate.
  all: intros _; reflexivity.
Qed.

Lemma codeExecution_deletes_sandbox_once_witness :
  let evs :=
    snd (fst (call (codeExecution Examples.tool_env Examples.run_throws
                      "print(1/0)" None Examples.paying_context) ∅)) in
  existsb is_create evs = true
  /\ ex_create Examples.run_throws = Resolves "sandbox-1"
  /\ List.filter is_delete evs = [Sandbox_delete "sandbox-1"].
Proof.
  intros evs.
  assert (Hprov : existsb is_create evs = true) by (vm_compute; reflexivity).
  split; [exact Hprov|]. split; [reflexivity|].
  exact (codeExecution_deletes_sandbox_once Examples.tool_env
           Examples.run_throws "print(1/0)" None Examples.paying_context ∅
           "sandbox-1" Hprov eq_refl).
Defined.

Lemma results_or_empty_upstream (response : option search_response) (item : JS.json) :
  item ∈ results_or_empty response ->
  exists r l, response = Some r /\ results r = Some l /\ item ∈ l.
Proof.
  destruct response as [r|]; simpl; [|intros H; now apply elem_of_nil in H].
  destruct (results r) as [l|] eqn:Hr; simpl; [|intros H; now apply elem_of_nil in H].
  intros Hin. now exists r, l.
Qed.

(** C9. When a [patentAnalysis] call succeeds (it returns a JSON payload,
    not an error message), the payload is exactly the object with the fields
    type = "patent_analysis", query (the query it was given), resultCount,
    results, favicon and displaySource = "USPTO (via Valyu)", where results
    is the list of records of the upstream search response, unchanged: every
    record of the payload, hence every patent number in it, is a record of
    the upstream results. *)
Theorem patentAnalysis_payload_from_upstream
    (env : gmap string string) (o : search_oracle) (query : string)
    (maxResults : Z) (options : context) (csvs csvs' : store)
    (evs : list event) (j : JS.json) :
  call (patentAnalysis env o query maxResults options) csvs
  = (csvs', evs, inr (Stringified j)) ->
  JS.field "type" j = Some (JS.JStr "patent_analysis")
  /\ JS.field "displaySource" j = Some (JS.JStr "USPTO (via Valyu)")
  /\ exists response,
       se_search o = Resolves response
       /\ j = JS.JObj
                [("type", JS.JStr "patent_analysis");
                 ("query", JS.JStr query);
                 ("resultCount", JS.JNum (Z.of_nat (resultCount response)));
                 ("results", JS.JArr (results_or_empty response));
                 ("favicon", JS.JStr "https://www.uspto.gov/favicon.ico");
                 ("displaySource", JS.JStr "USPTO (via Valyu)")]
       /\ forall item,
            item ∈ results_or_empty response ->
            exists r l, response = Some r /\ results r = Some l /\ item ∈ l.
Proof.
  rewrite call_eq. intros Hcall. injection Hcall as _ _ Hout. revert Hout.
  change (wp (patentAnalysis env o query maxResults options)
            (fun _ _ c =>
               match c with
               | Normal r => inr r
               | Return r => inr r
               | Throw err => inl err
               end = inr (Stringified j) ->
               JS.field "type" j = Some (JS.JStr "patent_analysis")
               /\ JS.field "displaySource" j = Some (JS.JStr "USPTO (via Valyu)")
               /\ exists response,
                    se_search o = Resolves response
                    /\ j = JS.JObj
                             [("type", JS.JStr "patent_analysis");
                              ("query", JS.JStr query);
                              ("resultCount",
                               JS.JNum (Z.of_nat (resultCount response)));
                              ("results", JS.JArr (results_or_empty response));
                              ("favicon",
                               JS.JStr "https://www.uspto.gov/favicon.ico");
                              ("displaySource", JS.JStr "USPTO (via Valyu)")]
                    /\ forall item,
                         item ∈ results_or_empty response ->
                         exists r l,
                           response = Some r /\ results r = Some l /\ item ∈ l)
            csvs).
  unfold patentAnalysis.
  repeat (wp_step; simplify_eq; unify_answers).
  all: intros Hout; try discriminate Hout.
  all: injection Hout as <-.
  all: split; [reflexivity|]; split; [reflexivity|].
  all: eexists; split; [eassumption|]; split; [reflexivity|].
  all: apply results_or_empty_upstream.
Qed.

Lemma patentAnalysis_payload_from_upstream_witness :
  let run := call (patentAnalysis Examples.tool_env Examples.search_ok
                     "US11234567" 5 Examples.no_context) ∅ in
  exists j,
    snd run = inr (Stringified j)
    /\ JS.field "type" j = Some (JS.JStr "patent_analysis")
    /\ JS.field "displaySource" j = Some (JS.JStr "USPTO (via Valyu)")
    /\ JS.field "results" j = Some (JS.JArr [Examples.one_patent]).
Proof.
  intros run. subst run.
  assert (Hres : exists j,
             snd (call (patentAnalysis Examples.tool_env Examples.search_ok
                          "US11234567" 5 Examples.no_context) ∅)
             = inr (Stringified j)
             /\ JS.field "results" j = Some (JS.JArr [Examples.one_patent]))
    by (eexists; split; vm_compute; reflexivity).
  destruct Hres as (j & Hres & Hresults).
  destruct (call _ _) as [[csvs' evs] res] eqn:Hrun.
  cbn [snd] in Hres |- *. subst res.
  exists j. split; [reflexivity|].
  destruct (patentAnalysis_payload_from_upstream Examples.tool_env
              Examples.search_ok "US11234567" 5 Examples.no_context
              ∅ csvs' evs j Hrun) as (Htype & Hsource & _).
  repeat split; assumption.
Defined.

End ToolsFacts.

(* ===================================================================== *)
(** ** Environment validation *)
(* ===================================================================== *)

Module EnvFacts.
Import Flow FlowFacts EnvValidation EnvSpec.

Lemma wp_when_push_error {R} (b : bool) (msg : string)
    (post : list string * list string -> list Empty_set ->
            completion R unit -> Prop) ew :
  post (fst ew ++ cond_msg b msg, snd ew) [] (Normal tt) ->
  wp (when b (push_error msg)) post ew.
Proof.
  destruct ew as [errs warns], b; cbn; unfold wp; cbn; [trivial|].
  now rewrite app_nil_r.
Qed.

Lemma wp_when_push_warning {R} (b : bool) (msg : string)
    (post : list string * list string -> list Empty_set ->
            completion R unit -> Prop) ew :
  post (fst ew, snd ew ++ cond_msg b msg) [] (Normal tt) ->
  wp (when b (push_warning msg)) post ew.
Proof.
  destruct ew as [errs warns], b; cbn; unfold wp; cbn; [trivial|].
  now rewrite app_nil_r.
Qed.

Ltac validation_step :=
  lazymatch goal with
  | |- wp (bind _ _) _ _ => apply wp_bind
  | |- wp (when true _) _ _ => apply wp_when; [intros _ | discriminate]
  | |- wp (when false _) _ _ => apply wp_when; [discriminate | intros _]
  | |- wp (when _ (push_error _)) _ _ => apply wp_when_push_error
  | |- wp (when _ (push_warning _)) _ _ => apply wp_when_push_warning
  | |- wp get _ _ => apply wp_get
  | |- wp (ret _) _ _ => apply wp_ret
  end;
  cbv beta iota; cbn [fst snd negb andb].

Lemma validatePaymentEnvironment_returns env r :
  outcome (validatePaymentEnvironment_body env) ([], []) = Return r ->
  validatePaymentEnvironment env = r.
Proof.
  intros Hout. unfold validatePaymentEnvironment. rewrite call_eq, Hout.
  reflexivity.
Qed.

Lemma validate_production (env : gmap string string) :
  env !! "NEXT_PUBLIC_APP_MODE" <> Some "development" ->
  validatePaymentEnvironment env
  = let errs := production_errors env ++ bad_url env in
    {| valid := (length errs =? 0)%nat;
       errors := errs;
       warnings := production_warnings env |}.
Proof.
  intros Hprod. apply validatePaymentEnvironment_returns.
  change (wp (validatePaymentEnvironment_body env)
            (fun _ _ c =>
               c = Return
                     (let errs := production_errors env ++ bad_url env in
                      {| valid := (length errs =? 0)%nat;
                         errors := errs;
                         warnings := production_warnings env |}))
            ([], [])).
  unfold validatePaymentEnvironment_body.
  rewrite (bool_decide_eq_false_2 _ Hprod).
  cbn [negb andb].
  repeat validation_step.
  unfold production_errors, production_warnings, bad_url, required_in_production.
  cbn [fmap list_fmap concat fst snd cond_msg app].
  rewrite <- ?app_assoc, ?app_nil_r. reflexivity.
Qed.

Lemma validate_development (env : gmap string string) :
  env !! "NEXT_PUBLIC_APP_MODE" = Some "development" ->
  validatePaymentEnvironment env
  = {| valid := (length (bad_url env) =? 0)%nat;
       errors := bad_url env;
       warnings :=
         cond_msg (unset env "AI_GATEWAY_API_KEY")
           "AI_GATEWAY_API_KEY missing - recommended for Vercel AI SDK integration" |}.
Proof.
  intros Hdev. apply validatePaymentEnvironment_returns.
  change (wp (validatePaymentEnvironment_body env)
            (fun _ _ c =>
               c = Return
                     {| valid := (length (bad_url env) =? 0)%nat;
                        errors := bad_url env;
                        warnings :=
                          cond_msg (unset env "AI_GATEWAY_API_KEY")
                            "AI_GATEWAY_API_KEY missing - recommended for Vercel AI SDK integration" |})
            ([], [])).
  unfold validatePaymentEnvironment_body.
  rewrite (bool_decide_eq_true_2 _ Hdev).
  cbn [negb andb].
  repeat validation_step.
  reflexivity.
Qed.

(** Printing a list of messages prints each of them and completes. *)
Lemma forEach_console (f : string -> console) (l : list string) (R : Type) :
  forEach (R := R) l (fun x => log (f x)) tt = (tt, f <$> l, Normal tt).
Proof.
  induction l as [|x l IH]; [reflexivity|].
  cbn [forEach]. unfold bind at 1. unfold log at 1. rewrite IH. reflexivity.
Qed.

Lemma required_error_recorded (env : gmap string string) (key msg : string) :
  (key, msg) ∈ required_in_production -> unset env key = true ->
  msg ∈ production_errors env.
Proof.
  intros Hin Hunset. unfold production_errors.
  apply list_elem_of_In, in_concat. exists [msg]. split; [|now left].
  apply list_elem_of_In, list_elem_of_fmap. exists (key, msg).
  split; [|exact Hin]. simpl. now rewrite Hunset.
Qed.

(** C2 (as amended). In production mode every required credential that is
    unset is recorded as an error by [validatePaymentEnvironment], which
    then reports the configuration as invalid, and the error is printed
    with [console.error] when the module is loaded; loading the module
    nevertheless completes without throwing. In development mode an unset
    credential is never an error (the only possible error is a malformed
    Supabase URL), only an unset AI Gateway key gives a warning, and
    loading the module validates and prints nothing. *)
Theorem missing_credentials_by_mode (env : gmap string string) :
  (env !! "NEXT_PUBLIC_APP_MODE" <> Some "development" ->
   forall key msg,
     (key, msg) ∈ required_in_production -> unset env key = true ->
     valid (validatePaymentEnvironment env) = false
     /\ msg ∈ errors (validatePaymentEnvironment env)
     /\ exists out,
          call (on_import env) tt = (tt, out, inr tt)
          /\ console_error ("  - " +:+ msg) ∈ out)
  /\ (env !! "NEXT_PUBLIC_APP_MODE" = Some "development" ->
      errors (validatePaymentEnvironment env) = bad_url env
      /\ warnings (validatePaymentEnvironment env)
         = cond_msg (unset env "AI_GATEWAY_API_KEY")
             "AI_GATEWAY_API_KEY missing - recommended for Vercel AI SDK integration"
      /\ call (on_import env) tt = (tt, [], inr tt)).
Proof.
  split.
  - intros Hprod key msg Hin Hunset.
    pose proof (required_error_recorded env key msg Hin Hunset) as Hrec.
    assert (Herr : msg ∈ errors (validatePaymentEnvironment env)).
    { rewrite (validate_production env Hprod). cbn [errors].
      apply elem_of_app. now left. }
    assert (Hval : valid (validatePaymentEnvironment env) = false).
    { rewrite (validate_production env Hprod) in Herr |- *.
      cbn [valid errors] in Herr |- *.
      destruct (production_errors env ++ bad_url env);
        [now apply elem_of_nil in Herr | reflexivity]. }
    split; [exact Hval|]. split; [exact Herr|].
    unfold on_import, call, when.
    rewrite (bool_decide_eq_false_2 _ Hprod), Hval. cbn [negb].
    rewrite forEach_console.
    eexists. split; [reflexivity|].
    apply list_elem_of_fmap. now exists msg.
  - intros Hdev. rewrite (validate_development env Hdev). cbn [errors warnings].
    split; [reflexivity|]. split; [reflexivity|].
    unfold on_import, call, when.
    now rewrite (bool_decide_eq_true_2 _ Hdev).
Qed.

Lemma missing_credentials_by_mode_witness :
  (valid (validatePaymentEnvironment Examples.bare_production) = false
   /\ "POLAR_ACCESS_TOKEN is required in production"
      ∈ errors (validatePaymentEnvironment Examples.bare_production)
   /\ exists out,
        call (on_import Examples.bare_production) tt = (tt, out, inr tt)
        /\ console_error ("  - " +:+ "POLAR_ACCESS_TOKEN is required in production")
           ∈ out)
  /\ (errors (validatePaymentEnvironment Examples.bare_development)
      = bad_url Examples.bare_development
      /\ warnings (validatePaymentEnvironment Examples.bare_development)
         = cond_msg (unset Examples.bare_development "AI_GATEWAY_API_KEY")
             "AI_GATEWAY_API_KEY missing - recommended for Vercel AI SDK integration"
      /\ call (on_import Examples.bare_development) tt = (tt, [], inr tt)).
Proof.
  split.
  - apply (proj1 (missing_credentials_by_mode Examples.bare_production))
      with (key := "POLAR_ACCESS_TOKEN").
    + discriminate.
    + repeat first [apply list_elem_of_here | apply list_elem_of_further].
    + reflexivity.
  - apply (proj2 (missing_credentials_by_mode Examples.bare_development)).
    reflexivity.
Defined.

(** C2, as worded, fails: in production mode with every required
    credential unset, loading the module completes without throwing, and so
    does the status report made when the page is rendered. *)
Lemma missing_credentials_do_not_stop_startup :
  Examples.bare_production !! "NEXT_PUBLIC_APP_MODE" <> Some "development"
  /\ Forall (fun kv => unset Examples.bare_production (fst kv) = true)
       required_in_production
  /\ ~ startup_hard_error Examples.bare_production
  /\ snd (call (logEnvironmentStatus Examples.bare_production) tt) = inr tt.
Proof.
  split; [discriminate|]. split; [repeat constructor|].
  split; [|vm_compute; reflexivity].
  intros (out & err & Hrun).
  assert (Hok : snd (call (on_import Examples.bare_production) tt) = inr tt)
    by (vm_compute; reflexivity).
  rewrite Hrun in Hok. discriminate Hok.
Qed.

End EnvFacts.

(* ===================================================================== *)
(** ** The chat endpoint *)
(* ===================================================================== *)

Module ChatFacts.
Import Flow FlowFacts ChatRoute ChatSpec.

Lemma select_model_emits cfg o user : emits selector_call (select_model cfg o user).
Proof. unfold select_model, probe_local. flow. Qed.

Lemma select_model_falls_through cfg o user : falls_through (select_model cfg o user).
Proof. unfold select_model, probe_local. flow. Qed.

Lemma select_model_reads_only cfg o user : reads_only (select_model cfg o user).
Proof. unfold select_model, probe_local. flow. Qed.

Lemma save_user_message_emits o user sessionId messages :
  emits save_call (save_user_message o user sessionId messages).
Proof.
  unfold save_user_message, parse_content, db_getChatMessages, saveChatMessages,
    db_updateChatSession.
  flow.
Qed.

Lemma save_user_message_falls_through o user sessionId messages :
  falls_through (save_user_message o user sessionId messages).
Proof.
  unfold save_user_message, parse_content, db_getChatMessages, saveChatMessages,
    db_updateChatSession.
  flow.
Qed.

Lemma error_response_well_formed o err : well_formed (error_response o err).
Proof.
  unfold error_response.
  destruct (_ || _); (split; [|apply list_elem_of_here]).
  - right. right. left. split; reflexivity.
  - right. right. right. split; reflexivity.
Qed.

Lemma access_gate_returns cfg o user : returns well_formed (access_gate cfg o user).
Proof.
  unfold access_gate. flow.
  apply returns_ret. split; [|apply list_elem_of_here].
  left. split; reflexivity.
Qed.

Lemma rate_limit_gate_returns cfg o user b :
  returns well_formed (rate_limit_gate cfg o user b).
Proof.
  unfold rate_limit_gate. flow;
    apply returns_ret; (split; [|apply list_elem_of_here]);
    right; left; split; reflexivity.
Qed.

Lemma increment_falls_through cfg o user b :
  falls_through (increment_rate_limit cfg o user b).
Proof. unfold increment_rate_limit. flow. Qed.

(** C6. Every run of the handler answers with a response, and every
    response that is not the stream is a JSON body whose [error] code and
    HTTP status are one of the pairs PAYMENT_REQUIRED/402,
    RATE_LIMIT_EXCEEDED/429, MODEL_COMPATIBILITY_ERROR/400, CHAT_ERROR/500,
    sent with the JSON content type. *)
Theorem POST_error_code_determines_status (cfg : config) (o : oracle) (s : store) :
  exists resp,
    snd (call (POST cfg o) s) = inr resp
    /\ match resp with
       | Json_response status body headers =>
           ((JS.field "error" body = Some (JS.JStr "PAYMENT_REQUIRED")
             /\ status = 402%Z)
            \/ (JS.field "error" body = Some (JS.JStr "RATE_LIMIT_EXCEEDED")
                /\ status = 429%Z)
            \/ (JS.field "error" body = Some (JS.JStr "MODEL_COMPATIBILITY_ERROR")
                /\ status = 400%Z)
            \/ (JS.field "error" body = Some (JS.JStr "CHAT_ERROR")
                /\ status = 500%Z))
           /\ ("Content-Type", "application/json") ∈ headers
       | Stream_response _ => True
       end.
Proof.
  apply (call_returns well_formed).
  - unfold POST. apply returns_try_catch.
    + repeat first
        [ apply access_gate_returns
        | apply rate_limit_gate_returns
        | apply returns_falls_through, select_model_falls_through
        | apply returns_falls_through, save_user_message_falls_through
        | apply returns_falls_through, increment_falls_through
        | apply returns_ret; exact I
        | flow_step ].
    + intros err. flow. apply returns_ret, error_response_well_formed.
  - unfold POST. flow.
  - unfold POST. flow.
Qed.

(** Each of the four error responses is the answer to some request. *)
Example payment_required_402 :
  snd (call (POST Examples.production
               (Examples.answers Examples.payment_missing Examples.within_limit
                  (Resolves tt) Db_ok Examples.opening None (Some Examples.alice)))
         ∅)
  = inr (Json_response 402
           (JS.JObj [("error", JS.JStr "PAYMENT_REQUIRED");
                     ("message", JS.JStr "Payment method setup required");
                     ("tier", JS.JStr "pay_per_use");
                     ("action", JS.JStr "setup_payment")])
           [("Content-Type", "application/json")]).
Proof. vm_compute. reflexivity. Qed.

Example rate_limit_exceeded_429 :
  snd (call (POST Examples.production
               (Examples.answers Examples.access_granted Examples.over_limit
                  (Resolves tt) Db_ok Examples.opening None (Some Examples.alice)))
         ∅)
  = inr (Json_response 429
           (JS.JObj [("error", JS.JStr "RATE_LIMIT_EXCEEDED");
                     ("message",
                      JS.JStr "Daily query limit reached. Upgrade to continue.");
                     ("resetTime", JS.JStr "2026-01-01T00:00:00.000Z");
                     ("tier", JS.JStr "free")])
           [("Content-Type", "application/json")]).
Proof. vm_compute. reflexivity. Qed.

Example model_compatibility_error_400 :
  snd (call (POST Examples.production
               (Examples.answers Examples.access_granted Examples.within_limit
                  (Rejects (JS.Error "This model does not support Tools"))
                  Db_ok Examples.opening None (Some Examples.alice)))
         ∅)
  = inr (Json_response 400
           (JS.JObj [("error", JS.JStr "MODEL_COMPATIBILITY_ERROR");
                     ("message", JS.JStr "This model does not support Tools");
                     ("compatibilityIssue", JS.JStr "tools")])
           [("Content-Type", "application/json")]).
Proof. vm_compute. reflexivity. Qed.

Example chat_error_500 :
  snd (call (POST Examples.production
               (Examples.answers Examples.access_granted Examples.within_limit
                  (Rejects (JS.Error "socket hang up"))
                  Db_ok Examples.opening None (Some Examples.alice)))
         ∅)
  = inr (Json_response 500
           (JS.JObj [("error", JS.JStr "CHAT_ERROR");
                     ("message", JS.JStr "socket hang up")])
           [("Content-Type", "application/json")]).
Proof. vm_compute. reflexivity. Qed.

(** When no local model server is reachable, the probe throws or comes back
    with an empty list of models. *)
Lemma probe_local_unreachable (cfg : config) (o : oracle) (s : store) :
  unreachable (localProvider o) (o_fetch o) ->
  (exists err,
     outcome (probe_local cfg o (localProvider o)) s = Throw err)
  \/ (exists name url,
        outcome (probe_local cfg o (localProvider o)) s
        = Normal ([], name, url)).
Proof.
  intros Hprobe.
  unfold probe_local, outcome, bind, await, log, pure, throw.
  destruct Hprobe as [err | r Hok | r err Hok Hjson | r body Hok Hjson Hnone].
  - left. destruct (String.eqb (localProvider o) "lmstudio"); eexists; reflexivity.
  - left. destruct (String.eqb (localProvider o) "lmstudio"); cbn;
      rewrite Hok; eexists; reflexivity.
  - left. destruct (String.eqb (localProvider o) "lmstudio"); cbn;
      rewrite Hok, Hjson; eexists; reflexivity.
  - destruct Hnone as [body Hdata | body ids Hdata Hnone | provider body Hne Hnone].
    + left. cbn. rewrite Hok, Hjson. cbn. rewrite Hdata. eexists; reflexivity.
    + right. cbn. rewrite Hok, Hjson. cbn. rewrite Hdata. cbn. rewrite Hnone.
      do 2 eexists; reflexivity.
    + right. apply String.eqb_neq in Hne. rewrite Hne. cbn. rewrite Hok, Hjson.
      cbn. rewrite Hnone. do 2 eexists; reflexivity.
Qed.

(** C7. In development mode with local models enabled, when no local model
    server is reachable (the probe fails or times out, is refused, is
    unreadable, or lists no model), the provider selector completes
    normally, without throwing and without touching the store, and selects
    the hosted path: the AI Gateway when its key is configured, else OpenAI
    directly when its key is configured, else the AI Gateway. *)
Theorem select_model_falls_back_to_hosted
    (cfg : config) (o : oracle) (user : option user) (s : store) :
  isDevelopment cfg = true ->
  o_headers o !! "x-ollama-enabled" <> Some "false" ->
  unreachable (localProvider o) (o_fetch o) ->
  exists modelInfo,
    outcome (select_model cfg o user) s
    = Normal (if JS.truthy (env cfg !! "AI_GATEWAY_API_KEY")
              then Gateway_model "openai/gpt-5"
              else if JS.truthy (env cfg !! "OPENAI_API_KEY")
                   then OpenAI_direct "gpt-5"
                   else Gateway_model "openai/gpt-5",
              modelInfo, false)
    /\ final (select_model cfg o user) s = s.
Proof.
  intros Hdev Hlocal Hprobe.
  split with (snd (development_fallback
                     (JS.truthy (env cfg !! "AI_GATEWAY_API_KEY"))
                     (JS.truthy (env cfg !! "OPENAI_API_KEY")))).
  split; [|apply select_model_reads_only].
  unfold select_model. rewrite Hdev, (bool_decide_eq_false_2 _ Hlocal).
  cbn [negb andb].
  rewrite outcome_try_catch, outcome_bind.
  destruct (probe_local_unreachable cfg o s Hprobe)
    as [[err ->] | (name & url & ->)]; cbn;
    unfold development_fallback;
    (destruct (JS.truthy (env cfg !! "AI_GATEWAY_API_KEY"));
     [|destruct (JS.truthy (env cfg !! "OPENAI_API_KEY"))]); reflexivity.
Qed.

Lemma select_model_falls_back_to_hosted_witness :
  let o := Examples.smooth Examples.opening None None in
  isDevelopment Examples.development = true
  /\ o_headers o !! "x-ollama-enabled" <> Some "false"
  /\ unreachable (localProvider o) (o_fetch o)
  /\ exists modelInfo,
       outcome (select_model Examples.development o None) ∅
       = Normal (OpenAI_direct "gpt-5", modelInfo, false)
       /\ final (select_model Examples.development o None) ∅ = ∅.
Proof.
  intros o.
  assert (Hlocal : o_headers o !! "x-ollama-enabled" <> Some "false")
    by discriminate.
  assert (Hprobe : unreachable (localProvider o) (o_fetch o))
    by apply probe_fails.
  split; [reflexivity|]. split; [exact Hlocal|]. split; [exact Hprobe|].
  exact (select_model_falls_back_to_hosted Examples.development o None ∅
           eq_refl Hlocal Hprobe).
Defined.

Lemma isUserInitiated_first_user_turn (messages : list message) :
  isUserInitiated messages = true <-> first_user_turn messages.
Proof.
  unfold isUserInitiated, first_user_turn, lastMessage, userMessageCount.
  rewrite andb_true_iff, bool_decide_eq_true, Nat.eqb_eq. reflexivity.
Qed.

Lemma selector_not_counted e : selector_call e -> is_rate_limit_call e = false.
Proof. now destruct e. Qed.

Lemma save_not_counted e : save_call e -> is_rate_limit_call e = false.
Proof. now destruct e. Qed.

(** The provider selector, as far as the rest of the handler can tell. *)
Lemma wp_select_model cfg o user (P : event -> bool) post s :
  (forall e, selector_call e -> P e = false) ->
  (forall t1 c1, List.filter P t1 = [] -> (forall r, c1 <> Return r) -> post s t1 c1) ->
  wp (select_model cfg o user) post s.
Proof.
  intros HP Hpost.
  apply (wp_use _ _ _ _
           (wp_judged selector_call _ s (select_model_emits cfg o user)
              (select_model_falls_through cfg o user)
              (select_model_reads_only cfg o user))).
  intros s1 t1 c1 (-> & Ht & Hc). apply Hpost; [|exact Hc].
  now apply (filter_emits P selector_call).
Qed.

Lemma wp_save_quiet o user sid msgs (P : event -> bool) post s :
  (forall e, save_call e -> P e = false) ->
  (forall s1 t1 c1, List.filter P t1 = [] -> (forall r, c1 <> Return r) -> post s1 t1 c1) ->
  wp (save_user_message o user sid msgs) post s.
Proof.
  intros HP Hpost. unfold wp. apply Hpost.
  - apply (filter_emits P save_call); [exact HP | apply save_user_message_emits].
  - apply save_user_message_falls_through.
Qed.

Ltac chat_step P HP1 HP2 :=
  lazymatch goal with
  | |- wp (select_model _ _ _) _ _ =>
      apply (wp_select_model _ _ _ P); [exact HP1|];
      let c := fresh "c" in let Hq := fresh "Hq" in let Hc := fresh "Hc" in
      intros ? c Hq Hc;
      destruct c as [? | r | ?]; [| now destruct (Hc r) |]
  | |- wp (save_user_message _ _ _ _) _ _ =>
      apply (wp_save_quiet _ _ _ _ P); [exact HP2|];
      let c := fresh "c" in let Hq := fresh "Hq" in let Hc := fresh "Hc" in
      intros ? ? c Hq Hc;
      destruct c as [? | r | ?]; [| now destruct (Hc r) |]
  | |- wp (access_gate _ _ _) _ _ => unfold access_gate
  | |- wp (rate_limit_gate _ _ _ _) _ _ => unfold rate_limit_gate
  | |- wp (increment_rate_limit _ _ _ _) _ _ => unfold increment_rate_limit
  | |- wp (if ?b then _ else _) _ _ => destruct b eqn:?
  | |- wp _ _ _ => wp_step
  end;
  cbv beta iota; simplify_eq; unify_answers.

Lemma error_response_not_stream o err hdrs :
  error_response o err <> Stream_response hdrs.
Proof. unfold error_response. now destruct (_ || _). Qed.

(** The calls to the rate limiter among a list of calls, segment by segment. *)
Ltac count_calls :=
  rewrite ?List.filter_app;
  repeat match goal with
         | H : List.filter _ _ = [] |- _ => rewrite H
         end;
  cbn [List.filter is_rate_limit_call is_check is_increment orb app].

(** C1 (as amended). In production mode the rate limiter is consulted, and
    the counter incremented, only for a request that opens a conversation:
    its last message is a user message and it is the only user message of
    the request. Any other request (a follow-up user message, a tool-call or
    assistant continuation) makes no call to the rate limiter. For a request
    that opens a conversation the calls to the rate limiter are: none (the
    request was turned down before the check), the check alone, or the check
    followed by one increment for an authenticated user whose check allowed
    the request; and whenever such a request is served with the stream the
    check was made exactly once and, for an authenticated user, the counter
    was incremented exactly once after it (never for an anonymous one). *)
Theorem rate_limit_counts_first_user_message
    (cfg : config) (o : oracle) (s : store)
    (messages : list message) (sessionId : option string) (user : option user) :
  isDevelopment cfg = false ->
  o_body o = Resolves (messages, sessionId) ->
  o_getUser o = Resolves user ->
  let counted := List.filter is_rate_limit_call (issued cfg o s) in
  (~ first_user_turn messages -> counted = [])
  /\ (first_user_turn messages ->
      (counted = []
       \/ counted = [check_of user]
       \/ exists u st,
            user = Some u /\ o_checkUser o = Resolves st /\ allowed st = true
            /\ counted = [CheckUserRateLimit (user_id u);
                          IncrementRateLimit (user_id u)])
      /\ forall hdrs,
           snd (call (POST cfg o) s) = inr (Stream_response hdrs) ->
           counted = check_of user
                     :: match user with
                        | Some u => [IncrementRateLimit (user_id u)]
                        | None => []
                        end).
Proof.
  intros Hprod Hbody Huser counted. subst counted.
  unfold issued. rewrite call_eq. cbn [fst snd].
  rewrite <- isUserInitiated_first_user_turn.
  destruct (isUserInitiated messages) eqn:HuI.
  - split; [intros Hn; now destruct Hn|]. intros _.
    change (wp (POST cfg o)
              (fun _ t c =>
                 (List.filter is_rate_limit_call t = []
                  \/ List.filter is_rate_limit_call t = [check_of user]
                  \/ exists u st,
                       user = Some u /\ o_checkUser o = Resolves st
                       /\ allowed st = true
                       /\ List.filter is_rate_limit_call t
                          = [CheckUserRateLimit (user_id u);
                             IncrementRateLimit (user_id u)])
                 /\ forall hdrs,
                      match c with
                      | Normal r => inr r
                      | Return r => inr r
                      | Throw err => inl err
                      end = inr (Stream_response hdrs) ->
                      List.filter is_rate_limit_call t
                      = check_of user
                        :: match user with
                           | Some u => [IncrementRateLimit (user_id u)]
                           | None => []
                           end) s).
    unfold POST.
    repeat (chat_step is_rate_limit_call selector_not_counted save_not_counted;
            rewrite ?HuI, ?Hprod in *; try discriminate).
    all: count_calls.
    all: split;
      [ try first [ left; reflexivity
              | right; left; reflexivity
              | right; right; do 2 eexists; repeat split; try eassumption;
                now apply negb_false_iff ]
      | intros hdrs Hserved; first [ reflexivity | exfalso; simplify_eq ];
        try (now apply error_response_not_stream in Hserved) ].
  - split; [intros _ | intros Ht; discriminate Ht].
    change (wp (POST cfg o)
              (fun _ t _ => List.filter is_rate_limit_call t = []) s).
    unfold POST.
    repeat (chat_step is_rate_limit_call selector_not_counted save_not_counted;
            rewrite ?HuI, ?Hprod in *; try discriminate).
    all: count_calls; reflexivity.
Qed.
Lemma rate_limit_counts_first_user_message_witness :
  let o := Examples.smooth Examples.opening (Some "session-1")
             (Some Examples.alice) in
  isDevelopment Examples.production = false
  /\ first_user_turn Examples.opening
  /\ List.filter is_rate_limit_call (issued Examples.production o ∅)
     = [CheckUserRateLimit "user-1"; IncrementRateLimit "user-1"].
Proof.
  intros o. split; [reflexivity|].
  assert (Hturn : first_user_turn Examples.opening) by (split; reflexivity).
  split; [exact Hturn|].
  destruct (rate_limit_counts_first_user_message Examples.production o ∅
              Examples.opening (Some "session-1") (Some Examples.alice)
              eq_refl eq_refl eq_refl) as [_ Hfirst].
  destruct (Hfirst Hturn) as [_ Hserved].
  eapply Hserved. vm_compute. reflexivity.
Defined.

(** C1, as worded, fails: the second user message of a conversation is the
    last message of its request and incites a turn, the turn is served, and
    the rate limiter is neither consulted nor incremented. *)
Lemma follow_up_turn_is_not_rate_limited :
  let o := Examples.smooth Examples.follow_up (Some "session-1")
             (Some Examples.alice) in
  isDevelopment Examples.production = false
  /\ user_turn Examples.follow_up
  /\ (exists hdrs,
        snd (call (POST Examples.production o) ∅) = inr (Stream_response hdrs))
  /\ List.filter is_rate_limit_call (issued Examples.production o ∅) = [].
Proof.
  intros o. split; [reflexivity|]. split; [reflexivity|].
  split; [eexists|]; vm_compute; reflexivity.
Qed.

Lemma selector_not_stream e : selector_call e -> is_streamText e = false.
Proof. now destruct e. Qed.

Lemma save_not_stream e : save_call e -> is_streamText e = false.
Proof. now destruct e. Qed.

Lemma parse_content_emits o msg : emits (fun _ => False) (parse_content o msg).
Proof. unfold parse_content. flow. Qed.

Lemma parse_content_reads_only o msg : reads_only (parse_content o msg).
Proof. unfold parse_content. flow. Qed.

Lemma parse_content_falls_through o msg : falls_through (parse_content o msg).
Proof. unfold parse_content. flow. Qed.

Lemma parse_content_parts o msg items s :
  sm_content msg = Content_parts items -> outcome (parse_content o msg) s = Normal msg.
Proof. destruct msg as [id r c]. cbn. intros ->. reflexivity. Qed.

(** Parsing the contents hands back each message with its content parsed. *)
Lemma mapM_parse_content o l : forall s l',
  outcome (mapM (parse_content o) l) s = Normal l' ->
  Forall2 (parsed_from o) l l'.
Proof.
  induction l as [|x l IH]; intros s l'; cbn [mapM].
  - intros Heq. injection Heq as <-. constructor.
  - rewrite !outcome_bind.
    destruct (outcome (parse_content o x) s) as [y| |] eqn:Hx; try discriminate.
    rewrite outcome_bind.
    destruct (outcome (mapM _ _) _) as [ys| |] eqn:Hrest; try discriminate.
    cbn. intros Heq. injection Heq as <-.
    constructor; [|now apply IH in Hrest].
    unfold parse_content in Hx. rewrite outcome_bind in Hx.
    unfold parsed_from.
    destruct (sm_content x) as [text|items].
    + destruct (o_json_parse o text) as [v|err]; cbn in Hx; [|discriminate Hx].
      injection Hx as <-. cbn. eauto.
    + cbn in Hx. injection Hx as <-. cbn. auto.
Qed.

(** A message that already holds parts is handed back as it is. *)
Lemma parsed_from_parts o msg new items :
  sm_content msg = Content_parts items -> parsed_from o msg new -> new = msg.
Proof.
  destruct msg as [id r c], new as [id' r' c']. cbn.
  intros -> (Hid & Hr & Hc). cbn in *. congruence.
Qed.

Lemma mapM_parse_content_append o msg items l s l' :
  sm_content msg = Content_parts items ->
  outcome (mapM (parse_content o) (l ++ [msg])) s = Normal l' ->
  exists history, l' = history ++ [msg] /\ Forall2 (parsed_from o) l history.
Proof.
  intros Hparts Hout. apply mapM_parse_content in Hout.
  apply Forall2_app_inv_l in Hout as (history & tl & Hhistory & Htl & ->).
  apply Forall2_cons_inv_l in Htl as (new & tl' & Hnew & Hnil & ->).
  apply Forall2_nil_inv_l in Hnil as ->.
  apply (parsed_from_parts o msg new items Hparts) in Hnew as ->.
  now exists history.
Qed.

Lemma Forall_False_nil {A} (t : list A) : Forall (fun _ => False) t -> t = [].
Proof. destruct t; [reflexivity|]. intros H. now apply Forall_cons in H as [[] _]. Qed.

(** The early save, for an authenticated user with a session and a request
    that ends in a user message: when it completes, it has read the session,
    saved it with the user message appended, and touched the session. *)
Lemma save_user_message_spec o u sessionId messages lastmsg s :
  JS.truthy sessionId = true ->
  last messages = Some lastmsg ->
  role lastmsg = "user" ->
  wp (save_user_message o (Some u) sessionId messages)
     (fun s1 t1 c1 =>
        let sid := default "" sessionId in
        let msg := userMessageToSave o lastmsg in
        List.filter is_streamText t1 = []
        /\ match c1 with
           | Normal _ =>
               exists history,
                 t1 = [Db_getChatMessages sid;
                       SaveChatMessages sid (history ++ [msg]);
                       Db_updateChatSession sid (user_id u)]
                 /\ Forall2 (parsed_from o) (read_back o s sid) history
                 /\ (o_saveChatMessages o = Db_ok ->
                     s1 !! sid = Some (history ++ [msg]))
           | Return _ => False
           | Throw _ => True
           end) s.
Proof.
  intros Hsid Hlast Hrole.
  assert (Hq : List.filter is_streamText
                 (trace (save_user_message o (Some u) sessionId messages) s) = []).
  { apply (filter_emits _ save_call); [apply save_not_stream|].
    apply save_user_message_emits. }
  unfold wp at 1. split; [exact Hq|]. clear Hq.
  change (wp (save_user_message o (Some u) sessionId messages)
            (fun s1 t1 c1 =>
               match c1 with
               | Normal _ =>
                   exists history,
                     t1 = [Db_getChatMessages (default "" sessionId);
                           SaveChatMessages (default "" sessionId)
                             (history ++ [userMessageToSave o lastmsg]);
                           Db_updateChatSession (default "" sessionId) (user_id u)]
                     /\ Forall2 (parsed_from o)
                          (read_back o s (default "" sessionId)) history
                     /\ (o_saveChatMessages o = Db_ok ->
                         s1 !! default "" sessionId
                         = Some (history ++ [userMessageToSave o lastmsg]))
               | Return _ => False
               | Throw _ => True
               end) s).
  unfold save_user_message, lastMessage.
  rewrite Hsid, Hlast, Hrole.
  assert (Hlen : (0 <? length messages)%nat = true).
  { destruct messages; [discriminate Hlast | reflexivity]. }
  rewrite Hlen, String.eqb_refl. cbn [andb]. cbv beta iota.
  unfold db_getChatMessages, saveChatMessages, db_updateChatSession.
  apply wp_bind.
  apply (wp_use _ (fun s1 t1 c1 =>
                     s1 = s /\ t1 = [Db_getChatMessages (default "" sessionId)]
                     /\ match c1 with
                        | Normal existing =>
                            default [] existing
                            = read_back o s (default "" sessionId)
                        | Return _ => False
                        | Throw _ => True
                        end)).
  { unfold wp, read_back, session_messages.
    destruct (o_getChatMessages o); repeat split. }
  intros s1 t1 [existing | r | err] (-> & -> & Hread);
    [| contradiction | exact I].
  apply wp_bind.
  apply (wp_use _ (fun s1 t1 c1 =>
                     s1 = s /\ t1 = []
                     /\ match c1 with
                        | Normal mapped =>
                            exists history,
                              mapped = history ++ [userMessageToSave o lastmsg]
                              /\ Forall2 (parsed_from o)
                                   (read_back o s (default "" sessionId)) history
                        | Return _ => False
                        | Throw _ => True
                        end)).
  { unfold wp. split; [apply reads_only_mapM, parse_content_reads_only|].
    split; [apply Forall_False_nil, emits_mapM, parse_content_emits|].
    destruct (outcome _ s) as [mapped | r | err] eqn:Hout; [| | exact I].
    - rewrite <- Hread.
      now apply (mapM_parse_content_append o _ (default [] (parts lastmsg)))
        in Hout.
    - now apply (falls_through_mapM _ _ (parse_content_falls_through o)) in Hout. }
  intros s1 t1 [mapped | r | err] (-> & -> & Hmapped); [| contradiction | exact I].
  destruct Hmapped as (history & -> & Hhistory).
  repeat (wp_step; simplify_eq); try exact I.
  all: exists history; split; [reflexivity|]; split; [exact Hhistory|].
  all: try (intros _; apply lookup_insert_eq).
  all: intros Hok; congruence.
Qed.

Lemma saved_before_stream_skip o sid msg s s' seg rest :
  List.filter is_streamText seg = [] ->
  saved_before_stream o sid msg s s' rest ->
  saved_before_stream o sid msg s s' (seg ++ rest).
Proof.
  intros Hseg (pre & history & post & -> & Hpre & Hhistory & Hstore).
  exists (seg ++ pre), history, post. rewrite <- app_assoc.
  split; [reflexivity|]. split; [|now split].
  now rewrite List.filter_app, Hseg, Hpre.
Qed.

Lemma saved_before_stream_here o sid msg s s' history uid rest :
  Forall2 (parsed_from o) (read_back o s sid) history ->
  (o_saveChatMessages o = Db_ok -> s' !! sid = Some (history ++ [msg])) ->
  saved_before_stream o sid msg s s'
    ([Db_getChatMessages sid; SaveChatMessages sid (history ++ [msg]);
      Db_updateChatSession sid uid] ++ rest).
Proof.
  intros Hhistory Hstore.
  exists [Db_getChatMessages sid], history, (Db_updateChatSession sid uid :: rest).
  split; [reflexivity|]. split; [reflexivity|]. split; [exact Hhistory|].
  intros Hok. unfold session_messages. now rewrite (Hstore Hok).
Qed.

Ltac count_streams :=
  rewrite ?List.filter_app;
  repeat match goal with
         | H : List.filter _ _ = [] |- _ => rewrite H
         end;
  cbn [List.filter is_streamText app].

Ltac save_step Hsid Hlast Hrole :=
  lazymatch goal with
  | |- wp (select_model _ _ _) _ _ =>
      apply (wp_select_model _ _ _ is_streamText); [exact selector_not_stream|];
      let c := fresh "c" in let Hq := fresh "Hq" in let Hc := fresh "Hc" in
      intros ? c Hq Hc;
      destruct c as [? | r | ?]; [| now destruct (Hc r) |]
  | |- wp (save_user_message _ _ _ _) _ _ =>
      apply (wp_use _ _ _ _ (save_user_message_spec _ _ _ _ _ _ Hsid Hlast Hrole));
      let c := fresh "c" in let Hq := fresh "Hq" in let Hc := fresh "Hc" in
      intros ? ? c [Hq Hc];
      destruct c as [? | r | ?];
      [destruct Hc as (? & -> & ? & ?) | contradiction |]
  | |- wp (access_gate _ _ _) _ _ => unfold access_gate
  | |- wp (rate_limit_gate _ _ _ _) _ _ => unfold rate_limit_gate
  | |- wp (increment_rate_limit _ _ _ _) _ _ => unfold increment_rate_limit
  | |- wp (if ?b then _ else _) _ _ => destruct b eqn:?
  | |- wp _ _ _ => wp_step
  end;
  cbv beta iota; simplify_eq; unify_answers.

(** For a turn of an authenticated user that carries a session id and ends
    in a user message, generation is started only after the session was
    saved with the user message appended. *)
Lemma early_save_precedes_generation
    (cfg : config) (o : oracle) (s : store) (messages : list message)
    (sessionId : option string) (u : user) (lastmsg : message) :
  o_body o = Resolves (messages, sessionId) ->
  o_getUser o = Resolves (Some u) ->
  JS.truthy sessionId = true ->
  last messages = Some lastmsg ->
  role lastmsg = "user" ->
  List.filter is_streamText (issued cfg o s) <> [] ->
  saved_before_stream o (default "" sessionId) (userMessageToSave o lastmsg)
    s (fst (fst (call (POST cfg o) s))) (issued cfg o s).
Proof.
  intros Hbody Huser Hsid Hlast Hrole.
  unfold issued. rewrite call_eq. cbn [fst snd].
  change (wp (POST cfg o)
            (fun s' t _ =>
               List.filter is_streamText t <> [] ->
               saved_before_stream o (default "" sessionId)
                 (userMessageToSave o lastmsg) s s' t) s).
  unfold POST.
  repeat save_step Hsid Hlast Hrole.
  all: intros Hgen.
  all: first
         [ exfalso; apply Hgen; count_streams; reflexivity
         | rewrite ?app_nil_r, <- ?app_assoc; repeat first
             [ apply saved_before_stream_here; assumption
             | apply saved_before_stream_skip; [count_streams; reflexivity|] ] ].
Qed.

Lemma selector_not_save e : selector_call e -> is_save e = false.
Proof. now destruct e. Qed.

(** Without a user, without a session id, or for a request that does not
    end in a user message, the early save does nothing. *)
Lemma save_user_message_skipped o user sessionId messages :
  user = None \/ JS.truthy sessionId = false \/ ~ user_turn messages ->
  save_user_message o user sessionId messages = pure tt.
Proof.
  unfold save_user_message, lastMessage, user_turn.
  intros [-> | [Hsid | Hturn]]; [reflexivity | |];
    destruct user as [u|]; try reflexivity.
  - now rewrite Hsid.
  - destruct (JS.truthy sessionId && _); [|reflexivity].
    destruct (last messages) as [lastmsg|]; [|reflexivity].
    destruct (String.eqb (role lastmsg) "user") eqn:Hrole; [|reflexivity].
    apply String.eqb_eq in Hrole. destruct Hturn. cbn. now rewrite Hrole.
Qed.

Ltac skip_step Hskip :=
  lazymatch goal with
  | |- wp (select_model _ _ _) _ _ =>
      apply (wp_select_model _ _ _ is_save); [exact selector_not_save|];
      let c := fresh "c" in let Hq := fresh "Hq" in let Hc := fresh "Hc" in
      intros ? c Hq Hc;
      destruct c as [? | r | ?]; [| now destruct (Hc r) |]
  | |- wp (save_user_message _ _ _ _) _ _ =>
      rewrite save_user_message_skipped by exact Hskip
  | |- wp (access_gate _ _ _) _ _ => unfold access_gate
  | |- wp (rate_limit_gate _ _ _ _) _ _ => unfold rate_limit_gate
  | |- wp (increment_rate_limit _ _ _ _) _ _ => unfold increment_rate_limit
  | |- wp (if ?b then _ else _) _ _ => destruct b eqn:?
  | |- wp _ _ _ => wp_step
  end;
  cbv beta iota; simplify_eq; unify_answers.

Ltac count_saves :=
  rewrite ?List.filter_app;
  repeat match goal with
         | H : List.filter _ _ = [] |- _ => rewrite H
         end;
  cbn [List.filter is_save app].

(** A turn of an anonymous user, a turn without a session id, and a request
    that does not end in a user message are not saved by the handler. *)
Lemma no_early_save_without_user_or_session
    (cfg : config) (o : oracle) (s : store) (messages : list message)
    (sessionId : option string) (user : option user) :
  o_body o = Resolves (messages, sessionId) ->
  o_getUser o = Resolves user ->
  user = None \/ JS.truthy sessionId = false \/ ~ user_turn messages ->
  List.filter is_save (issued cfg o s) = []
  /\ fst (fst (call (POST cfg o) s)) = s.
Proof.
  intros Hbody Huser Hskip.
  unfold issued. rewrite call_eq. cbn [fst snd].
  change (wp (POST cfg o)
            (fun s' t _ => List.filter is_save t = [] /\ s' = s) s).
  unfold POST.
  repeat skip_step Hskip.
  all: split; [count_saves; reflexivity | reflexivity].
Qed.

(** C3 (as amended). For a turn of an authenticated user that carries a
    session id and ends in a user message: whenever generation is started
    ([streamText] is called), the handler has before that saved the session
    as the messages it found there (their contents parsed, none when the
    read reported an error) followed by the user's message (a fresh id,
    role user, the parts of the last message); and when that save reported
    no failure the session read back after the handler holds exactly what
    was saved, whatever happens to the generation afterwards. A turn of an
    anonymous user, a turn without a session id and a request that does not
    end in a user message are not saved at all: the handler makes no save
    and leaves the store as it was. *)
Theorem user_message_saved_before_generation
    (cfg : config) (o : oracle) (s : store) (messages : list message)
    (sessionId : option string) (user : option user) :
  o_body o = Resolves (messages, sessionId) ->
  o_getUser o = Resolves user ->
  (forall u lastmsg,
     user = Some u ->
     JS.truthy sessionId = true ->
     last messages = Some lastmsg ->
     role lastmsg = "user" ->
     List.filter is_streamText (issued cfg o s) <> [] ->
     exists pre history post,
       issued cfg o s
       = pre ++ SaveChatMessages (default "" sessionId)
                  (history ++ [userMessageToSave o lastmsg]) :: post
       /\ List.filter is_streamText pre = []
       /\ Forall2 (parsed_from o) (read_back o s (default "" sessionId)) history
       /\ (o_saveChatMessages o = Db_ok ->
           session_messages (fst (fst (call (POST cfg o) s)))
             (default "" sessionId)
           = history ++ [userMessageToSave o lastmsg]))
  /\ (user = None \/ JS.truthy sessionId = false \/ ~ user_turn messages ->
      List.filter is_save (issued cfg o s) = []
      /\ fst (fst (call (POST cfg o) s)) = s).
Proof.
  intros Hbody Huser. split.
  - intros u lastmsg -> Hsid Hlast Hrole Hgen.
    exact (early_save_precedes_generation cfg o s messages sessionId u lastmsg
             Hbody Huser Hsid Hlast Hrole Hgen).
  - intros Hskip.
    exact (no_early_save_without_user_or_session cfg o s messages sessionId
             user Hbody Huser Hskip).
Qed.

Lemma user_message_saved_before_generation_witness :
  let o := Examples.smooth Examples.follow_up (Some "session-1")
             (Some Examples.alice) in
  let s : store := {[ "session-1" := Examples.stored_opening ]} in
  let sent := Examples.user_message "Who are the top assignees?" in
  List.filter is_streamText (issued Examples.production o s) <> []
  /\ exists pre history post,
       issued Examples.production o s
       = pre ++ SaveChatMessages "session-1"
                  (history ++ [userMessageToSave o sent]) :: post
       /\ List.filter is_streamText pre = []
       /\ Forall2 (parsed_from o) (read_back o s "session-1") history
       /\ (o_saveChatMessages o = Db_ok ->
           session_messages (fst (fst (call (POST Examples.production o) s)))
             "session-1"
           = history ++ [userMessageToSave o sent]).
Proof.
  intros o s sent.
  assert (Hgen : List.filter is_streamText (issued Examples.production o s) <> [])
    by (vm_compute; discriminate).
  split; [exact Hgen|].
  exact (proj1 (user_message_saved_before_generation Examples.production o s
                  Examples.follow_up (Some "session-1") (Some Examples.alice)
                  eq_refl eq_refl)
           Examples.alice sent eq_refl eq_refl eq_refl eq_refl Hgen).
Defined.

(** C3, as worded, fails on two kinds of turn: for an anonymous user the
    handler starts generation without saving anything, and for an
    authenticated user whose early save reports a failure it starts
    generation all the same; in both the session holds no message. *)
Lemma user_message_not_always_persisted :
  let anonymous := Examples.smooth Examples.opening (Some "session-1") None in
  let failing := Examples.save_fails Examples.opening (Some "session-1")
                   (Some Examples.alice) in
  (user_turn Examples.opening
   /\ List.filter is_streamText (issued Examples.production anonymous ∅) <> []
   /\ List.filter is_save (issued Examples.production anonymous ∅) = []
   /\ session_messages (fst (fst (call (POST Examples.production anonymous) ∅)))
        "session-1" = [])
  /\ (List.filter is_streamText (issued Examples.production failing ∅) <> []
      /\ session_messages (fst (fst (call (POST Examples.production failing) ∅)))
           "session-1" = []).
Proof.
  intros anonymous failing. repeat split; vm_compute; congruence.
Qed.

(** The early save outlives a generation that fails at once: the handler
    answers with an error, and the session holds the messages it held
    before followed by the user's message. *)
Example user_message_outlives_failed_generation :
  let o := Examples.answers Examples.access_granted Examples.within_limit
             (Rejects (JS.Error "socket hang up")) Db_ok Examples.follow_up
             (Some "session-1") (Some Examples.alice) in
  let s : store := {[ "session-1" := Examples.stored_opening ]} in
  let run := call (POST Examples.production o) s in
  (exists body headers, snd run = inr (Json_response 500 body headers))
  /\ session_messages (fst (fst run)) "session-1"
     = Examples.stored_opening
       ++ [userMessageToSave o (Examples.user_message "Who are the top assignees?")].
Proof.
  intros o s run. split; [do 2 eexists|]; vm_compute; reflexivity.
Qed.

End ChatFacts.

(* ===================================================================== *)
(** ** The tool set: failures of the services behind a tool *)
(* ===================================================================== *)

Module FlowPrefix.
Import Flow FlowFacts.

Section Prefix.
Context {S E : Type}.

(** The calls of a sequence begin with the calls of its first part, and
    the calls of a guarded block with the calls of the block. *)
Lemma trace_bind_prefix {R A B} (m : @M S E R A) (k : A -> @M S E R B) (s : S) :
  exists rest, trace (bind m k) s = trace m s ++ rest.
Proof.
  rewrite trace_bind. destruct (outcome m s); eexists;
    first [reflexivity | symmetry; apply app_nil_r].
Qed.

Lemma trace_try_catch_prefix {R A} (m : @M S E R A) h (s : S) :
  exists rest, trace (try_catch m h) s = trace m s ++ rest.
Proof.
  rewrite trace_try_catch. destruct (outcome m s); eexists;
    first [reflexivity | symmetry; apply app_nil_r].
Qed.

End Prefix.

End FlowPrefix.

Module ToolsRobustness.
Import Flow FlowFacts FlowPrefix Tools ToolsSpec.

Lemma well_shaped_no_invalid (headers : list string) (rows : list (list string)) :
  well_shaped headers rows ->
  (0 <? length (filter (fun row => length row <> length headers) rows))%nat = false.
Proof.
  intros Hrows.
  replace (filter _ rows) with (@nil (list string)); [reflexivity|].
  symmetry. induction Hrows as [|row rows Hrow _ IH]; [reflexivity|].
  rewrite filter_cons_False; [exact IH|]. intros Hne. now apply Hne.
Qed.



Lemma no_invalid_well_shaped (headers : list string) (rows : list (list string)) :
  (0 <? length (filter (fun row => length row <> length headers) rows))%nat = false ->
  well_shaped headers rows.
Proof.
  intros Hnone. apply Forall_forall. intros row Hin.
  destruct (decide (length row = length headers)) as [Heq|Hne]; [exact Heq|].
  assert (Hf : row ∈ filter (fun row => length row <> length headers) rows)
    by (apply list_elem_of_filter; auto).
  destruct (filter _ rows); [now apply elem_of_nil in Hf | discriminate Hnone].
Qed.

(** X2. When telemetry rejects after the table was saved, [createCSV] hands
    back no table. Its last [catch] reads the message of what it caught:
    the call answers with a creation error that carries that message and no
    identifier, or, when the message cannot be read, throws what the read
    throws; on [undefined] and [null] that is a [TypeError]. Either way the
    table stays persisted under the generated identifier. *)
Theorem createCSV_telemetry_failure_keeps_csv
    (o : csv_oracle) (title : string) (description : option string)
    (headers : list string) (rows : list (list string)) (options : context)
    (csvs : store) (err : JS.exn) :
  well_shaped headers rows ->
  csv_db o = Db_ok ->
  csvs !! csv_uuid o = None ->
  csv_track o = Rejects err ->
  exists row evs,
    call (createCSV o title description headers rows options) csvs
    = (<[csv_uuid o := row]> csvs, evs,
       match JS.message err with
       | inr message =>
           inr (Csv_creation_error
                  ("❌ **CSV Creation Error**: "
                   +:+ JS.or_else message "Unknown error occurred")
                  title)
       | inl type_error => inl type_error
       end)
    /\ (nullish err ->
        exists thrown,
          snd (call (createCSV o title description headers rows options) csvs)
          = inl thrown)
    /\ db_getCSV (<[csv_uuid o := row]> csvs) (csv_uuid o) = Some row
    /\ csv_headers row = headers /\ csv_rows row = rows.
Proof.
  intros Hrows Hdb Hfresh Htrack.
  unfold createCSV, call, try_catch, db_createCSV. cbv zeta.
  rewrite (well_shaped_no_invalid headers rows Hrows), Hdb, Htrack.
  unfold bind, await, log, get, modify, ret, pure, throw, eval. cbn.
  rewrite Hfresh. cbn.
  do 2 eexists. split; [|split].
  - destruct (JS.message err); reflexivity.
  - intros [-> | ->]; eexists; reflexivity.
  - split; [apply lookup_insert_eq|]. split; reflexivity.
Qed.

Lemma createCSV_telemetry_failure_keeps_csv_witness :
  let id := csv_uuid ToolExamples.csv_track_down in
  let run := call (createCSV ToolExamples.csv_track_down "t" None ["A"; "B"]
                     [["1"; "2"]] Examples.no_context) ∅ in
  exists row evs,
    run
    = (<[id := row]> ∅, evs,
       match JS.message (JS.Error "analytics unavailable") with
       | inr message =>
           inr (Csv_creation_error
                  ("❌ **CSV Creation Error**: "
                   +:+ JS.or_else message "Unknown error occurred")
                  "t")
       | inl type_error => inl type_error
       end)
    /\ (nullish (JS.Error "analytics unavailable") ->
        exists thrown, snd run = inl thrown)
    /\ db_getCSV (<[id := row]> ∅) id = Some row
    /\ csv_headers row = ["A"; "B"] /\ csv_rows row = [["1"; "2"]].
Proof.
  intros id run.
  apply (createCSV_telemetry_failure_keeps_csv ToolExamples.csv_track_down "t"
           None ["A"; "B"] [["1"; "2"]] Examples.no_context ∅
           (JS.Error "analytics unavailable")).
  - repeat constructor.
  - reflexivity.
  - apply lookup_empty.
  - reflexivity.
Defined.

(** A telemetry rejection with [undefined] makes [createCSV] throw. *)
Example createCSV_throws_on_undefined_rejection :
  snd (call (createCSV ToolExamples.csv_track_undefined "t" None ["A"; "B"]
               [["1"; "2"]] Examples.no_context) ∅)
  = inl (JS.Error "Cannot read properties of undefined (reading 'message')").
Proof. vm_compute. reflexivity. Qed.

(** [createCSV] throws only when telemetry rejects with a value whose
    message cannot be read, such as [undefined] or [null]: otherwise,
    whatever the persistence layer and telemetry do, the call answers with
    one of its three result objects. *)
Theorem createCSV_throws_only_on_unreadable_rejection
    (o : csv_oracle) (title : string) (description : option string)
    (headers : list string) (rows : list (list string)) (options : context)
    (csvs : store) :
  (exists r,
     snd (call (createCSV o title description headers rows options) csvs) = inr r)
  \/ (exists e thrown,
        csv_track o = Rejects e /\ JS.message e = inl thrown
        /\ snd (call (createCSV o title description headers rows options) csvs)
           = inl thrown).
Proof.
  unfold createCSV, call, try_catch, db_createCSV. cbv zeta.
  destruct (0 <? _)%nat; [left; eexists; reflexivity|].
  unfold bind, await, log, get, modify, ret, pure, throw, eval.
  destruct (csv_db o); cbn; [destruct (csvs !! csv_uuid o); cbn|..];
    (destruct (csv_track o) as [[]|err] eqn:Htrack; cbn;
     [left; eexists; reflexivity|]);
    destruct (JS.message err) as [thrown|message] eqn:Hmessage; cbn;
    first [ left; eexists; reflexivity
          | right; exists err, thrown; auto ].
Qed.

(** X3. A created CSV names its artifact consistently: when the result carries
    an identifier, it is the generated one, the URL is [/api/csvs/<id>], the
    embedding instructions are present, and a row with that identifier was
    handed to the persistence layer; when it carries none, it carries no URL
    and no instructions either. *)
Theorem createCSV_identifier_consistent
    (o : csv_oracle) (title : string) (description : option string)
    (headers : list string) (rows : list (list string)) (options : context)
    (csvs csvs' : store) (evs : list event) (r : csv_created) :
  call (createCSV o title description headers rows options) csvs
  = (csvs', evs, inr (Csv_created r)) ->
  match cc_csvId r with
  | Some id =>
      id = csv_uuid o
      /\ cc_csvUrl r = Some ("/api/csvs/" +:+ id)
      /\ is_Some (cc_instructions r)
      /\ exists row, Db_createCSV row ∈ evs /\ csv_id row = id
  | None => cc_csvUrl r = None /\ cc_instructions r = None
  end.
Proof.
  rewrite call_eq. intros Hcall. injection Hcall as _ Hevs Hout.
  revert Hevs Hout.
  change (wp (createCSV o title description headers rows options)
            (fun _ t c =>
               t = evs ->
               match c with
               | Normal r => inr r
               | Return r => inr r
               | Throw err => inl err
               end = inr (Csv_created r) ->
               match cc_csvId r with
               | Some id =>
                   id = csv_uuid o
                   /\ cc_csvUrl r = Some ("/api/csvs/" +:+ id)
                   /\ is_Some (cc_instructions r)
                   /\ exists row, Db_createCSV row ∈ evs /\ csv_id row = id
               | None => cc_csvUrl r = None /\ cc_instructions r = None
               end) csvs).
  unfold createCSV, db_createCSV.
  repeat (wp_step; simplify_eq; unify_answers).
  all: intros <- Hout; try discriminate Hout.
  all: injection Hout as <-; cbn [cc_csvId cc_csvUrl cc_instructions].
  all: unfold JS.or_none; cbn [default JS.truthy].
  all: try destruct (String.eqb (csv_uuid o) "") eqn:Hid; cbn [negb].
  all: try (split; reflexivity).
  all: split; [reflexivity|]; split; [reflexivity|]; split; [eexists; reflexivity|].
  all: eexists; split; [apply list_elem_of_here | reflexivity].
Qed.

Lemma createCSV_identifier_consistent_witness :
  let run := call (createCSV Examples.csv_ok "t" None ["A"; "B"] [["1"; "2"]]
                     Examples.no_context) ∅ in
  let id := csv_uuid Examples.csv_ok in
  exists r,
    snd run = inr (Csv_created r)
    /\ cc_csvId r = Some id
    /\ cc_csvUrl r = Some ("/api/csvs/" +:+ id)
    /\ is_Some (cc_instructions r)
    /\ exists row, Db_createCSV row ∈ snd (fst run) /\ csv_id row = id.
Proof.
  intros run id. subst run.
  assert (Hres : exists r,
             snd (call (createCSV Examples.csv_ok "t" None ["A"; "B"]
                          [["1"; "2"]] Examples.no_context) ∅)
             = inr (Csv_created r)
             /\ cc_csvId r = Some id)
    by (eexists; split; vm_compute; reflexivity).
  destruct Hres as (r & Hres & Hid).
  destruct (call _ _) as [[csvs' evs] res] eqn:Hrun.
  cbn [snd fst] in Hres |- *. subst res.
  exists r. split; [reflexivity|]. split; [exact Hid|].
  pose proof (createCSV_identifier_consistent Examples.csv_ok "t" None
                ["A"; "B"] [["1"; "2"]] Examples.no_context ∅ csvs' evs r Hrun)
    as Hconsistent.
  rewrite Hid in Hconsistent.
  destruct Hconsistent as (_ & Hurl & Hinstr & Hrow).
  repeat split; assumption.
Defined.

(** X4. Only rectangular tables leave [createCSV]: in a created CSV every row
    has exactly [columnCount] cells, [columnCount] is the number of headers
    and [rowCount] the number of rows; and every row handed to the
    persistence layer is rectangular too. *)
Theorem createCSV_created_is_rectangular
    (o : csv_oracle) (title : string) (description : option string)
    (headers : list string) (rows : list (list string)) (options : context)
    (csvs : store) :
  let run := call (createCSV o title description headers rows options) csvs in
  (forall r,
     snd run = inr (Csv_created r) ->
     Forall (fun row => length row = cc_columnCount r) (cc_rows r)
     /\ cc_columnCount r = length (cc_headers r)
     /\ cc_rowCount r = length (cc_rows r))
  /\ (forall row,
        Db_createCSV row ∈ snd (fst run) ->
        Forall (fun cells => length cells = length (csv_headers row)) (csv_rows row)).
Proof.
  intros run. subst run. rewrite call_eq. cbn [fst snd].
  change (wp (createCSV o title description headers rows options)
            (fun _ t c =>
               (forall r,
                  match c with
                  | Normal r => inr r
                  | Return r => inr r
                  | Throw err => inl err
                  end = inr (Csv_created r) ->
                  Forall (fun row => length row = cc_columnCount r) (cc_rows r)
                  /\ cc_columnCount r = length (cc_headers r)
                  /\ cc_rowCount r = length (cc_rows r))
               /\ (forall row,
                     Db_createCSV row ∈ t ->
                     Forall (fun cells => length cells = length (csv_headers row))
                       (csv_rows row))) csvs).
  unfold createCSV, db_createCSV.
  repeat (wp_step; simplify_eq; unify_answers).
  all: split;
    [ intros r Hout;
      first [ discriminate Hout
            | injection Hout as <-;
              cbn [cc_rows cc_columnCount cc_headers cc_rowCount];
              split; [now apply no_invalid_well_shaped | split; reflexivity] ]
    | intros row Hin; rewrite ?app_nil_r in Hin;
      repeat (apply elem_of_app in Hin as [Hin|Hin]);
      repeat (apply elem_of_cons in Hin as [Hin|Hin]);
      try (now apply elem_of_nil in Hin); try discriminate Hin;
      injection Hin as ->; now apply no_invalid_well_shaped ].
Qed.

(** X5. The header line is not escaped: a header that contains a comma yields
    the same content as the two headers obtained by splitting it at that
    comma. *)
Theorem csvContent_header_not_escaped
    (h1 h2 : string) (headers : list string) (rows : list (list string)) :
  csvContent ((h1 +:+ "," +:+ h2) :: headers) rows
  = csvContent (h1 :: h2 :: headers) rows.
Proof.
  unfold csvContent. f_equal. f_equal.
  destruct headers as [|h headers]; [reflexivity|].
  cbn [JS.join]. change (JS.str JS.comma) with ",".
  now rewrite !CsvFacts.append_assoc.
Qed.

(** *** codeExecution *)

(** X6. The guards of [codeExecution] answer before anything is contacted: a
    source text of more than 10,000 characters, as [code.length] counts them
    (UTF-16 code units), and otherwise a missing Daytona key, give a fixed
    message with no call made and the store untouched; a text of at most
    10,000 characters with the key configured passes both guards and the
    sandbox service is contacted with that key. *)
Theorem codeExecution_guards_make_no_call
    (env : gmap string string) (o : exec_oracle) (code : string)
    (description : option string) (options : context) (csvs : store) :
  let run := call (codeExecution env o code description options) csvs in
  ((10000 < Z.of_nat (JS.length code))%Z ->
   run = (csvs, [],
          inr "🚫 **Error**: Code too long. Please limit your code to 10,000 characters."))
  /\ ((Z.of_nat (JS.length code) <= 10000)%Z ->
      JS.truthy (env !! "DAYTONA_API_KEY") = false ->
      run = (csvs, [],
             inr "❌ **Configuration Error**: Daytona API key is not configured."))
  /\ ((Z.of_nat (JS.length code) <= 10000)%Z ->
      forall key,
        env !! "DAYTONA_API_KEY" = Some key -> key <> "" ->
        exists rest, snd (fst run) = Daytona_new key :: rest).
Proof.
  intros run. subst run. split; [|split].
  - intros Hlong. apply Z.ltb_lt in Hlong.
    unfold codeExecution, call, try_catch. cbv zeta. now rewrite Hlong.
  - intros Hshort Hkey. apply Z.ltb_ge in Hshort.
    unfold codeExecution, call, try_catch. cbv zeta. now rewrite Hshort, Hkey.
  - intros Hshort key Hkey Hne. apply Z.ltb_ge in Hshort.
    rewrite call_eq. cbn [fst snd].
    unfold codeExecution. cbv zeta. rewrite Hshort, Hkey.
    cbn [JS.truthy]. apply String.eqb_neq in Hne. rewrite Hne. cbn [negb default].
    match goal with
    | |- context [trace (try_catch ?m ?h) csvs] =>
        destruct (trace_try_catch_prefix m h csvs) as [rest1 ->];
        match m with
        | bind ?m1 ?k =>
            destruct (trace_bind_prefix m1 k csvs) as [rest2 ->]
        end
    end.
    rewrite trace_await. eexists. reflexivity.
Qed.

Lemma codeExecution_guards_make_no_call_witness :
  let long := call (codeExecution Examples.tool_env Examples.run_throws
                      oversized_code None Examples.no_context) ∅ in
  let unconfigured := call (codeExecution ∅ Examples.run_throws
                              "print(1)" None Examples.no_context) ∅ in
  let run := call (codeExecution Examples.tool_env Examples.run_throws
                     "print(1)" None Examples.no_context) ∅ in
  long = (∅, [],
          inr "🚫 **Error**: Code too long. Please limit your code to 10,000 characters.")
  /\ unconfigured
     = (∅, [],
        inr "❌ **Configuration Error**: Daytona API key is not configured.")
  /\ exists rest, snd (fst run) = Daytona_new "daytona-key" :: rest.
Proof.
  intros long unconfigured run. subst long unconfigured run.
  split; [|split].
  - apply (proj1 (codeExecution_guards_make_no_call Examples.tool_env
                    Examples.run_throws oversized_code None
                    Examples.no_context ∅)).
    vm_compute. reflexivity.
  - apply (proj1 (proj2 (codeExecution_guards_make_no_call ∅
                           Examples.run_throws "print(1)" None
                           Examples.no_context ∅))).
    + vm_compute. discriminate.
    + reflexivity.
  - apply (proj2 (proj2 (codeExecution_guards_make_no_call Examples.tool_env
                           Examples.run_throws "print(1)" None
                           Examples.no_context ∅))).
    + vm_compute. discriminate.
    + reflexivity.
    + discriminate.
Defined.

Lemma codeExecution_answers
    (env : gmap string string) (o : exec_oracle) (code : string)
    (description : option string) (options : context) (csvs : store) :
  exists evs,
    call (codeExecution env o code description options) csvs
    = (csvs, evs, codeExecution_answer env o code description).
Proof.
  rewrite call_eq.
  change (wp (codeExecution env o code description options)
            (fun s t c =>
               exists evs,
                 (s, t, match c with
                        | Normal r => inr r
                        | Return r => inr r
                        | Throw err => inl err
                        end)
                 = (csvs, evs, codeExecution_answer env o code description))
            csvs).
  unfold codeExecution, codeExecution_answer, run_text, failure_answer.
  repeat (wp_step; simplify_eq; unify_answers).
  all: repeat match goal with
              | H : _ = Resolves _ |- _ => rewrite H
              | H : _ = Rejects _ |- _ => rewrite H
              | H : _ = inl _ |- _ => rewrite H
              | H : _ = inr _ |- _ => rewrite H
              | H : _ = true |- _ => rewrite H
              | H : _ = false |- _ => rewrite H
              end.
  all: eexists; reflexivity.
Qed.

Lemma failure_answer_throws (e thrown : JS.exn) :
  failure_answer e = inl thrown -> JS.message e = inl thrown.
Proof.
  unfold failure_answer. destruct (JS.message e); congruence.
Qed.

(** X7. [codeExecution] never touches the store, and it answers with a text
    unless the sandbox service or telemetry rejects with a value whose
    message cannot be read: its last [catch] reads the message of what it
    caught, so on [undefined] and on [null] the call throws a [TypeError],
    and on a value whose message throws when read it throws that. Nothing
    else makes it throw; a failure of the usage tracking or of the deletion
    of the sandbox is logged and swallowed. *)
Theorem codeExecution_throws_only_on_unreadable_rejection
    (env : gmap string string) (o : exec_oracle) (code : string)
    (description : option string) (options : context) (csvs : store) :
  let run := call (codeExecution env o code description options) csvs in
  fst (fst run) = csvs
  /\ ((exists text, snd run = inr text)
      \/ (exists e thrown,
            first_rejection o = Some e /\ JS.message e = inl thrown
            /\ snd run = inl thrown))
  /\ ((Z.of_nat (JS.length code) <= 10000)%Z ->
      JS.truthy (env !! "DAYTONA_API_KEY") = true ->
      forall e, first_rejection o = Some e -> nullish e ->
      exists thrown, snd run = inl thrown).
Proof.
  intros run. subst run.
  destruct (codeExecution_answers env o code description options csvs)
    as [evs ->]. cbn [fst snd].
  split; [reflexivity|].
  unfold codeExecution_answer, first_rejection. split.
  - destruct (10000 <? _)%Z; [left; eexists; reflexivity|].
    destruct (negb _); [left; eexists; reflexivity|].
    destruct (ex_daytona_new o) as [?|e];
      [destruct (ex_create o) as [?|e];
       [destruct (ex_codeRun o) as [?|e];
        [destruct (ex_track o) as [?|e]; [left; eexists; reflexivity|]|]|]|].
    all: destruct (failure_answer e) as [thrown|text] eqn:Hanswer;
      [right; exists e, thrown; apply failure_answer_throws in Hanswer; auto
      |left; eexists; reflexivity].
  - intros Hshort Hkey e Hfirst Hnull. apply Z.ltb_ge in Hshort.
    rewrite Hshort, Hkey. cbn [negb].
    destruct (ex_daytona_new o) as [?|e1];
      [destruct (ex_create o) as [?|e2];
       [destruct (ex_codeRun o) as [?|e3];
        [destruct (ex_track o) as [?|e4]; [discriminate Hfirst|]|]|]|].
    all: injection Hfirst as ->.
    all: destruct Hnull as [-> | ->]; eexists; reflexivity.
Qed.

(** A telemetry rejection with [null] makes [codeExecution] throw, after
    the sandbox was deleted. *)
Example codeExecution_throws_on_null_rejection :
  call (codeExecution Examples.tool_env ToolExamples.run_track_null
          "print(6 * 7)" None Examples.no_context) ∅
  = (∅,
     [Daytona_new "daytona-key"; Daytona_create;
      Sandbox_codeRun "sandbox-1" "print(6 * 7)";
      Track "Python Code Executed"
        [("success", JS.JBool true); ("codeLength", JS.JNum 12);
         ("executionTime", JS.JNum 250); ("hasDescription", JS.JBool false)];
      Sandbox_delete "sandbox-1"],
     inl (JS.Error "Cannot read properties of null (reading 'message')")).
Proof. vm_compute. reflexivity. Qed.

(** The guard counts UTF-16 code units: 5001 letters of two bytes each pass
    it. *)
Example codeExecution_guard_counts_code_units :
  let code := String.concat "" (replicate (Z.to_nat 5001) "é") in
  Z.of_nat (String.length code) = 10002%Z
  /\ Z.of_nat (JS.length code) = 5001%Z
  /\ exists rest,
       snd (fst (call (codeExecution Examples.tool_env ToolExamples.run_ok
                         code None Examples.no_context) ∅))
       = Daytona_new "daytona-key" :: rest.
Proof.
  intros code. split; [vm_compute; reflexivity|].
  split; [vm_compute; reflexivity|].
  eexists. vm_compute. reflexivity.
Qed.

(** X8. What [codeExecution] answers does not depend on the usage tracking or
    on the deletion of the sandbox: a failure of either is logged and
    swallowed, and the text is the one of the run. *)
Theorem codeExecution_text_ignores_cleanup_and_billing
    (env : gmap string string) (o1 o2 : exec_oracle) (code : string)
    (description : option string) (options : context) (csvs : store) :
  same_run o1 o2 ->
  snd (call (codeExecution env o1 code description options) csvs)
  = snd (call (codeExecution env o2 code description options) csvs).
Proof.
  intros (Hstart & Hnew & Hcreate & Hrun & Hend & Htrack).
  destruct (codeExecution_answers env o1 code description options csvs)
    as [evs1 ->].
  destruct (codeExecution_answers env o2 code description options csvs)
    as [evs2 ->].
  cbn [snd]. unfold codeExecution_answer, run_text.
  now rewrite Hstart, Hnew, Hcreate, Hrun, Hend, Htrack.
Qed.

Lemma codeExecution_text_ignores_cleanup_and_billing_witness :
  same_run ToolExamples.run_ok ToolExamples.run_ok_cleanup_fails
  /\ snd (call (codeExecution Examples.tool_env ToolExamples.run_ok
                  "print(6 * 7)" None Examples.paying_context) ∅)
     = snd (call (codeExecution Examples.tool_env
                    ToolExamples.run_ok_cleanup_fails
                    "print(6 * 7)" None Examples.paying_context) ∅).
Proof.
  assert (Hsame : same_run ToolExamples.run_ok ToolExamples.run_ok_cleanup_fails)
    by (repeat split; reflexivity).
  split; [exact Hsame|].
  exact (codeExecution_text_ignores_cleanup_and_billing Examples.tool_env
           ToolExamples.run_ok ToolExamples.run_ok_cleanup_fails
           "print(6 * 7)" None Examples.paying_context ∅ Hsame).
Defined.

(** A truthy optional string is a string. *)
Lemma truthy_Some (o : option string) :
  JS.truthy o = true -> o = Some (default "" o).
Proof. destruct o; [reflexivity | discriminate]. Qed.

(** X9. [codeExecution] reports usage for billing at most once, and only for a
    run that exited with code zero, made for a user and a session on the
    pay-per-use tier, outside development mode; the usage reported is the
    measured execution time. *)
Theorem codeExecution_bills_successful_paid_runs_only
    (env : gmap string string) (o : exec_oracle) (code : string)
    (description : option string) (options : context) (csvs : store) :
  let evs := snd (fst (call (codeExecution env o code description options) csvs)) in
  List.filter is_daytona_usage evs = []
  \/ exists userId sessionId execution,
       List.filter is_daytona_usage evs
       = [Polar_trackDaytonaUsage userId sessionId (ex_now_end o - ex_now_start o)]
       /\ ctx_userId options = Some userId
       /\ ctx_sessionId options = Some sessionId
       /\ ctx_userTier options = Some "pay_per_use"
       /\ env !! "NEXT_PUBLIC_APP_MODE" <> Some "development"
       /\ ex_codeRun o = Resolves execution
       /\ exitCode execution = 0%Z.
Proof.
  intros evs. subst evs. rewrite call_eq. cbn [fst snd].
  change (wp (codeExecution env o code description options)
            (fun _ t _ =>
               List.filter is_daytona_usage t = []
               \/ exists userId sessionId execution,
                    List.filter is_daytona_usage t
                    = [Polar_trackDaytonaUsage userId sessionId
                         (ex_now_end o - ex_now_start o)]
                    /\ ctx_userId options = Some userId
                    /\ ctx_sessionId options = Some sessionId
                    /\ ctx_userTier options = Some "pay_per_use"
                    /\ env !! "NEXT_PUBLIC_APP_MODE" <> Some "development"
                    /\ ex_codeRun o = Resolves execution
                    /\ exitCode execution = 0%Z) csvs).
  unfold codeExecution.
  repeat (wp_step; simplify_eq; unify_answers).
  all: try (left; reflexivity).
  all: right.
  all: repeat match goal with
              | H : _ && _ = true |- _ => apply andb_true_iff in H as [H ?]
              end.
  all: repeat match goal with
              | H : JS.truthy _ = true |- _ => apply truthy_Some in H
              | H : bool_decide _ = true |- _ => apply bool_decide_eq_true in H
              | H : negb (bool_decide _) = true |- _ =>
                  apply negb_true_iff, bool_decide_eq_false in H
              | H : (_ =? _)%Z = true |- _ => apply Z.eqb_eq in H
              end.
  all: do 3 eexists; repeat split; try eassumption; reflexivity.
Qed.

End ToolsRobustness.

(* ===================================================================== *)
(** ** The search tools *)
(* ===================================================================== *)

Module SearchFacts.
Import Flow FlowFacts FlowPrefix ToolsSpec.
Import Tools(context, ctx_userId, ctx_sessionId, ctx_userTier, store,
             search_oracle, se_valyu_new, se_search, se_track, se_polar_new,
             se_polar_track, search_response, results, total_deduction_dollars,
             tool_text, Plain, Stringified, resultCount, results_or_empty,
             deduction, patentAnalysis).
Import SearchTools.

Lemma resultCount_length (response : option search_response) :
  resultCount response = length (results_or_empty response).
Proof. destruct response as [[[l|] ?]|]; reflexivity. Qed.

Ltac search_run :=
  repeat (wp_step; simplify_eq; unify_answers).

Ltac use_answers :=
  repeat match goal with
         | H : _ = Resolves _ |- _ => rewrite H
         | H : _ = Rejects _ |- _ => rewrite H
         end.

Lemma patentSearch_answers_text
    (env : gmap string string) (o : search_oracle) (query : string)
    (maxResults : Z) (options : context) (csvs : store) :
  JS.truthy (env !! "VALYU_API_KEY") = true ->
  exists evs,
    call (patentSearch env o query maxResults options) csvs
    = (csvs, evs,
       inr (search_text o (patentSearch_payload query)
              "❌ Error searching patents: ")).
Proof.
  intros Hkey.
  rewrite call_eq.
  change (wp (patentSearch env o query maxResults options)
            (fun s t c =>
               exists evs,
                 (s, t, match c with
                        | Normal r => inr r
                        | Return r => inr r
                        | Throw err => inl err
                        end)
                 = (csvs, evs,
                    inr (search_text o (patentSearch_payload query)
                           "❌ Error searching patents: "))) csvs).
  unfold patentSearch, search_text, patentSearch_payload, error_text.
  rewrite Hkey. cbn [negb].
  search_run; use_answers; eexists; reflexivity.
Qed.

Lemma webSearch_answers_text
    (env : gmap string string) (o : search_oracle) (query : string)
    (maxResults : Z) (options : context) (csvs : store) :
  exists evs,
    call (webSearch env o query maxResults options) csvs
    = (csvs, evs,
       inr (search_text o (webSearch_payload query)
              "❌ Error performing web search: ")).
Proof.
  rewrite call_eq.
  change (wp (webSearch env o query maxResults options)
            (fun s t c =>
               exists evs,
                 (s, t, match c with
                        | Normal r => inr r
                        | Return r => inr r
                        | Throw err => inl err
                        end)
                 = (csvs, evs,
                    inr (search_text o (webSearch_payload query)
                           "❌ Error performing web search: "))) csvs).
  unfold webSearch, search_text, webSearch_payload, error_text.
  search_run; use_answers; eexists; reflexivity.
Qed.

Lemma patentAnalysis_answers_text
    (env : gmap string string) (o : search_oracle) (query : string)
    (maxResults : Z) (options : context) (csvs : store) :
  JS.truthy (env !! "VALYU_API_KEY") = true ->
  exists evs,
    call (patentAnalysis env o query maxResults options) csvs
    = (csvs, evs,
       inr (search_text o (patentAnalysis_payload query)
              "❌ Error analyzing patents: ")).
Proof.
  intros Hkey.
  rewrite call_eq.
  change (wp (patentAnalysis env o query maxResults options)
            (fun s t c =>
               exists evs,
                 (s, t, match c with
                        | Normal r => inr r
                        | Return r => inr r
                        | Throw err => inl err
                        end)
                 = (csvs, evs,
                    inr (search_text o (patentAnalysis_payload query)
                           "❌ Error analyzing patents: "))) csvs).
  unfold patentAnalysis, search_text, patentAnalysis_payload, error_text.
  rewrite Hkey. cbn [negb].
  search_run; use_answers; eexists; reflexivity.
Qed.

Lemma patentSearch_without_key
    (env : gmap string string) (o : search_oracle) (query : string)
    (maxResults : Z) (options : context) (csvs : store) :
  JS.truthy (env !! "VALYU_API_KEY") = false ->
  call (patentSearch env o query maxResults options) csvs
  = (csvs, [], inr (Plain "❌ Valyu API key not configured.")).
Proof.
  intros Hkey. unfold patentSearch, call, try_catch. cbv zeta. now rewrite Hkey.
Qed.

Lemma patentAnalysis_without_key
    (env : gmap string string) (o : search_oracle) (query : string)
    (maxResults : Z) (options : context) (csvs : store) :
  JS.truthy (env !! "VALYU_API_KEY") = false ->
  call (patentAnalysis env o query maxResults options) csvs
  = (csvs, [], inr (Plain "❌ Valyu API key not configured.")).
Proof.
  intros Hkey. unfold patentAnalysis, call, try_catch. cbv zeta. now rewrite Hkey.
Qed.

(** Without a Valyu key, [patentSearch] and [patentAnalysis] answer with
    the configuration message and contact nothing. *)
Theorem patent_tools_without_key_make_no_call
    (env : gmap string string) (o : search_oracle) (query : string)
    (maxResults : Z) (options : context) (csvs : store) :
  JS.truthy (env !! "VALYU_API_KEY") = false ->
  call (patentSearch env o query maxResults options) csvs
  = (csvs, [], inr (Plain "❌ Valyu API key not configured."))
  /\ call (patentAnalysis env o query maxResults options) csvs
     = (csvs, [], inr (Plain "❌ Valyu API key not configured.")).
Proof.
  intros Hkey. split.
  - now apply patentSearch_without_key.
  - now apply patentAnalysis_without_key.
Qed.

Lemma patent_tools_without_key_make_no_call_witness :
  call (patentSearch ∅ Examples.search_ok "solid-state battery" 15
          Examples.no_context) ∅
  = (∅, [], inr (Plain "❌ Valyu API key not configured."))
  /\ call (patentAnalysis ∅ Examples.search_ok "US11234567" 5
             Examples.no_context) ∅
     = (∅, [], inr (Plain "❌ Valyu API key not configured.")).
Proof.
  assert (Hkey : JS.truthy ((∅ : gmap string string) !! "VALYU_API_KEY") = false)
    by (vm_compute; reflexivity).
  split.
  - apply (proj1 (patent_tools_without_key_make_no_call ∅ Examples.search_ok
                    "solid-state battery" 15 Examples.no_context ∅ Hkey)).
  - apply (proj2 (patent_tools_without_key_make_no_call ∅ Examples.search_ok
                    "US11234567" 5 Examples.no_context ∅ Hkey)).
Defined.

(** [webSearch] has no such guard: whether or not the key is configured,
    its first call constructs the Valyu client with whatever the environment
    holds, and the search is attempted as soon as the client is there. *)
Theorem webSearch_does_not_check_key
    (env : gmap string string) (o : search_oracle) (query : string)
    (maxResults : Z) (options : context) (csvs : store) :
  exists rest,
    snd (fst (call (webSearch env o query maxResults options) csvs))
    = Valyu_new (env !! "VALYU_API_KEY") "https://api.valyu.network/v1" :: rest
    /\ (se_valyu_new o = Resolves tt -> existsb is_search rest = true).
Proof.
  rewrite call_eq. cbn [fst snd].
  change (wp (webSearch env o query maxResults options)
            (fun _ t _ =>
               exists rest,
                 t = Valyu_new (env !! "VALYU_API_KEY")
                       "https://api.valyu.network/v1" :: rest
                 /\ (se_valyu_new o = Resolves tt ->
                     existsb is_search rest = true)) csvs).
  unfold webSearch.
  search_run.
  all: eexists; split; [reflexivity|]; intros Hnew;
    first [ reflexivity | exfalso; congruence ].
Qed.

(** The search tools never throw and never touch the store: a failure of
    the search service or of telemetry becomes the text of the answer. *)
Theorem search_tools_never_throw
    (env : gmap string string) (o : search_oracle) (query : string)
    (maxResults : Z) (options : context) (csvs : store) :
  (exists evs text,
     call (patentSearch env o query maxResults options) csvs
     = (csvs, evs, inr text))
  /\ (exists evs text,
        call (patentAnalysis env o query maxResults options) csvs
        = (csvs, evs, inr text))
  /\ (exists evs text,
        call (webSearch env o query maxResults options) csvs
        = (csvs, evs, inr text)).
Proof.
  split; [|split].
  - destruct (JS.truthy (env !! "VALYU_API_KEY")) eqn:Hkey.
    + destruct (patentSearch_answers_text env o query maxResults options csvs
                  Hkey) as [evs ->].
      now do 2 eexists.
    + do 2 eexists. now apply patentSearch_without_key.
  - destruct (JS.truthy (env !! "VALYU_API_KEY")) eqn:Hkey.
    + destruct (patentAnalysis_answers_text env o query maxResults options csvs
                  Hkey) as [evs ->].
      now do 2 eexists.
    + do 2 eexists. now apply patentAnalysis_without_key.
  - destruct (webSearch_answers_text env o query maxResults options csvs)
      as [evs ->].
    now do 2 eexists.
Qed.

(** X10. What a search tool answers does not depend on the usage tracking: a
    failure to report usage is logged and swallowed. *)
Theorem search_answer_ignores_billing
    (env : gmap string string) (o1 o2 : search_oracle) (query : string)
    (maxResults : Z) (options : context) (csvs : store) :
  same_search o1 o2 ->
  snd (call (patentSearch env o1 query maxResults options) csvs)
  = snd (call (patentSearch env o2 query maxResults options) csvs)
  /\ snd (call (patentAnalysis env o1 query maxResults options) csvs)
     = snd (call (patentAnalysis env o2 query maxResults options) csvs)
  /\ snd (call (webSearch env o1 query maxResults options) csvs)
     = snd (call (webSearch env o2 query maxResults options) csvs).
Proof.
  intros (Hnew & Hsearch & Htrack).
  assert (Htext : forall payload failure,
             search_text o1 payload failure = search_text o2 payload failure).
  { intros payload failure. unfold search_text.
    now rewrite Hnew, Hsearch, Htrack. }
  destruct (webSearch_answers_text env o1 query maxResults options csvs)
    as [evs1 ->].
  destruct (webSearch_answers_text env o2 query maxResults options csvs)
    as [evs2 ->].
  cbn [snd]. rewrite Htext.
  destruct (JS.truthy (env !! "VALYU_API_KEY")) eqn:Hkey.
  - destruct (patentSearch_answers_text env o1 query maxResults options csvs
                Hkey) as [evs3 ->].
    destruct (patentSearch_answers_text env o2 query maxResults options csvs
                Hkey) as [evs4 ->].
    destruct (patentAnalysis_answers_text env o1 query maxResults options csvs
                Hkey) as [evs5 ->].
    destruct (patentAnalysis_answers_text env o2 query maxResults options csvs
                Hkey) as [evs6 ->].
    cbn [snd]. now rewrite !Htext.
  - rewrite !(patentSearch_without_key env _ query maxResults options csvs Hkey),
      !(patentAnalysis_without_key env _ query maxResults options csvs Hkey).
    now repeat split.
Qed.

Lemma search_answer_ignores_billing_witness :
  let failing :=
    {| se_valyu_new := Resolves tt;
       se_search := se_search Examples.search_ok;
       se_track := Resolves tt;
       se_polar_new := Rejects (JS.Error "polar is down");
       se_polar_track := Rejects (JS.Error "polar is down") |} in
  same_search Examples.search_ok failing
  /\ snd (call (patentSearch Examples.tool_env Examples.search_ok
                  "solid-state battery" 15 Examples.paying_context) ∅)
     = snd (call (patentSearch Examples.tool_env failing
                    "solid-state battery" 15 Examples.paying_context) ∅).
Proof.
  intros failing.
  assert (Hsame : same_search Examples.search_ok failing)
    by (repeat split; reflexivity).
  split; [exact Hsame|].
  apply (proj1 (search_answer_ignores_billing Examples.tool_env
                  Examples.search_ok failing "solid-state battery" 15
                  Examples.paying_context ∅ Hsame)).
Defined.

Ltac billing_facts :=
  repeat match goal with
         | H : _ && _ = true |- _ => apply andb_true_iff in H as [H ?]
         end;
  repeat match goal with
         | H : JS.truthy _ = true |- _ => apply ToolsRobustness.truthy_Some in H
         | H : bool_decide _ = true |- _ => apply bool_decide_eq_true in H
         | H : negb (bool_decide _) = true |- _ =>
             apply negb_true_iff, bool_decide_eq_false in H
         end.

(** X11. [patentSearch] and [webSearch] report usage for billing at most once,
    and only for a search that was answered, made for a user and a session
    on the pay-per-use tier, outside development mode; the cost reported is
    the deduction of the search response (zero when it carries none). *)
Theorem search_tools_bill_paid_searches_only
    (env : gmap string string) (o : search_oracle) (query : string)
    (maxResults : Z) (options : context) (csvs : store) :
  billed_at_most_once env o query options "patentSearch"
    (snd (fst (call (patentSearch env o query maxResults options) csvs)))
  /\ billed_at_most_once env o query options "webSearch"
       (snd (fst (call (webSearch env o query maxResults options) csvs))).
Proof.
  rewrite !call_eq. cbn [fst snd]. unfold billed_at_most_once. split.
  - change (wp (patentSearch env o query maxResults options)
              (fun _ t _ =>
                 List.filter is_usage t = []
                 \/ exists userId sessionId response,
                      List.filter is_usage t
                      = [Polar_trackValyuAPIUsage userId sessionId "patentSearch"
                           (deduction response) query (resultCount response)]
                      /\ ctx_userId options = Some userId
                      /\ ctx_sessionId options = Some sessionId
                      /\ ctx_userTier options = Some "pay_per_use"
                      /\ env !! "NEXT_PUBLIC_APP_MODE" <> Some "development"
                      /\ se_search o = Resolves response) csvs).
    unfold patentSearch. search_run.
    all: try (left; reflexivity).
    all: right; billing_facts.
    all: do 3 eexists; repeat split; try eassumption; reflexivity.
  - change (wp (webSearch env o query maxResults options)
              (fun _ t _ =>
                 List.filter is_usage t = []
                 \/ exists userId sessionId response,
                      List.filter is_usage t
                      = [Polar_trackValyuAPIUsage userId sessionId "webSearch"
                           (deduction response) query (resultCount response)]
                      /\ ctx_userId options = Some userId
                      /\ ctx_sessionId options = Some sessionId
                      /\ ctx_userTier options = Some "pay_per_use"
                      /\ env !! "NEXT_PUBLIC_APP_MODE" <> Some "development"
                      /\ se_search o = Resolves response) csvs).
    unfold webSearch. search_run.
    all: try (left; reflexivity).
    all: right; billing_facts.
    all: do 3 eexists; repeat split; try eassumption; reflexivity.
Qed.

(** X12. A payload of [patentSearch] or [webSearch] counts what it carries: its
    [results] are the records of the search response, unchanged (none when
    the response has no list), its [resultCount] is their number, and its
    [query] is the query the tool was given. *)
Theorem search_payload_counts_its_results
    (env : gmap string string) (o : search_oracle) (query : string)
    (maxResults : Z) (options : context) (csvs : store) (j : JS.json) :
  snd (call (patentSearch env o query maxResults options) csvs)
  = inr (Stringified j)
  \/ snd (call (webSearch env o query maxResults options) csvs)
     = inr (Stringified j) ->
  exists response,
    se_search o = Resolves response
    /\ JS.field "results" j = Some (JS.JArr (results_or_empty response))
    /\ JS.field "resultCount" j
       = Some (JS.JNum (Z.of_nat (length (results_or_empty response))))
    /\ JS.field "query" j = Some (JS.JStr query).
Proof.
  assert (Htext : forall payload failure,
             inr (search_text o payload failure)
             = (inr (Stringified j) : JS.exn + tool_text) ->
             exists response,
               se_search o = Resolves response /\ j = payload response).
  { intros payload failure. unfold search_text.
    destruct (se_valyu_new o); [|discriminate].
    destruct (se_search o) as [response|]; [|discriminate].
    destruct (se_track o); [|discriminate].
    intros Heq. injection Heq as <-. now exists response. }
  intros [Hrun | Hrun].
  - destruct (JS.truthy (env !! "VALYU_API_KEY")) eqn:Hkey.
    + destruct (patentSearch_answers_text env o query maxResults options csvs
                  Hkey) as [evs Hcall].
      rewrite Hcall in Hrun. cbn [snd] in Hrun.
      apply Htext in Hrun as (response & Hsearch & ->).
      exists response. rewrite <- resultCount_length. now repeat split.
    + rewrite (patentSearch_without_key env o query maxResults options csvs Hkey)
        in Hrun.
      discriminate Hrun.
  - destruct (webSearch_answers_text env o query maxResults options csvs)
      as [evs Hcall].
    rewrite Hcall in Hrun. cbn [snd] in Hrun.
    apply Htext in Hrun as (response & Hsearch & ->).
    exists response. rewrite <- resultCount_length. now repeat split.
Qed.

Lemma search_payload_counts_its_results_witness :
  exists j,
    snd (call (patentSearch Examples.tool_env Examples.search_ok
                 "solid-state battery" 15 Examples.no_context) ∅)
    = inr (Stringified j)
    /\ JS.field "results" j = Some (JS.JArr [Examples.one_patent])
    /\ JS.field "resultCount" j = Some (JS.JNum 1)
    /\ JS.field "query" j = Some (JS.JStr "solid-state battery").
Proof.
  assert (Hrun : exists j,
             snd (call (patentSearch Examples.tool_env Examples.search_ok
                          "solid-state battery" 15 Examples.no_context) ∅)
             = inr (Stringified j))
    by (eexists; vm_compute; reflexivity).
  destruct Hrun as [j Hrun]. exists j. split; [exact Hrun|].
  destruct (search_payload_counts_its_results Examples.tool_env
              Examples.search_ok "solid-state battery" 15 Examples.no_context
              ∅ j (or_introl Hrun))
    as (response & Hsearch & Hresults & Hcount & Hquery).
  injection Hsearch as <-. repeat split; assumption.
Defined.

End SearchFacts.

(* ===================================================================== *)
(** ** createChart *)
(* ===================================================================== *)

Module ChartFacts.
Import Flow FlowFacts Charts.

Section Numbers.
Context {number : Type}.
Variable Number_of_string : string -> number.
Variable Math_min Math_max : list number -> number.
Variable toFixed1 : number -> string.
Variable truthy_number : number -> bool.

(** X13. When telemetry rejects, [createChart] throws that rejection: it is the
    one tool whose telemetry call is not guarded. Nothing has been saved
    by then, for the chart is saved after telemetry. *)
Theorem createChart_telemetry_failure_throws
    (o : chart_oracle) (title : string) (type : chart_type)
    (xAxisLabel yAxisLabel : string) (dataSeries : list (series number))
    (description : option string) (options : Tools.context)
    (charts : store number) (err : JS.exn) :
  ch_track o = Rejects err ->
  exists props,
    call (createChart Number_of_string Math_min Math_max toFixed1 truthy_number
            o title type xAxisLabel yAxisLabel dataSeries description options)
      charts
    = (charts, [Track "Chart Created" props], inl err).
Proof.
  intros Htrack. unfold Charts.createChart, call. cbv zeta.
  unfold bind at 1. unfold await, bind, log, throw. rewrite Htrack.
  eexists. reflexivity.
Qed.

(** X14. When the persistence layer throws, [createChart] logs the failure and
    still answers with the chart data, without identifier and without image
    URL; nothing is stored. *)
Theorem createChart_survives_persistence_failure
    (o : chart_oracle) (title : string) (type : chart_type)
    (xAxisLabel yAxisLabel : string) (dataSeries : list (series number))
    (description : option string) (options : Tools.context)
    (charts : store number) (err : JS.exn) :
  ch_track o = Resolves tt ->
  ch_db o = Db_throws err ->
  exists props row r,
    call (createChart Number_of_string Math_min Math_max toFixed1 truthy_number
            o title type xAxisLabel yAxisLabel dataSeries description options)
      charts
    = (charts,
       [Track "Chart Created" props; Db_createChart row;
        Console_error "[createChart] Error saving chart:"],
       inr r)
    /\ cr_chartId r = None /\ cr_imageUrl r = None
    /\ Charts.title (cr_chart r) = title
    /\ Charts.chartType (cr_chart r) = type
    /\ Charts.dataSeries (cr_chart r) = dataSeries.
Proof.
  intros Htrack Hdb. unfold Charts.createChart, call, db_createChart. cbv zeta.
  rewrite Htrack, Hdb.
  cbv [try_catch bind await log throw pure ret].
  do 3 eexists. split; [reflexivity|]. repeat split.
Qed.

(** A chart that is saved can be read back: with a fresh identifier and a
    persistence layer that accepts the row, the answer carries the generated
    identifier and the image URL [/api/charts/<id>/image], and the store
    holds under that identifier a row whose chart data is the data of the
    answer. *)
Theorem createChart_saved_chart_is_retrievable
    (o : chart_oracle) (title : string) (type : chart_type)
    (xAxisLabel yAxisLabel : string) (dataSeries : list (series number))
    (description : option string) (options : Tools.context)
    (charts : store number) :
  ch_track o = Resolves tt ->
  ch_db o = Db_ok ->
  charts !! ch_uuid o = None ->
  ch_uuid o <> "" ->
  exists evs row r,
    call (createChart Number_of_string Math_min Math_max toFixed1 truthy_number
            o title type xAxisLabel yAxisLabel dataSeries description options)
      charts
    = (<[ch_uuid o := row]> charts, evs, inr r)
    /\ cr_chartId r = Some (ch_uuid o)
    /\ cr_imageUrl r = Some ("/api/charts/" +:+ ch_uuid o +:+ "/image")
    /\ (<[ch_uuid o := row]> charts) !! ch_uuid o = Some row
    /\ chart_chart_data row = cr_chart r
    /\ chart_id row = ch_uuid o.
Proof.
  intros Htrack Hdb Hfresh Hne. apply String.eqb_neq in Hne.
  unfold Charts.createChart, call, db_createChart. cbv zeta.
  rewrite Htrack, Hdb.
  cbv [try_catch bind await log throw pure ret get modify chart_id].
  rewrite Hfresh.
  do 3 eexists. split; [reflexivity|].
  cbn [cr_chartId cr_imageUrl cr_chart chart_chart_data chart_id].
  unfold JS.or_none. cbn [JS.truthy default]. rewrite Hne. cbn [negb].
  repeat split. apply lookup_insert_eq.
Qed.

Lemma flat_map_nil_iff {A B} (f : A -> list B) (l : list A) :
  flat_map f l = [] <-> Forall (fun a => f a = []) l.
Proof.
  induction l as [|a l IH]; cbn [flat_map]; [now split|].
  split.
  - intros Happ. apply app_eq_nil in Happ as [Ha Hl].
    constructor; [exact Ha | now apply IH].
  - intros Hall. apply Forall_cons in Hall as [Ha Hl].
    rewrite Ha. now apply IH.
Qed.

Lemma map_nil_iff {A B} (f : A -> B) (l : list A) : List.map f l = [] <-> l = [].
Proof. destruct l; [now split | split; discriminate]. Qed.

(** X15. The ranges shown with a chart, at the edges. A scatter or quadrant
    chart has ranges unless no series has any point. A line, bar or area
    chart takes its range from the first series alone: the [x] of its first
    and of its last point; when the first series is empty there is no range,
    whatever the other series hold. *)
Theorem computeDateRange_edges
    (type : chart_type) (dataSeries : list (series number)) :
  match type with
  | scatter | quadrant =>
      computeDateRange Number_of_string Math_min Math_max toFixed1 type
        dataSeries = None
      <-> Forall (fun s => data s = []) dataSeries
  | line | bar | area =>
      computeDateRange Number_of_string Math_min Math_max toFixed1 type
        dataSeries
      = match dataSeries with
        | first :: _ =>
            match head (data first), last (data first) with
            | Some d0, Some dn => Some {| start := x d0; end_ := x dn |}
            | _, _ => None
            end
        | [] => None
        end
      /\ (computeDateRange Number_of_string Math_min Math_max toFixed1 type
            dataSeries = None
          <-> head dataSeries ≫= (fun first => head (data first)) = None)
  end.
Proof.
  assert (Hscatter :
            forall t, t = scatter \/ t = quadrant ->
                      computeDateRange Number_of_string Math_min Math_max
                        toFixed1 t dataSeries = None
                      <-> Forall (fun s => data s = []) dataSeries).
  { intros t Ht.
    assert (Hxs : flat_map (fun s => List.map (fun d => Number_ Number_of_string (x d)) (data s))
                    dataSeries = []
                  <-> Forall (fun s => data s = []) dataSeries).
    { rewrite flat_map_nil_iff. apply Forall_iff. intros s. apply map_nil_iff. }
    assert (Hys : flat_map (fun s => List.map (fun d => y d) (data s)) dataSeries = []
                  <-> Forall (fun s => data s = []) dataSeries).
    { rewrite flat_map_nil_iff. apply Forall_iff. intros s. apply map_nil_iff. }
    unfold Charts.computeDateRange.
    destruct Ht as [-> | ->]; cbv zeta.
    all: destruct (flat_map (fun s => List.map (fun d => Number_ _ (x d)) (data s))
                     dataSeries) as [|x0 xs] eqn:Hx;
      [ cbn; split; [intros _; now apply Hxs | reflexivity] |].
    all: destruct (flat_map (fun s => List.map (fun d => y d) (data s))
                     dataSeries) as [|y0 ys] eqn:Hy;
      [ cbn; split; [intros _; now apply Hys | reflexivity] |].
    all: cbn; split; [discriminate|].
    all: intros Hall; apply Hxs in Hall; discriminate Hall. }
  assert (Hseries :
            forall t, t = line \/ t = bar \/ t = area ->
              computeDateRange Number_of_string Math_min Math_max toFixed1 t
                dataSeries
              = match dataSeries with
                | first :: _ =>
                    match head (data first), last (data first) with
                    | Some d0, Some dn => Some {| start := x d0; end_ := x dn |}
                    | _, _ => None
                    end
                | [] => None
                end
              /\ (computeDateRange Number_of_string Math_min Math_max toFixed1
                    t dataSeries = None
                  <-> head dataSeries ≫= (fun first => head (data first)) = None)).
  { intros t Ht. unfold Charts.computeDateRange.
    destruct dataSeries as [|first rest].
    - destruct Ht as [-> | [-> | ->]]; now repeat split.
    - cbn [head mbind option_bind].
      destruct (data first) as [|d0 ds] eqn:Hdata.
      + destruct Ht as [-> | [-> | ->]]; now repeat split.
      + destruct (last (d0 :: ds)) as [dn|] eqn:Hlast;
          [|now apply last_None in Hlast].
        destruct Ht as [-> | [-> | ->]]; cbn;
          (split; [reflexivity | split; discriminate]). }
  destruct type.
  - apply Hseries. auto.
  - apply Hseries. auto.
  - apply Hseries. auto.
  - apply Hscatter. auto.
  - apply Hscatter. auto.
Qed.

End Numbers.

Lemma createChart_telemetry_failure_throws_witness :
  exists props,
    call (ToolExamples.createChart ToolExamples.chart_track_down
            "Filing Trends" line "Year" "Patents" ToolExamples.filings None
            Examples.no_context) ∅
    = (∅, [Track "Chart Created" props],
       inl (JS.Error "analytics unavailable")).
Proof.
  apply (createChart_telemetry_failure_throws ToolExamples.Number_of_string
           ToolExamples.Math_min ToolExamples.Math_max ToolExamples.toFixed1
           ToolExamples.truthy_number ToolExamples.chart_track_down
           "Filing Trends" line "Year" "Patents" ToolExamples.filings None
           Examples.no_context ∅ (JS.Error "analytics unavailable") eq_refl).
Defined.

Lemma createChart_survives_persistence_failure_witness :
  exists props row r,
    call (ToolExamples.createChart ToolExamples.chart_db_down
            "Filing Trends" line "Year" "Patents" ToolExamples.filings None
            Examples.no_context) ∅
    = (∅,
       [Track "Chart Created" props; Db_createChart row;
        Console_error "[createChart] Error saving chart:"],
       inr r)
    /\ cr_chartId r = None /\ cr_imageUrl r = None
    /\ Charts.title (cr_chart r) = "Filing Trends"
    /\ Charts.chartType (cr_chart r) = line
    /\ Charts.dataSeries (cr_chart r) = ToolExamples.filings.
Proof.
  apply (createChart_survives_persistence_failure ToolExamples.Number_of_string
           ToolExamples.Math_min ToolExamples.Math_max ToolExamples.toFixed1
           ToolExamples.truthy_number ToolExamples.chart_db_down
           "Filing Trends" line "Year" "Patents" ToolExamples.filings None
           Examples.no_context ∅ (JS.Error "connection refused")
           eq_refl eq_refl).
Defined.

Lemma createChart_saved_chart_is_retrievable_witness :
  let id := ch_uuid ToolExamples.chart_ok in
  exists evs row r,
    call (ToolExamples.createChart ToolExamples.chart_ok
            "Filing Trends" line "Year" "Patents" ToolExamples.filings None
            Examples.no_context) ∅
    = (<[id := row]> ∅, evs, inr r)
    /\ cr_chartId r = Some id
    /\ cr_imageUrl r = Some ("/api/charts/" +:+ id +:+ "/image")
    /\ (<[id := row]> (∅ : gmap string (chart_row ToolExamples.num))) !! id = Some row
    /\ chart_chart_data row = cr_chart r
    /\ chart_id row = id.
Proof.
  intros id.
  apply (createChart_saved_chart_is_retrievable ToolExamples.Number_of_string
           ToolExamples.Math_min ToolExamples.Math_max ToolExamples.toFixed1
           ToolExamples.truthy_number ToolExamples.chart_ok
           "Filing Trends" line "Year" "Patents" ToolExamples.filings None
           Examples.no_context ∅ eq_refl eq_refl).
  - apply lookup_empty.
  - discriminate.
Defined.

(** The ranges of a scatter chart of the same points: [Number] reads the
    years. *)
Example scatter_chart_ranges :
  computeDateRange ToolExamples.Number_of_string ToolExamples.Math_min
    ToolExamples.Math_max ToolExamples.toFixed1 scatter ToolExamples.filings
  = Some {| start := X_string "X: 2015.0-2024.0";
            end_ := X_string "Y: 45.0-450.0" |}.
Proof. vm_compute. reflexivity. Qed.

End ChartFacts.

(* ===================================================================== *)
(** ** Environment validation: validity and the status report *)
(* ===================================================================== *)

Module EnvReport.
Import Flow FlowFacts EnvValidation EnvSpec EnvFacts Layout.

Lemma length_eqb_nil {A} (l : list A) : (length l =? 0)%nat = true <-> l = [].
Proof. destruct l; [now split | split; discriminate]. Qed.

Lemma cond_msg_nil (b : bool) (msg : string) : cond_msg b msg = [] <-> b = false.
Proof. destruct b; [split; discriminate | now split]. Qed.

Lemma production_errors_nil (env : gmap string string) :
  production_errors env = []
  <-> Forall (fun kv => JS.truthy (env !! fst kv) = true) required_in_production.
Proof.
  unfold production_errors.
  induction required_in_production as [|[key msg] l IH]; [now split|].
  cbn [fmap list_fmap concat fst snd]. rewrite Forall_cons. cbn [fst].
  rewrite <- IH. split.
  - intros Happ. apply app_eq_nil in Happ as [Hk Hl].
    apply cond_msg_nil, negb_false_iff in Hk. now split.
  - intros [Hk Hl]. unfold unset. rewrite Hk. cbn. exact Hl.
Qed.

(** X16. In production mode the configuration is valid exactly when each of the
    eight required credentials is set to a non-empty value and the Supabase
    URL starts with [https://]; the two optional keys, which only give
    warnings, play no part. *)
Theorem production_valid_iff (env : gmap string string) :
  env !! "NEXT_PUBLIC_APP_MODE" <> Some "development" ->
  valid (validatePaymentEnvironment env) = true
  <-> Forall (fun kv => JS.truthy (env !! fst kv) = true) required_in_production
      /\ JS.startsWith (default "" (env !! "NEXT_PUBLIC_SUPABASE_URL")) "https://"
         = true.
Proof.
  intros Hprod. rewrite (validate_production env Hprod). cbn [valid].
  rewrite length_eqb_nil. split.
  - intros Happ. apply app_eq_nil in Happ as [Herrs Hurl].
    apply production_errors_nil in Herrs. split; [exact Herrs|].
    apply cond_msg_nil in Hurl.
    apply Forall_cons in Herrs as [Hset _]. cbn [fst] in Hset.
    rewrite Hset in Hurl. cbn [andb] in Hurl. now apply negb_false_iff in Hurl.
  - intros [Herrs Hurl]. apply production_errors_nil in Herrs.
    rewrite Herrs. cbn [app]. apply cond_msg_nil.
    rewrite Hurl. cbn [negb]. apply andb_false_r.
Qed.

Lemma production_valid_iff_witness :
  let env : gmap string string :=
    {[ "NEXT_PUBLIC_SUPABASE_URL" := "https://project.supabase.co";
       "NEXT_PUBLIC_SUPABASE_ANON_KEY" := "anon";
       "SUPABASE_SERVICE_ROLE_KEY" := "service";
       "POLAR_ACCESS_TOKEN" := "token";
       "POLAR_WEBHOOK_SECRET" := "secret";
       "POLAR_UNLIMITED_PRODUCT_ID" := "unlimited";
       "POLAR_PAY_PER_USE_PRODUCT_ID" := "pay-per-use";
       "AI_GATEWAY_API_KEY" := "gateway-key" ]} in
  valid (validatePaymentEnvironment env) = true
  /\ valid (validatePaymentEnvironment
              (<["NEXT_PUBLIC_SUPABASE_URL" := "http://project.supabase.co"]> env))
     = false.
Proof.
  intros env.
  set (plain := <["NEXT_PUBLIC_SUPABASE_URL" := "http://project.supabase.co"]> env).
  assert (Hprod : env !! "NEXT_PUBLIC_APP_MODE" <> Some "development")
    by (vm_compute; discriminate).
  assert (Hprod' : plain !! "NEXT_PUBLIC_APP_MODE" <> Some "development")
    by (vm_compute; discriminate).
  split.
  - apply (proj2 (production_valid_iff env Hprod)).
    split; [|vm_compute; reflexivity].
    repeat constructor.
  - apply not_true_is_false. intros Hvalid.
    apply (proj1 (production_valid_iff plain Hprod')) in Hvalid as [_ Hurl].
    vm_compute in Hurl. discriminate Hurl.
Defined.

(** In development mode no credential is required: the configuration is
    valid exactly when the Supabase URL is unset, empty, or starts with
    [https://]; a URL of another form is an error in this mode too. *)
Theorem development_valid_iff (env : gmap string string) :
  env !! "NEXT_PUBLIC_APP_MODE" = Some "development" ->
  valid (validatePaymentEnvironment env) = true
  <-> JS.truthy (env !! "NEXT_PUBLIC_SUPABASE_URL") = false
      \/ JS.startsWith (default "" (env !! "NEXT_PUBLIC_SUPABASE_URL")) "https://"
         = true.
Proof.
  intros Hdev. rewrite (validate_development env Hdev). cbn [valid].
  rewrite length_eqb_nil. unfold bad_url. rewrite cond_msg_nil.
  rewrite andb_false_iff, negb_false_iff. reflexivity.
Qed.

Lemma development_valid_iff_witness :
  valid (validatePaymentEnvironment Examples.bare_development) = true
  /\ valid (validatePaymentEnvironment
              (<["NEXT_PUBLIC_SUPABASE_URL" := "http://localhost:54321"]>
                 Examples.bare_development))
     = false.
Proof.
  set (plain := <["NEXT_PUBLIC_SUPABASE_URL" := "http://localhost:54321"]>
                  Examples.bare_development).
  assert (Hdev : Examples.bare_development !! "NEXT_PUBLIC_APP_MODE"
                 = Some "development") by (vm_compute; reflexivity).
  assert (Hdev' : plain !! "NEXT_PUBLIC_APP_MODE" = Some "development")
    by (vm_compute; reflexivity).
  split.
  - apply (proj2 (development_valid_iff Examples.bare_development Hdev)).
    left. vm_compute. reflexivity.
  - apply not_true_is_false. intros Hvalid.
    apply (proj1 (development_valid_iff plain Hdev')) in Hvalid
      as [Hunset | Hurl].
    + vm_compute in Hunset. discriminate Hunset.
    + vm_compute in Hurl. discriminate Hurl.
Defined.

Lemma valid_no_errors (env : gmap string string) :
  valid (validatePaymentEnvironment env) = true ->
  errors (validatePaymentEnvironment env) = [].
Proof.
  destruct (decide (env !! "NEXT_PUBLIC_APP_MODE" = Some "development"))
    as [Hdev | Hprod].
  - rewrite (validate_development env Hdev). cbn [valid errors].
    apply length_eqb_nil.
  - rewrite (validate_production env Hprod). cbn [valid errors].
    apply length_eqb_nil.
Qed.

Lemma logEnvironmentStatus_prints_lines (env : gmap string string) :
  call (logEnvironmentStatus env) tt
  = (tt,
     if bool_decide (env !! "NEXT_PUBLIC_APP_MODE" = Some "development")
     then [console_log "[Env] Development mode detected - skipping Supabase/Polar validation"]
     else ((fun error => console_error ("  - " +:+ error))
             <$> errors (validatePaymentEnvironment env))
          ++ ((fun warning => console_warn ("  - " +:+ warning))
                <$> warnings (validatePaymentEnvironment env)),
     inr tt).
Proof.
  unfold logEnvironmentStatus, call.
  cbv zeta. destruct (bool_decide _); [reflexivity|].
  unfold bind, when.
  destruct (valid (validatePaymentEnvironment env)) eqn:Hvalid.
  - rewrite (valid_no_errors env Hvalid). cbn [fmap list_fmap app pure].
    destruct (warnings (validatePaymentEnvironment env)) as [|w ws] eqn:Hw;
      [reflexivity|].
    cbn [length Nat.ltb Nat.leb]. rewrite forEach_console. reflexivity.
  - rewrite forEach_console.
    destruct (warnings (validatePaymentEnvironment env)) as [|w ws] eqn:Hw.
    + cbn. now rewrite app_nil_r.
    + cbn [length Nat.ltb Nat.leb]. rewrite forEach_console. reflexivity.
Qed.

(** The lines that [logEnvironmentStatus] prints. In development mode: the
    one line that says validation is skipped. Otherwise: one [console.error]
    line per validation error, in order, then one [console.warn] line per
    warning, in order. In both cases it completes without throwing. *)
Theorem logEnvironmentStatus_prints_errors_then_warnings
    (env : gmap string string) :
  let validation := validatePaymentEnvironment env in
  call (logEnvironmentStatus env) tt
  = (tt,
     if bool_decide (env !! "NEXT_PUBLIC_APP_MODE" = Some "development")
     then [console_log "[Env] Development mode detected - skipping Supabase/Polar validation"]
     else ((fun error => console_error ("  - " +:+ error)) <$> errors validation)
          ++ ((fun warning => console_warn ("  - " +:+ warning))
                <$> warnings validation),
     inr tt).
Proof.
  intros validation. subst validation. apply logEnvironmentStatus_prints_lines.
Qed.

(** X17. The root layout reports the environment only when it renders on the
    server outside development mode; what it prints then is what loading
    the validation module printed (the errors), followed by the warnings.
    In the browser and in development mode it prints nothing, so the
    development-mode line of [logEnvironmentStatus] is never printed by the
    layout. Rendering never throws on account of the report. *)
Theorem RootLayout_repeats_import_errors
    (server : bool) (env : gmap string string) :
  call (RootLayout server env) tt
  = (tt,
     if server
        && negb (bool_decide (env !! "NEXT_PUBLIC_APP_MODE" = Some "development"))
     then snd (fst (call (on_import env) tt))
          ++ ((fun warning => console_warn ("  - " +:+ warning))
                <$> warnings (validatePaymentEnvironment env))
     else [],
     inr tt).
Proof.
  pose proof (logEnvironmentStatus_prints_lines env) as Hlog.
  unfold RootLayout, when, call, invoke.
  destruct server; [|reflexivity]. cbn [andb].
  destruct (bool_decide (env !! "NEXT_PUBLIC_APP_MODE" = Some "development"))
    eqn:Hmode; [reflexivity|]. cbn [negb].
  unfold call in Hlog.
  destruct (logEnvironmentStatus env tt) as [[[] out] [[]|[]|err]];
    try discriminate Hlog.
  all: injection Hlog as ->.
  all: unfold on_import, when; rewrite Hmode; cbn [negb].
  all: destruct (valid (validatePaymentEnvironment env)) eqn:Hvalid; cbn [negb].
  all: try rewrite (valid_no_errors env Hvalid).
  all: try rewrite forEach_console.
  all: reflexivity.
Qed.

End EnvReport.

(* ===================================================================== *)
(** ** The chat endpoint: guards, modes and the served stream *)
(* ===================================================================== *)

Module ChatGuardFacts.
Import Flow FlowFacts ChatRoute ChatSpec ChatFacts ChatGuards.

Lemma selector_not_production e : selector_call e -> is_production_call e = false.
Proof. now destruct e. Qed.

Lemma save_not_production e : save_call e -> is_production_call e = false.
Proof. now destruct e. Qed.

Lemma error_response_status o err status body headers :
  error_response o err = Json_response status body headers ->
  status = 400%Z \/ status = 500%Z.
Proof.
  unfold error_response. destruct (_ || _); intros Heq; injection Heq as <- _ _; auto.
Qed.

Ltac count_production :=
  rewrite ?List.filter_app;
  repeat match goal with
         | H : List.filter _ _ = [] |- _ => rewrite H
         end;
  cbn [List.filter is_production_call app].

(** X18. In development mode the handler makes none of the production-only
    calls: no Supabase client is created, access is not validated, and the
    rate limiter is neither consulted nor incremented. No request is turned
    down for payment (402) or for the rate limit (429): a response that is
    not the stream has status 400 or 500. *)
Theorem development_mode_skips_access_and_limits
    (cfg : config) (o : oracle) (s : store) :
  isDevelopment cfg = true ->
  List.filter is_production_call (issued cfg o s) = []
  /\ forall status body headers,
       snd (call (POST cfg o) s) = inr (Json_response status body headers) ->
       status = 400%Z \/ status = 500%Z.
Proof.
  intros Hdev. unfold issued. rewrite call_eq. cbn [fst snd].
  change (wp (POST cfg o)
            (fun _ t c =>
               List.filter is_production_call t = []
               /\ forall status body headers,
                    match c with
                    | Normal r => inr r
                    | Return r => inr r
                    | Throw err => inl err
                    end = inr (Json_response status body headers) ->
                    status = 400%Z \/ status = 500%Z) s).
  unfold POST.
  repeat (chat_step is_production_call selector_not_production save_not_production;
          rewrite ?Hdev in *; cbn [negb andb] in *; try discriminate;
          try match goal with
              | H : _ && false = true |- _ =>
                  rewrite andb_false_r in H; discriminate H
              end).
  all: count_production.
  all: split; [reflexivity|].
  all: intros status body headers Hresp; try discriminate Hresp.
  all: injection Hresp as Hresp; now apply error_response_status in Hresp.
Qed.

Lemma development_mode_skips_access_and_limits_witness :
  let o := Examples.smooth Examples.opening (Some "session-1")
             (Some Examples.alice) in
  isDevelopment Examples.development = true
  /\ List.filter is_production_call (issued Examples.development o ∅) = []
  /\ forall status body headers,
       snd (call (POST Examples.development o) ∅)
       = inr (Json_response status body headers) ->
       status = 400%Z \/ status = 500%Z.
Proof.
  intros o. split; [reflexivity|].
  exact (development_mode_skips_access_and_limits Examples.development o ∅
           eq_refl).
Defined.

Ltac trivial_leaf :=
  lazymatch goal with
  | |- True => exact I
  | |- _ => idtac
  end.

Ltac discharge_false_guard :=
  try match goal with
      | H : _ && false = true |- _ => rewrite andb_false_r in H; discriminate H
      end.

(** X19. In production mode without an AI Gateway key the handler never starts
    a generation: whatever the request, it does no work behind the guards
    (no provider is selected, no message is saved, the counter is not
    incremented) and answers with an error response, never with the stream. *)
Theorem production_without_gateway_key_never_generates
    (cfg : config) (o : oracle) (s : store) :
  isDevelopment cfg = false ->
  JS.truthy (env cfg !! "AI_GATEWAY_API_KEY") = false ->
  List.filter is_work (issued cfg o s) = []
  /\ fst (fst (call (POST cfg o) s)) = s
  /\ exists status body headers,
       snd (call (POST cfg o) s) = inr (Json_response status body headers).
Proof.
  intros Hprod Hkey. unfold issued. rewrite call_eq. cbn [fst snd].
  change (wp (POST cfg o)
            (fun s' t c =>
               List.filter is_work t = []
               /\ s' = s
               /\ exists status body headers,
                    match c with
                    | Normal r => inr r
                    | Return r => inr r
                    | Throw err => inl err
                    end = inr (Json_response status body headers)) s).
  unfold POST.
  repeat (chat_step is_work I I;
          rewrite ?Hprod, ?Hkey in *; cbn [negb andb] in *; try discriminate).
  all: split; [reflexivity|]; split; [reflexivity|].
  all: first [ do 3 eexists; reflexivity
             | unfold error_response; destruct (_ || _); do 3 eexists; reflexivity ].
Qed.

Lemma production_without_gateway_key_never_generates_witness :
  let cfg := {| isDevelopment := false; env := ∅ |} in
  let o := Examples.smooth Examples.opening (Some "session-1")
             (Some Examples.alice) in
  List.filter is_work (issued cfg o ∅) = []
  /\ fst (fst (call (POST cfg o) ∅)) = ∅
  /\ exists status body headers,
       snd (call (POST cfg o) ∅) = inr (Json_response status body headers).
Proof.
  intros cfg o.
  apply (production_without_gateway_key_never_generates cfg o ∅ eq_refl).
  vm_compute. reflexivity.
Defined.

(** X20. A request that is turned down for payment (402) or for the rate limit
    (429) has caused no work behind the guards: no provider was probed or
    selected, no message read or saved, no generation started, the counter
    not incremented; and the store is as it was. *)
Theorem refused_requests_do_no_work
    (cfg : config) (o : oracle) (s : store)
    (status : Z) (body : JS.json) (headers : list (string * string)) :
  snd (call (POST cfg o) s) = inr (Json_response status body headers) ->
  status = 402%Z \/ status = 429%Z ->
  List.filter is_work (issued cfg o s) = []
  /\ fst (fst (call (POST cfg o) s)) = s.
Proof.
  intros Hresp Hstatus.
  assert (Hrun : wp (POST cfg o)
                   (fun s' t c =>
                      match c with
                      | Normal (Json_response st _ _)
                      | Return (Json_response st _ _) =>
                          st = 402%Z \/ st = 429%Z ->
                          List.filter is_work t = [] /\ s' = s
                      | _ => True
                      end) s).
  { unfold POST.
    repeat (chat_step (fun _ : event => false)
              (fun (e : event) (_ : selector_call e) => eq_refl false)
              (fun (e : event) (_ : save_call e) => eq_refl false)).
    all: trivial_leaf.
    all: try (unfold error_response; destruct (_ || _); intros [Hst | Hst];
              discriminate Hst).
    all: intros _; split; reflexivity. }
  unfold issued. rewrite call_eq in Hresp |- *. cbn [fst snd] in Hresp |- *.
  unfold wp in Hrun.
  destruct (outcome (POST cfg o) s) as [r | r | err];
    [| | discriminate Hresp].
  all: injection Hresp as ->; now apply Hrun.
Qed.

Lemma refused_requests_do_no_work_witness :
  let o := Examples.answers Examples.access_granted Examples.over_limit
             (Resolves tt) Db_ok Examples.opening (Some "session-1")
             (Some Examples.alice) in
  (exists body headers,
     snd (call (POST Examples.production o) ∅)
     = inr (Json_response 429 body headers))
  /\ List.filter is_work (issued Examples.production o ∅) = []
  /\ fst (fst (call (POST Examples.production o) ∅)) = ∅.
Proof.
  intros o.
  assert (Hresp : exists body headers,
             snd (call (POST Examples.production o) ∅)
             = inr (Json_response 429 body headers))
    by (do 2 eexists; vm_compute; reflexivity).
  split; [exact Hresp|].
  destruct Hresp as (body & headers & Hresp).
  apply (refused_requests_do_no_work Examples.production o ∅ 429 body headers
           Hresp).
  right. reflexivity.
Defined.

(** X21. When the handler answers with the stream, it has started exactly one
    generation, on the messages of the request and with the id of the
    authenticated user (none for an anonymous one) and the session id as
    the context of the tools; the response carries the keep-alive headers,
    preceded in development mode by the development-mode headers. *)
Theorem served_stream_started_generation_once
    (cfg : config) (o : oracle) (s : store) (hdrs : list (string * string)) :
  snd (call (POST cfg o) s) = inr (Stream_response hdrs) ->
  hdrs = stream_headers cfg
  /\ exists messages sessionId user selected userTier options,
       o_body o = Resolves (messages, sessionId)
       /\ o_getUser o = Resolves user
       /\ List.filter is_streamText (issued cfg o s)
          = [StreamText selected messages (user_id <$> user) userTier
               sessionId options].
Proof.
  intros Hresp.
  assert (Hrun : wp (POST cfg o)
                   (fun _ t c =>
                      match c with
                      | Normal (Stream_response hdrs)
                      | Return (Stream_response hdrs) =>
                          hdrs = stream_headers cfg
                          /\ exists messages sessionId user selected userTier
                               options,
                               o_body o = Resolves (messages, sessionId)
                               /\ o_getUser o = Resolves user
                               /\ List.filter is_streamText t
                                  = [StreamText selected messages
                                       (user_id <$> user) userTier sessionId
                                       options]
                      | _ => True
                      end) s).
  { unfold POST.
    repeat (chat_step is_streamText selector_not_stream save_not_stream).
    all: trivial_leaf.
    all: try (unfold error_response; destruct (_ || _); exact I).
    all: split; [reflexivity|].
    all: do 6 eexists; split; [eassumption|]; split; [eassumption|].
    all: count_streams; reflexivity. }
  unfold issued. rewrite call_eq in Hresp |- *. cbn [fst snd] in Hresp |- *.
  unfold wp in Hrun.
  destruct (outcome (POST cfg o) s) as [r | r | err];
    [| | discriminate Hresp].
  all: injection Hresp as ->; exact Hrun.
Qed.

Lemma served_stream_started_generation_once_witness :
  let o := Examples.smooth Examples.opening (Some "session-1")
             (Some Examples.alice) in
  exists hdrs,
    snd (call (POST Examples.production o) ∅) = inr (Stream_response hdrs)
    /\ hdrs = stream_headers Examples.production
    /\ exists messages sessionId user selected userTier options,
         o_body o = Resolves (messages, sessionId)
         /\ o_getUser o = Resolves user
         /\ List.filter is_streamText (issued Examples.production o ∅)
            = [StreamText selected messages (user_id <$> user) userTier
                 sessionId options].
Proof.
  intros o.
  assert (Hresp : exists hdrs,
             snd (call (POST Examples.production o) ∅)
             = inr (Stream_response hdrs))
    by (eexists; vm_compute; reflexivity).
  destruct Hresp as [hdrs Hresp]. exists hdrs. split; [exact Hresp|].
  exact (served_stream_started_generation_once Examples.production o ∅ hdrs
           Hresp).
Defined.

Lemma selector_not_increment e : selector_call e -> is_increment e = false.
Proof. now destruct e. Qed.

Lemma save_not_increment e : save_call e -> is_increment e = false.
Proof. now destruct e. Qed.

Ltac count_increments :=
  rewrite ?List.filter_app;
  repeat match goal with
         | H : List.filter _ _ = [] |- _ => rewrite H
         end;
  cbn [List.filter is_increment app].

(** X22. A request that is counted is served: the counter is incremented only
    after the stream response has been created, and whatever the increment
    answers (a rejection is logged and swallowed) the handler then answers
    with the stream. *)
Theorem counted_requests_are_served
    (cfg : config) (o : oracle) (s : store) :
  List.filter is_increment (issued cfg o s) <> [] ->
  exists hdrs, snd (call (POST cfg o) s) = inr (Stream_response hdrs).
Proof.
  unfold issued. rewrite call_eq. cbn [fst snd].
  change (wp (POST cfg o)
            (fun _ t c =>
               List.filter is_increment t <> [] ->
               exists hdrs,
                 match c with
                 | Normal r => inr r
                 | Return r => inr r
                 | Throw err => inl err
                 end = inr (Stream_response hdrs)) s).
  unfold POST.
  repeat (chat_step is_increment selector_not_increment save_not_increment).
  all: count_increments.
  all: intros Hcounted; try (now destruct Hcounted).
  all: eexists; reflexivity.
Qed.

Lemma counted_requests_are_served_witness :
  let o := Examples.smooth Examples.opening (Some "session-1")
             (Some Examples.alice) in
  List.filter is_increment (issued Examples.production o ∅) <> []
  /\ exists hdrs,
       snd (call (POST Examples.production o) ∅) = inr (Stream_response hdrs).
Proof.
  intros o.
  assert (Hcounted : List.filter is_increment (issued Examples.production o ∅)
                     <> [])
    by (vm_compute; discriminate).
  split; [exact Hcounted|].
  exact (counted_requests_are_served Examples.production o ∅ Hcounted).
Defined.

(** *** The provider selector *)

Lemma find_preferred_listed (preferred models : list string) (name : string) :
  find_preferred preferred models = Some name -> name ∈ models.
Proof.
  induction preferred as [|p preferred IH]; cbn [find_preferred]; [discriminate|].
  destruct (existsb _ models); [|exact IH].
  intros Hfind. apply List.find_some in Hfind as [Hin _].
  now apply list_elem_of_In.
Qed.

Lemma pick_model_listed (userPreferredModel : option string) (first : string)
    (models : list string) :
  first ∈ models -> pick_model userPreferredModel first models ∈ models.
Proof.
  intros Hfirst. unfold pick_model.
  destruct (JS.truthy userPreferredModel && _) eqn:Hpref.
  - apply andb_true_iff in Hpref as [_ Hin].
    apply List.existsb_exists in Hin as (name & Hin & Heq).
    apply String.eqb_eq in Heq as <-. now apply list_elem_of_In.
  - destruct (find_preferred preferredModels models) as [name|] eqn:Hfind;
      [|exact Hfirst].
    now apply find_preferred_listed in Hfind.
Qed.

Lemma pick_model_preferred (name first : string) (models : list string) :
  name <> "" -> name ∈ models -> pick_model (Some name) first models = name.
Proof.
  intros Hne Hin. unfold pick_model. cbn [JS.truthy default].
  apply String.eqb_neq in Hne. rewrite Hne. cbn [negb andb].
  replace (existsb _ models) with true; [reflexivity|].
  symmetry. apply List.existsb_exists. exists name.
  split; [now apply list_elem_of_In | apply String.eqb_refl].
Qed.

(** The selector took a path that does not end in the model [H] speaks of. *)
Ltac not_this_model H :=
  try discriminate H;
  simplify_eq;
  unfold development_fallback in *;
  repeat match goal with
         | H' : context [if ?b then _ else _] |- _ => destruct b
         end;
  simplify_eq.

(** X23. A local model that the selector chooses is one that the local provider
    listed in its answer to the probe (for LM Studio: one that is not an
    embedding model), chosen in development mode only; and it is marked as
    a reasoning model exactly when its name contains the name of one. *)
Theorem local_model_is_one_listed
    (cfg : config) (o : oracle) (user : option user) (s : store)
    (baseURL apiKey name info : string) (thinking : bool) :
  outcome (select_model cfg o user) s
  = Normal (Local_chat baseURL apiKey name, info, thinking) ->
  isDevelopment cfg = true
  /\ thinking = names_thinking_model name
  /\ exists r body,
       o_fetch o = Resolves r /\ pr_ok r = true /\ pr_json r = Resolves body
       /\ name ∈ listed (localProvider o) body
       /\ (localProvider o = "lmstudio" -> is_chat_model name = true).
Proof.
  change (wp (select_model cfg o user)
            (fun _ _ c =>
               c = Normal (Local_chat baseURL apiKey name, info, thinking) ->
               isDevelopment cfg = true
               /\ thinking = names_thinking_model name
               /\ exists r body,
                    o_fetch o = Resolves r /\ pr_ok r = true
                    /\ pr_json r = Resolves body
                    /\ name ∈ listed (localProvider o) body
                    /\ (localProvider o = "lmstudio" ->
                        is_chat_model name = true)) s).
  unfold select_model, probe_local.
  repeat (wp_step; simplify_eq; unify_answers).
  all: intros Hsel.
  all: lazymatch type of Hsel with
       | Normal (Local_chat _ _ _, _, _) = _ => idtac
       | _ => exfalso; not_this_model Hsel
       end.
  all: injection Hsel as <- <- <- <- <-.
  all: match goal with
       | H : _ && _ = true |- _ => apply andb_true_iff in H as [Hdev _]
       end.
  all: split; [exact Hdev|]; split; [reflexivity|].
  all: do 2 eexists; split; [eassumption|]; split; [assumption|];
    split; [eassumption|].
  all: unfold listed;
    match goal with
    | H : (_ =? "lmstudio")%string = _ |- _ => rewrite H
    end;
    repeat match goal with
           | H : pb_data _ = Some _ |- _ => rewrite H
           | H : default [] _ = _ :: _ |- _ => rewrite H
           end;
    cbn [default].
  - (* LM Studio *)
    pose proof (pick_model_listed (o_headers o !! "x-ollama-model") s0
                  (s0 :: l0) (list_elem_of_here _ _)) as Hin.
    unfold id. rewrite Heql0.
    split; [exact Hin|]. intros _.
    rewrite <- Heql0 in Hin |- *.
    now apply list_elem_of_In, List.filter_In in Hin as [_ Hchat].
  - (* Ollama *)
    split; [apply pick_model_listed, list_elem_of_here|].
    intros Hlm. apply String.eqb_neq in Heqb0. contradiction.
Qed.

Lemma local_model_is_one_listed_witness :
  let o := ChatExamples.local_answers ChatExamples.installed ∅ None
             Examples.opening None None in
  exists baseURL apiKey info,
    outcome (select_model Examples.development o None) ∅
    = Normal (Local_chat baseURL apiKey "deepseek-r1:14b", info, true)
    /\ "deepseek-r1:14b" ∈ ChatExamples.installed
    /\ names_thinking_model "deepseek-r1:14b" = true.
Proof.
  intros o.
  assert (Hsel : exists baseURL apiKey info,
             outcome (select_model Examples.development o None) ∅
             = Normal (Local_chat baseURL apiKey "deepseek-r1:14b", info, true))
    by (do 3 eexists; vm_compute; reflexivity).
  destruct Hsel as (baseURL & apiKey & info & Hsel).
  exists baseURL, apiKey, info. split; [exact Hsel|].
  destruct (local_model_is_one_listed Examples.development o None ∅ baseURL
              apiKey "deepseek-r1:14b" info true Hsel)
    as (_ & Hthinking & r & body & Hfetch & _ & Hjson & Hlisted & _).
  injection Hfetch as <-. injection Hjson as <-.
  split; [exact Hlisted | now symmetry].
Defined.

(** The name of a reasoning model is recognised whatever its case, also
    when it is written with the Kelvin sign, which lower-cases to [k]. *)
Example model_named_with_kelvin_sign_is_reasoning :
  let name := "DeepSeeK-R1:14b" in
  let o := ChatExamples.local_answers [name] ∅ None Examples.opening None None in
  exists baseURL apiKey info,
    outcome (select_model Examples.development o None) ∅
    = Normal (Local_chat baseURL apiKey name, info, true).
Proof. intros name o. do 3 eexists. vm_compute. reflexivity. Qed.

(** X24. The model that the request names in [x-ollama-model] is the one
    selected, whenever the local provider lists it: in development mode
    with local models enabled, a probe that is answered with a list holding
    that name makes the selector choose it, whatever else is listed. *)
Theorem preferred_local_model_is_selected
    (cfg : config) (o : oracle) (user : option user) (s : store)
    (r : probe_response) (body : probe_body) (name : string) :
  isDevelopment cfg = true ->
  o_headers o !! "x-ollama-enabled" <> Some "false" ->
  o_fetch o = Resolves r -> pr_ok r = true -> pr_json r = Resolves body ->
  o_headers o !! "x-ollama-model" = Some name -> name <> "" ->
  name ∈ listed (localProvider o) body ->
  exists baseURL apiKey info,
    outcome (select_model cfg o user) s
    = Normal (Local_chat baseURL apiKey name, info, names_thinking_model name).
Proof.
  intros Hdev Hlocal Hfetch Hok Hjson Hpref Hne Hin.
  unfold select_model, probe_local. rewrite Hdev, (bool_decide_eq_false_2 _ Hlocal).
  cbn [negb andb]. rewrite outcome_try_catch, outcome_bind.
  unfold listed in Hin.
  destruct (String.eqb (localProvider o) "lmstudio") eqn:Hprovider.
  - rewrite outcome_bind, outcome_await, Hfetch, Hok.
    rewrite outcome_bind, outcome_await, Hjson.
    destruct (pb_data body) as [ids|] eqn:Hdata;
      [|now apply elem_of_nil in Hin].
    cbn [default] in Hin. unfold id in Hin. cbn.
    destruct (List.filter is_chat_model ids) as [|first rest] eqn:Hmodels;
      [now apply elem_of_nil in Hin|].
    cbn. rewrite Hpref, (pick_model_preferred name first _ Hne Hin).
    do 3 eexists. reflexivity.
  - rewrite outcome_bind, outcome_await, Hfetch, Hok.
    rewrite outcome_bind, outcome_await, Hjson. cbn.
    destruct (default [] (pb_models body)) as [|first rest] eqn:Hmodels;
      [now apply elem_of_nil in Hin|].
    cbn. rewrite Hpref, (pick_model_preferred name first _ Hne Hin).
    do 3 eexists. reflexivity.
Qed.

Lemma preferred_local_model_is_selected_witness :
  let o := ChatExamples.local_answers ChatExamples.installed
             {[ "x-ollama-model" := "llama3.1:8b" ]} None
             Examples.opening None None in
  exists baseURL apiKey info,
    outcome (select_model Examples.development o None) ∅
    = Normal (Local_chat baseURL apiKey "llama3.1:8b", info,
              names_thinking_model "llama3.1:8b").
Proof.
  intros o.
  apply (preferred_local_model_is_selected Examples.development o None ∅
           {| pr_ok := true; pr_status := 200;
              pr_json := Resolves {| pb_data := None;
                                     pb_models := Some ChatExamples.installed |} |}
           {| pb_data := None; pb_models := Some ChatExamples.installed |}
           "llama3.1:8b").
  - reflexivity.
  - vm_compute. discriminate.
  - reflexivity.
  - reflexivity.
  - reflexivity.
  - vm_compute. reflexivity.
  - discriminate.
  - vm_compute. apply list_elem_of_further, list_elem_of_here.
Defined.

(** X25. The usage-tracked model is selected only for an authenticated user
    whose profile says the subscription is active and on the pay-per-use
    tier, and never on the local path of development mode; it is then
    tracked under that user's id. *)
Theorem tracked_model_only_for_active_pay_per_use
    (cfg : config) (o : oracle) (user : option user) (s : store)
    (userId id info : string) (thinking : bool) :
  outcome (select_model cfg o user) s
  = Normal (Polar_tracked userId id, info, thinking) ->
  exists u userData,
    user = Some u /\ userId = user_id u /\ id = "gpt-5"
    /\ o_profile_model o = Resolves userData
    /\ is_active userData = true
    /\ tier_of userData = "pay_per_use"
    /\ (isDevelopment cfg = false
        \/ o_headers o !! "x-ollama-enabled" = Some "false").
Proof.
  change (wp (select_model cfg o user)
            (fun _ _ c =>
               c = Normal (Polar_tracked userId id, info, thinking) ->
               exists u userData,
                 user = Some u /\ userId = user_id u /\ id = "gpt-5"
                 /\ o_profile_model o = Resolves userData
                 /\ is_active userData = true
                 /\ tier_of userData = "pay_per_use"
                 /\ (isDevelopment cfg = false
                     \/ o_headers o !! "x-ollama-enabled" = Some "false")) s).
  unfold select_model, probe_local.
  repeat (wp_step; simplify_eq; unify_answers).
  all: intros Hsel.
  all: lazymatch type of Hsel with
       | Normal (Polar_tracked _ _, _, _) = _ => idtac
       | _ => exfalso; not_this_model Hsel
       end.
  all: injection Hsel as <- <- <- <-.
  all: match goal with
       | H : _ && _ = true |- _ => apply andb_true_iff in H as [Hactive Htier]
       end.
  all: apply String.eqb_eq in Htier.
  all: do 2 eexists; repeat split; try eassumption; try reflexivity.
  all: match goal with
       | H : _ && _ = false |- _ =>
           apply andb_false_iff in H as [H | H];
           [ left; exact H
           | right; apply negb_false_iff, bool_decide_eq_true in H; exact H ]
       end.
Qed.

Lemma tracked_model_only_for_active_pay_per_use_witness :
  let o := ChatExamples.local_answers [] ∅ (Some ChatExamples.pay_per_use)
             Examples.opening (Some "session-1") (Some Examples.alice) in
  exists info,
    outcome (select_model Examples.production o (Some Examples.alice)) ∅
    = Normal (Polar_tracked "user-1" "gpt-5", info, false)
    /\ is_active (Some ChatExamples.pay_per_use) = true
    /\ tier_of (Some ChatExamples.pay_per_use) = "pay_per_use".
Proof.
  intros o.
  assert (Hsel : exists info,
             outcome (select_model Examples.production o (Some Examples.alice)) ∅
             = Normal (Polar_tracked "user-1" "gpt-5", info, false))
    by (eexists; vm_compute; reflexivity).
  destruct Hsel as [info Hsel]. exists info. split; [exact Hsel|].
  destruct (tracked_model_only_for_active_pay_per_use Examples.production o
              (Some Examples.alice) ∅ "user-1" "gpt-5" info false Hsel)
    as (u & userData & _ & _ & _ & Hprofile & Hactive & Htier & _).
  injection Hprofile as <-. split; assumption.
Defined.

(** *** The provider options *)

Lemma includes_unfold (s needle : string) :
  JS.includes s needle
  = String.prefix needle s
    || match s with
       | EmptyString => false
       | String _ s' => JS.includes s' needle
       end.
Proof. now destruct s. Qed.

Lemma prefix_append (p rest : string) : String.prefix p (p +:+ rest) = true.
Proof.
  induction p as [|a p IH]; [now destruct rest|].
  rewrite CsvFacts.append_cons. cbn [String.prefix].
  destruct (ascii_dec a a) as [_|Hne]; [exact IH | now destruct Hne].
Qed.

Lemma includes_own_prefix (p rest : string) : JS.includes (p +:+ rest) p = true.
Proof. now rewrite includes_unfold, prefix_append. Qed.

Ltac compute_includes :=
  repeat match goal with
         | |- context [JS.includes ?a ?b] =>
             let v := eval vm_compute in (JS.includes a b) in
             change (JS.includes a b) with v
         end.

(** What the selector produces, as far as the provider options depend on
    it. *)
Lemma select_model_coherent (cfg : config) (o : oracle) (user : option user)
    (s : store) :
  wp (select_model cfg o user)
     (fun s1 t1 c1 =>
        s1 = s /\ List.filter is_streamText t1 = []
        /\ match c1 with
           | Normal selected => coherent cfg o selected
           | Return _ => False
           | Throw _ => True
           end) s.
Proof.
  unfold wp at 1. split; [apply select_model_reads_only|].
  split; [apply (filter_emits _ selector_call);
          [apply selector_not_stream | apply select_model_emits]|].
  change (wp (select_model cfg o user)
            (fun _ _ c1 =>
               match c1 with
               | Normal selected => coherent cfg o selected
               | Return _ => False
               | Throw _ => True
               end) s).
  unfold select_model, probe_local.
  repeat (wp_step; simplify_eq; unify_answers).
  all: trivial_leaf.
  all: unfold coherent, isUsingLocalProvider.
  all: try match goal with
           | H : development_fallback _ _ = _ |- _ =>
               unfold development_fallback in H;
               repeat match type of H with
                      | context [if JS.truthy ?k then _ else _] =>
                          destruct (JS.truthy k)
                      end;
               simplify_eq; compute_includes; apply andb_false_r
           end.
  all: repeat match goal with
         | |- context [if JS.truthy ?k then _ else _] => destruct (JS.truthy k)
         end.
  all: try match goal with
           | H : _ && _ = false |- _ => rewrite H; reflexivity
           end.
  all: match goal with
       | H : _ && _ = true |- _ => rewrite H
       end.
  all: rewrite includes_own_prefix.
  all: split; [now rewrite ?orb_true_r | reflexivity].
Qed.

Lemma fits_of_streams (t : list event) :
  Forall options_fit (List.filter is_streamText t) -> Forall options_fit t.
Proof.
  induction t as [|e t IH]; [constructor|].
  cbn [List.filter]. destruct (is_streamText e) eqn:He.
  - intros Ht. apply Forall_cons in Ht as [He' Ht]. constructor; auto.
  - intros Ht. constructor; [now destruct e | now apply IH].
Qed.

Ltac fit_step :=
  lazymatch goal with
  | |- wp (select_model _ _ _) _ _ =>
      apply (wp_use _ _ _ _ (select_model_coherent _ _ _ _));
      let c := fresh "c" in let Hq := fresh "Hq" in let Hc := fresh "Hc" in
      intros ? ? c (-> & Hq & Hc);
      destruct c as [[[? ?] ?] | r | ?]; [| contradiction |]
  | |- wp (save_user_message _ _ _ _) _ _ =>
      apply (wp_save_quiet _ _ _ _ is_streamText); [exact save_not_stream|];
      let c := fresh "c" in let Hq := fresh "Hq" in let Hc := fresh "Hc" in
      intros ? ? c Hq Hc;
      destruct c as [? | r | ?]; [| now destruct (Hc r) |]
  | |- wp (access_gate _ _ _) _ _ => unfold access_gate
  | |- wp (rate_limit_gate _ _ _ _) _ _ => unfold rate_limit_gate
  | |- wp (increment_rate_limit _ _ _ _) _ _ => unfold increment_rate_limit
  | |- wp (if ?b then _ else _) _ _ => destruct b eqn:?
  | |- wp _ _ _ => wp_step
  end;
  cbv beta iota; simplify_eq; unify_answers.

(** X26. The provider options of every generation fit the selected model: a
    local model (Ollama or LM Studio, through the OpenAI-compatible client)
    is given the [think] option, set exactly when its name contains the
    name of a reasoning model; every hosted model is given the OpenAI
    reasoning options and never the [think] option. *)
Theorem provider_options_fit_the_model
    (cfg : config) (o : oracle) (s : store) :
  Forall options_fit (issued cfg o s).
Proof.
  unfold issued. rewrite call_eq. cbn [fst snd].
  apply fits_of_streams.
  change (wp (POST cfg o)
            (fun _ t _ => Forall options_fit (List.filter is_streamText t)) s).
  unfold POST.
  repeat fit_step.
  all: count_streams.
  all: lazymatch goal with
       | |- Forall _ [] => constructor
       | |- _ => apply Forall_cons; split; [|constructor]
       end.
  all: change (isDevelopment cfg
               && negb (bool_decide (o_headers o !! "x-ollama-enabled" = Some "false"))
               && (JS.includes ?info "Ollama" || JS.includes ?info "LM Studio"))
         with (isUsingLocalProvider cfg o info).
  all: unfold coherent in *.
  all: match goal with
       | |- options_fit (StreamText ?m _ _ _ _ _) => destruct m
       end.
  all: repeat match goal with
              | H : _ /\ _ |- _ => destruct H
              end.
  all: match goal with
       | H : isUsingLocalProvider _ _ _ = _ |- _ => rewrite H
       end.
  all: first [ exact I | assumption ].
Qed.

(** *** The early save *)

Ltac save_throw_step :=
  lazymatch goal with
  | |- wp (mapM (parse_content _) _) _ _ =>
      apply (wp_use _ (fun _ t1 c1 => t1 = [] /\ forall r, c1 <> Return r));
      [ unfold wp; split;
        [ apply Forall_False_nil, emits_mapM, parse_content_emits
        | apply falls_through_mapM, parse_content_falls_through ]
      | let c := fresh "c" in let Hc := fresh "Hc" in
        intros ? ? c [-> Hc];
        destruct c as [? | r | ?]; [| now destruct (Hc r) |] ]
  | |- wp _ _ _ => wp_step
  end;
  cbv beta iota; simplify_eq.

(** The early save when the persistence layer throws on saving: either no
    save was attempted, or the block ends by throwing what the persistence
    layer threw. *)
Lemma save_user_message_when_save_throws
    (o : oracle) (user : option user) (sessionId : option string)
    (messages : list message) (err : JS.exn) (s : store) :
  o_saveChatMessages o = Db_throws err ->
  wp (save_user_message o user sessionId messages)
     (fun _ t1 c1 =>
        List.filter is_streamText t1 = []
        /\ (List.filter is_save t1 = [] \/ c1 = Throw err)
        /\ forall r, c1 <> Return r) s.
Proof.
  intros Hthrow. unfold wp at 1.
  split; [apply (filter_emits _ save_call);
          [apply save_not_stream | apply save_user_message_emits]|].
  split; [|apply save_user_message_falls_through].
  change (wp (save_user_message o user sessionId messages)
            (fun _ t1 c1 => List.filter is_save t1 = [] \/ c1 = Throw err) s).
  unfold save_user_message, db_getChatMessages, saveChatMessages,
    db_updateChatSession.
  rewrite Hthrow.
  repeat save_throw_step.
  all: first [ left; reflexivity | right; reflexivity ].
Qed.

Ltac abort_step Hthrow :=
  lazymatch goal with
  | |- wp (select_model _ _ _) _ _ =>
      apply (wp_use _ _ _ _
               (wp_judged selector_call _ _ (select_model_emits _ _ _)
                  (select_model_falls_through _ _ _)
                  (select_model_reads_only _ _ _)));
      let c := fresh "c" in let Ht := fresh "Ht" in let Hc := fresh "Hc" in
      intros ? ? c (-> & Ht & Hc);
      pose proof (filter_emits is_save selector_call _ selector_not_save Ht);
      pose proof (filter_emits is_streamText selector_call _ selector_not_stream Ht);
      destruct c as [? | r | ?]; [| now destruct (Hc r) |]
  | |- wp (save_user_message _ _ _ _) _ _ =>
      apply (wp_use _ _ _ _
               (save_user_message_when_save_throws _ _ _ _ _ _ Hthrow));
      let c := fresh "c" in let Hq := fresh "Hq" in
      let Hs := fresh "Hs" in let Hc := fresh "Hc" in
      intros ? ? c (Hq & Hs & Hc);
      destruct c as [? | r | ?]; [| now destruct (Hc r) |];
      destruct Hs as [Hs | Hs]; try discriminate Hs
  | |- wp (access_gate _ _ _) _ _ => unfold access_gate
  | |- wp (rate_limit_gate _ _ _ _) _ _ => unfold rate_limit_gate
  | |- wp (increment_rate_limit _ _ _ _) _ _ => unfold increment_rate_limit
  | |- wp (if ?b then _ else _) _ _ => destruct b eqn:?
  | |- wp _ _ _ => wp_step
  end;
  cbv beta iota; simplify_eq; unify_answers.

Ltac count_saves_and_streams :=
  rewrite ?List.filter_app;
  repeat match goal with
         | H : List.filter _ _ = [] |- _ => rewrite H
         end;
  cbn [List.filter is_save is_streamText app].

(** X27. When the persistence layer throws on the early save of the user
    message, the request fails before any generation is started: the
    handler answers with the error response made from what was thrown. (A
    save that only reports an error, without throwing, does not stop the
    generation.) *)
Theorem failed_early_save_aborts_generation
    (cfg : config) (o : oracle) (s : store) (err : JS.exn) :
  o_saveChatMessages o = Db_throws err ->
  List.filter is_save (issued cfg o s) <> [] ->
  List.filter is_streamText (issued cfg o s) = []
  /\ snd (call (POST cfg o) s) = inr (error_response o err).
Proof.
  intros Hthrow. unfold issued. rewrite call_eq. cbn [fst snd].
  change (wp (POST cfg o)
            (fun _ t c =>
               List.filter is_save t <> [] ->
               List.filter is_streamText t = []
               /\ match c with
                  | Normal r => inr r
                  | Return r => inr r
                  | Throw e => inl e
                  end = inr (error_response o err)) s).
  unfold POST.
  repeat abort_step Hthrow.
  all: count_saves_and_streams.
  all: intros Hsaved; try (now destruct Hsaved).
  all: split; reflexivity.
Qed.

Lemma failed_early_save_aborts_generation_witness :
  let o := ChatExamples.save_throws Examples.opening (Some "session-1")
             (Some Examples.alice) in
  List.filter is_save (issued Examples.production o ∅) <> []
  /\ List.filter is_streamText (issued Examples.production o ∅) = []
  /\ snd (call (POST Examples.production o) ∅)
     = inr (error_response o (JS.Error "connection refused")).
Proof.
  intros o.
  assert (Hsaved : List.filter is_save (issued Examples.production o ∅) <> [])
    by (vm_compute; discriminate).
  split; [exact Hsaved|].
  exact (failed_early_save_aborts_generation Examples.production o ∅
           (JS.Error "connection refused") eq_refl Hsaved).
Defined.

End ChatGuardFacts.

(* ===================================================================== *)
(** ** Saving the conversation when the stream ends *)
(* ===================================================================== *)

Module FinishFacts.
Import Flow FlowFacts ChatFinish.

(** Without an authenticated user or without a session id, [onFinish]
    saves nothing: it makes no call and leaves the store as it was. *)
Theorem onFinish_without_user_or_session_is_silent
    (o : finish_oracle) (processingStartTime : Z)
    (user : option ChatRoute.user) (sessionId : option string)
    (allMessages : list ui_message) (s : store) :
  user = None \/ JS.truthy sessionId = false ->
  call (onFinish o processingStartTime user sessionId allMessages) s
  = (s, [], inr tt).
Proof.
  intros [-> | Hsid]; [reflexivity|].
  unfold onFinish. rewrite Hsid. now destruct user.
Qed.

Lemma onFinish_without_user_or_session_is_silent_witness :
  call (onFinish FinishExamples.finish_ok 1000 None (Some "session-1")
          FinishExamples.conversation) ∅
  = (∅, [], inr tt)
  /\ call (onFinish FinishExamples.finish_ok 1000 (Some Examples.alice) None
             FinishExamples.conversation) ∅
     = (∅, [], inr tt).
Proof.
  split.
  - apply (onFinish_without_user_or_session_is_silent FinishExamples.finish_ok
             1000 None (Some "session-1") FinishExamples.conversation ∅).
    left. reflexivity.
  - apply (onFinish_without_user_or_session_is_silent FinishExamples.finish_ok
             1000 (Some Examples.alice) None FinishExamples.conversation ∅).
    right. reflexivity.
Defined.

Lemma messagesToSave_lookup (o : finish_oracle) (t : Z)
    (allMessages : list ui_message) (i : nat) :
  messagesToSave o t allMessages !! i
  = toSave o t (length allMessages) i <$> allMessages !! i.
Proof. unfold messagesToSave. apply list_lookup_imap. Qed.

Lemma messagesToSave_roles (o : finish_oracle) (t : Z)
    (allMessages : list ui_message) :
  sv_role <$> messagesToSave o t allMessages = um_role <$> allMessages
  /\ sv_content <$> messagesToSave o t allMessages = contentToSave <$> allMessages.
Proof.
  unfold messagesToSave. generalize (length allMessages) as total.
  intros total. rewrite !fmap_imap. split.
  - rewrite <- (imap_const um_role allMessages) at 1.
    apply imap_ext. reflexivity.
  - rewrite <- (imap_const contentToSave allMessages) at 1.
    apply imap_ext. reflexivity.
Qed.

(** X28. For an authenticated user with a session, when the save succeeds the
    session holds afterwards exactly the conversation that ended: one saved
    message per message of the conversation, in order, with the same roles
    and with the parts of each message as content (for a message of the
    older format: its text as a single text part, or its array). Whatever
    was stored for the session before is replaced; the save is the first
    call, and the only save. *)
Theorem onFinish_replaces_session_with_conversation
    (o : finish_oracle) (processingStartTime : Z) (u : ChatRoute.user)
    (sessionId : option string) (allMessages : list ui_message) (s : store) :
  JS.truthy sessionId = true ->
  fo_save o = Db_ok ->
  let run := call (onFinish o processingStartTime (Some u) sessionId
                     allMessages) s in
  exists saved rest,
    snd (fst run) = SaveChatMessages (default "" sessionId) saved :: rest
    /\ List.filter is_save rest = []
    /\ fst (fst run) = <[default "" sessionId := saved]> s
    /\ fst (fst run) !! default "" sessionId = Some saved
    /\ length saved = length allMessages
    /\ sv_role <$> saved = um_role <$> allMessages
    /\ sv_content <$> saved = contentToSave <$> allMessages.
Proof.
  intros Hsid Hsave run. subst run.
  exists (messagesToSave o (fo_now o - processingStartTime) allMessages).
  destruct (messagesToSave_roles o (fo_now o - processingStartTime) allMessages)
    as [Hroles Hcontents].
  assert (Hlen : length (messagesToSave o (fo_now o - processingStartTime)
                           allMessages) = length allMessages)
    by (unfold messagesToSave; apply length_imap).
  rewrite call_eq. cbn [fst snd].
  change (wp (onFinish o processingStartTime (Some u) sessionId allMessages)
            (fun s' t _ =>
               exists rest,
                 t = SaveChatMessages (default "" sessionId)
                       (messagesToSave o (fo_now o - processingStartTime)
                          allMessages) :: rest
                 /\ List.filter is_save rest = []
                 /\ s' = <[default "" sessionId :=
                             messagesToSave o (fo_now o - processingStartTime)
                               allMessages]> s
                 /\ s' !! default "" sessionId
                    = Some (messagesToSave o (fo_now o - processingStartTime)
                              allMessages)
                 /\ length (messagesToSave o (fo_now o - processingStartTime)
                              allMessages) = length allMessages
                 /\ sv_role <$> messagesToSave o (fo_now o - processingStartTime)
                                  allMessages = um_role <$> allMessages
                 /\ sv_content <$> messagesToSave o
                                     (fo_now o - processingStartTime) allMessages
                    = contentToSave <$> allMessages) s).
  unfold onFinish, saveChatMessages, db_updateChatSession.
  rewrite Hsid, Hsave. cbv zeta.
  repeat (wp_step; simplify_eq).
  all: eexists; split; [reflexivity|]; split; [reflexivity|];
    split; [reflexivity|]; split; [apply lookup_insert_eq|];
    split; [exact Hlen|]; split; assumption.
Qed.

Lemma onFinish_replaces_session_with_conversation_witness :
  let run := call (onFinish FinishExamples.finish_ok 1000 (Some Examples.alice)
                     (Some "session-1") FinishExamples.conversation) ∅ in
  exists saved rest,
    snd (fst run) = SaveChatMessages "session-1" saved :: rest
    /\ List.filter is_save rest = []
    /\ fst (fst run) = <["session-1" := saved]> ∅
    /\ fst (fst run) !! "session-1" = Some saved
    /\ length saved = 2%nat
    /\ sv_role <$> saved = ["user"; "assistant"]
    /\ sv_content <$> saved = contentToSave <$> FinishExamples.conversation.
Proof.
  exact (onFinish_replaces_session_with_conversation FinishExamples.finish_ok
           1000 Examples.alice (Some "session-1") FinishExamples.conversation ∅
           eq_refl eq_refl).
Defined.

(** When the save does not succeed, the session's timestamp is not
    touched and the store is as it was: a reported error is logged and
    [onFinish] completes; a thrown error is thrown by [onFinish], which has
    no handler for it. *)
Theorem onFinish_failed_save_leaves_session_alone
    (o : finish_oracle) (processingStartTime : Z) (u : ChatRoute.user)
    (sessionId : option string) (allMessages : list ui_message) (s : store) :
  JS.truthy sessionId = true ->
  fo_save o <> Db_ok ->
  let run := call (onFinish o processingStartTime (Some u) sessionId
                     allMessages) s in
  fst (fst run) = s
  /\ List.filter is_update (snd (fst run)) = []
  /\ match fo_save o with
     | Db_throws err => snd run = inl err
     | _ =>
         snd run = inr tt
         /\ Console_error "[Chat API] Error saving messages:" ∈ snd (fst run)
     end.
Proof.
  intros Hsid Hsave run. subst run. rewrite call_eq. cbn [fst snd].
  change (wp (onFinish o processingStartTime (Some u) sessionId allMessages)
            (fun s' t c =>
               s' = s /\ List.filter is_update t = []
               /\ match fo_save o with
                  | Db_throws err =>
                      match c with
                      | Normal r => inr r
                      | Return r => inr r
                      | Throw e => inl e
                      end = inl err
                  | _ =>
                      match c with
                      | Normal r => inr r
                      | Return r => inr r
                      | Throw e => inl e
                      end = inr tt
                      /\ Console_error "[Chat API] Error saving messages:" ∈ t
                  end) s).
  unfold onFinish, saveChatMessages, db_updateChatSession.
  rewrite Hsid. cbv zeta.
  destruct (fo_save o) as [| |err]; [now destruct Hsave | |].
  all: repeat (wp_step; simplify_eq).
  - split; [reflexivity|]. split; [reflexivity|]. split; [reflexivity|].
    apply list_elem_of_further, list_elem_of_here.
  - now repeat split.
Qed.

Lemma onFinish_failed_save_leaves_session_alone_witness :
  let run := call (onFinish FinishExamples.finish_save_fails 1000
                     (Some Examples.alice) (Some "session-1")
                     FinishExamples.conversation) ∅ in
  fst (fst run) = ∅
  /\ List.filter is_update (snd (fst run)) = []
  /\ snd run = inr tt
  /\ Console_error "[Chat API] Error saving messages:" ∈ snd (fst run).
Proof.
  exact (onFinish_failed_save_leaves_session_alone
           FinishExamples.finish_save_fails 1000 Examples.alice
           (Some "session-1") FinishExamples.conversation ∅ eq_refl
           ltac:(discriminate)).
Defined.

Lemma hex_run_length (n : nat) (s rest : string) :
  hex_run n s = Some rest -> String.length s = (n + String.length rest)%nat.
Proof.
  revert s. induction n as [|n IH]; intros s; cbn [hex_run].
  - intros Heq. now injection Heq as ->.
  - destruct s as [|c s]; [discriminate|].
    destruct (is_hex c); [|discriminate].
    intros Hrun. apply IH in Hrun. cbn [String.length]. lia.
Qed.

Lemma hyphen_length (s rest : string) :
  hyphen s = Some rest -> String.length s = S (String.length rest).
Proof.
  destruct s as [|c s]; [discriminate|]. cbn [hyphen].
  destruct (Ascii.eqb c "-"); [|discriminate].
  intros Heq. now injection Heq as ->.
Qed.

Lemma is_uuid_length (s : string) : is_uuid s = true -> String.length s = 36%nat.
Proof.
  unfold is_uuid. cbn [hex_groups].
  repeat match goal with
         | |- context [match hex_run ?n ?x with _ => _ end] =>
             let r := fresh "r" in let H := fresh "Hrun" in
             destruct (hex_run n x) as [r|] eqn:H; [|discriminate];
             apply hex_run_length in H
         | |- context [match hyphen ?x with _ => _ end] =>
             let r := fresh "r" in let H := fresh "Hhyphen" in
             destruct (hyphen x) as [r|] eqn:H; [|discriminate];
             apply hyphen_length in H
         end.
  match goal with
  | |- match ?last with _ => _ end = true -> _ =>
      destruct last; [|discriminate]
  end.
  intros _. cbn [String.length] in *. lia.
Qed.

(** X29. The id under which [onFinish] saves a message is the message's own id
    when that is a well-formed UUID (36 characters: groups of 8, 4, 4, 4
    and 12 hexadecimal digits of either case, separated by hyphens), and is
    kept as it is; any other id, and a missing one, is replaced by a
    generated UUID. *)
Theorem saved_ids_are_kept_or_generated
    (o : finish_oracle) (processingTimeMs : Z) (allMessages : list ui_message)
    (i : nat) (message : ui_message) :
  allMessages !! i = Some message ->
  exists saved,
    messagesToSave o processingTimeMs allMessages !! i = Some saved
    /\ ((um_id message = Some (sv_id saved)
         /\ is_uuid (sv_id saved) = true
         /\ String.length (sv_id saved) = 36%nat)
        \/ (sv_id saved = fo_uuid o i
            /\ forall id, um_id message = Some id -> is_uuid id = false)).
Proof.
  intros Hmsg. rewrite messagesToSave_lookup, Hmsg. cbn [fmap option_fmap option_map].
  eexists. split; [reflexivity|]. cbn [sv_id toSave].
  destruct (um_id message) as [given|] eqn:Hid;
    cbn [JS.truthy from_option]; unfold Datatypes.id.
  - destruct (is_uuid given) eqn:Huuid.
    + assert (Hne : String.eqb given "" = false).
      { destruct given; [discriminate Huuid | reflexivity]. }
      rewrite Hne. cbn [negb andb]. left.
      split; [reflexivity|]. split; [exact Huuid | now apply is_uuid_length].
    + rewrite andb_false_r. right. split; [reflexivity|].
      intros id' Heq. now injection Heq as <-.
  - right. split; [reflexivity|]. discriminate.
Qed.

Lemma saved_ids_are_kept_or_generated_witness :
  (exists saved,
     messagesToSave FinishExamples.finish_ok 4250 FinishExamples.conversation
       !! 1%nat = Some saved
     /\ sv_id saved = "0b9e7c0e-5A55-4c3a-9d3c-2f1d6a7e8b90")
  /\ (exists saved,
        messagesToSave FinishExamples.finish_ok 4250 FinishExamples.conversation
          !! 0%nat = Some saved
        /\ sv_id saved = "7f3c2b1a-9d8e-4f6a-8b7c-1a2b3c4d5e6f").
Proof.
  split.
  - destruct (saved_ids_are_kept_or_generated FinishExamples.finish_ok 4250
                FinishExamples.conversation 1 FinishExamples.reply eq_refl)
      as (saved & Hsaved & [(Hid & _) | (_ & Hnot)]).
    + exists saved. split; [exact Hsaved|].
      injection Hid as Hid. now symmetry.
    + exfalso. specialize (Hnot _ eq_refl). vm_compute in Hnot.
      discriminate Hnot.
  - destruct (saved_ids_are_kept_or_generated FinishExamples.finish_ok 4250
                FinishExamples.conversation 0 FinishExamples.question eq_refl)
      as (saved & Hsaved & [(Hid & Huuid & _) | (Hgen & _)]).
    + exfalso. injection Hid as Hid. rewrite <- Hid in Huuid.
      vm_compute in Huuid. discriminate Huuid.
    + exists saved. split; [exact Hsaved | exact Hgen].
Defined.

(** At most one saved message carries a processing time: the last message
    of the conversation, and only when it is an assistant message; the time
    it carries is the time between the start of the processing and the end
    of the stream. *)
Theorem processing_time_on_last_assistant_message_only
    (o : finish_oracle) (processingStartTime : Z) (u : ChatRoute.user)
    (sessionId : option string) (allMessages : list ui_message) (s : store)
    (saved : list saved_message) (i : nat) (m : saved_message) (elapsed : Z) :
  SaveChatMessages (default "" sessionId) saved
  ∈ snd (fst (call (onFinish o processingStartTime (Some u) sessionId
                      allMessages) s)) ->
  saved !! i = Some m ->
  sv_processing_time_ms m = Some elapsed ->
  S i = length allMessages
  /\ sv_role m = "assistant"
  /\ elapsed = (fo_now o - processingStartTime)%Z.
Proof.
  rewrite call_eq. cbn [fst snd].
  change (wp (onFinish o processingStartTime (Some u) sessionId allMessages)
            (fun _ t _ =>
               SaveChatMessages (default "" sessionId) saved ∈ t ->
               saved !! i = Some m ->
               sv_processing_time_ms m = Some elapsed ->
               S i = length allMessages
               /\ sv_role m = "assistant"
               /\ elapsed = (fo_now o - processingStartTime)%Z) s).
  assert (Hsaved :
            saved = messagesToSave o (fo_now o - processingStartTime) allMessages ->
            saved !! i = Some m ->
            sv_processing_time_ms m = Some elapsed ->
            S i = length allMessages
            /\ sv_role m = "assistant"
            /\ elapsed = (fo_now o - processingStartTime)%Z).
  { intros ->. rewrite messagesToSave_lookup.
    destruct (allMessages !! i) as [message|]; [|discriminate].
    cbn [fmap option_fmap option_map]. intros Heq. injection Heq as <-.
    cbn [sv_processing_time_ms sv_role toSave].
    destruct (String.eqb (um_role message) "assistant") eqn:Hrole;
      [|discriminate].
    destruct (S i =? length allMessages)%nat eqn:Hlast; [|discriminate].
    cbn [andb]. intros Heq. injection Heq as <-.
    apply String.eqb_eq in Hrole. apply Nat.eqb_eq in Hlast. now repeat split. }
  unfold onFinish, saveChatMessages, db_updateChatSession. cbv zeta.
  repeat (wp_step; simplify_eq).
  all: intros Hin; rewrite ?app_nil_r in Hin.
  all: repeat (apply elem_of_app in Hin as [Hin|Hin]).
  all: repeat (apply elem_of_cons in Hin as [Hin|Hin]).
  all: try (now apply elem_of_nil in Hin); try discriminate Hin.
  all: injection Hin as Hin; now apply Hsaved.
Qed.

Lemma processing_time_on_last_assistant_message_only_witness :
  let run := call (onFinish FinishExamples.finish_ok 1000 (Some Examples.alice)
                     (Some "session-1") FinishExamples.conversation) ∅ in
  exists saved m,
    SaveChatMessages "session-1" saved ∈ snd (fst run)
    /\ saved !! 1%nat = Some m
    /\ sv_processing_time_ms m = Some 4250%Z
    /\ sv_role m = "assistant".
Proof.
  intros run.
  assert (Hrun : exists saved m,
             SaveChatMessages "session-1" saved ∈ snd (fst run)
             /\ saved !! 1%nat = Some m
             /\ sv_processing_time_ms m = Some 4250%Z).
  { do 2 eexists. split; [vm_compute; apply list_elem_of_here|].
    split; reflexivity. }
  destruct Hrun as (saved & m & Hin & Hm & Htime).
  exists saved, m. split; [exact Hin|]. split; [exact Hm|]. split; [exact Htime|].
  apply (processing_time_on_last_assistant_message_only
           FinishExamples.finish_ok 1000 Examples.alice (Some "session-1")
           FinishExamples.conversation ∅ saved 1 m 4250 Hin Hm Htime).
Defined.

End FinishFacts.

(* ===================================================================== *)
(** ** The missing-keys dialog *)
(* ===================================================================== *)

Module DialogFacts.
Import Flow MissingKeys.

Ltac present :=
  repeat first [ apply list_elem_of_here | apply list_elem_of_further ].

Ltac absent H :=
  repeat (apply elem_of_cons in H as [H|H]; [discriminate H|]);
  now apply elem_of_nil in H.

(** X30. After the component has mounted and its effect has run, the dialog is
    rendered exactly when it is open: a dialog is shown only when the status
    was fetched (successfully, and before the component was unmounted) and
    the Valyu, Daytona or AI Gateway key is missing; it is then open and
    its notices are exactly the missing ones among these three keys. The
    OpenAI key plays no part. *)
Theorem dialog_shows_exactly_the_missing_keys
    (fetch : answer env_response) (cancelled : bool) :
  let st := effect fetch cancelled initial in
  match render st with
  | None => open st = false
  | Some dlg =>
      dlg_open dlg = true
      /\ open st = true
      /\ exists envRes envData,
           fetch = Resolves envRes /\ er_ok envRes = true
           /\ er_json envRes = Resolves envData /\ cancelled = false
           /\ dlg_notices dlg <> []
           /\ (Missing_valyu ∈ dlg_notices dlg
               <-> valyuKeyPresent envData = false)
           /\ (Missing_daytona ∈ dlg_notices dlg
               <-> daytonaKeyPresent envData = false)
           /\ ((exists qualifier, Missing_gateway qualifier ∈ dlg_notices dlg)
               <-> aiGatewayKeyPresent envData = false)
  end.
Proof.
  intros st. subst st. unfold effect, initial.
  destruct fetch as [[ok [envData | err]] | err]; try reflexivity;
    destruct ok; try reflexivity.
  destruct cancelled; [reflexivity|].
  unfold render. cbn.
  destruct envData as [valyu daytona openai gateway required dev]. cbn.
  destruct valyu, daytona, gateway; cbn; try reflexivity.
  all: split; [reflexivity|]; split; [reflexivity|].
  all: do 2 eexists.
  all: do 4 (split; [reflexivity|]).
  all: split; [discriminate|].
  all: repeat split.
  all: lazymatch goal with
       | |- (exists _, _) -> _ =>
           intros [qualifier Hin];
           first [ reflexivity | exfalso; absent Hin ]
       | |- _ ∈ _ -> _ =>
           intros Hin; first [ reflexivity | exfalso; absent Hin ]
       | |- _ -> exists _, _ =>
           intros Heq; first [ discriminate Heq | eexists; present ]
       | |- _ -> _ ∈ _ =>
           intros Heq; first [ discriminate Heq | present ]
       end.
Qed.

(** With the Daytona key missing, the dialog opens with that one notice. *)
Example dialog_for_missing_daytona_key :
  render (effect (Resolves {| er_ok := true;
                              er_json := Resolves FinishExamples.daytona_missing |})
            false initial)
  = Some {| dlg_open := true; dlg_notices := [Missing_daytona] |}.
Proof. reflexivity. Qed.

(** Dismissing the dialog closes it and changes nothing else: the same
    notices stay rendered, with the dialog closed. *)
Theorem dismissed_dialog_is_closed (st : state) :
  render (setOpen false st)
  = (fun dlg => {| dlg_open := false; dlg_notices := dlg_notices dlg |})
      <$> render st.
Proof.
  unfold render, setOpen. cbn [status open].
  destruct (status st) as [status|]; [|reflexivity].
  now destruct (_ && _ && _).
Qed.

End DialogFacts.
